(** * Feature assembly and ensemble training pipeline (ml_models)

    A shallow embedding of [data_preprocessing.py],
    [train_performance_models.py] and [train_recommendation_models.py],
    and of the row generators of [generate_dataset.py] and
    [seed_test_data.py].

    Modelling conventions.
    - An entity table (a pandas DataFrame built from the rows of a store
      table) is a list of records in row order; its index is the default
      RangeIndex, so the position of a row in the list is its index label.
      [fetch_all_data] builds every table with [pd.DataFrame(rows)]: a
      table built from no row has no column, and reading a column of it
      raises [KeyError].
    - Python floats are exact rationals ([Q]); comparisons with the literals
      [2.0] and [2.5] are comparisons of rationals, and a mean is the exact
      quotient of sum and count.  Only [StandardScaler] needs a square root
      and is modelled over the reals.  The properties below name a
      computed number by the formula of the code.
    - A raised Python exception is a value of [exn]; code that can raise
      returns an [outcome].
    - The scikit-learn, joblib, json and matplotlib calls of the two trainers
      are events of a run; which of them raise is a parameter of the run.
    - The attributes of a trainer object are a finite map from attribute
      name to what the attribute holds; a method takes the map and the log
      of the run and returns both.
    - A random draw of the seeding scripts is an argument of the model, and
      [round(x, 2)] is a parameter of the generator. *)

From Stdlib Require Import QArith Qabs Qround Qminmax Reals Lra Lia Psatz.
From stdpp Require Import base gmap sets list strings sorting pretty.

Open Scope string_scope.
Open Scope list_scope.
Open Scope nat_scope.

(** ** Exceptions and outcomes *)

(** The built-in exceptions the modelled code can raise, an exception coming
    out of a library call, and classes a program would define itself. *)
Inductive exn : Type :=
  | IndexError
  | KeyError (key : string)
  | ValueError
  | LibraryError (what : string)
  | UserDefined (class_name : string).

Inductive outcome (A : Type) : Type :=
  | Return (a : A)
  | Raise (e : exn).
Arguments Return {A} a.
Arguments Raise {A} e.

Definition obind {A B} (m : outcome A) (k : A → outcome B) : outcome B :=
  match m with
  | Return a => k a
  | Raise e => Raise e
  end.

Notation "x ⇐ m ;; k" := (obind m (λ x, k))
  (at level 100, m at next level, right associativity, only parsing).

(** ** Entities *)

Module Student.
Record t : Type := mk {
  id : string;
  current_gpa : Q;
  academic_level : string;
  major : string;
  has_disability : bool }.
End Student.

Module Course.
Record t : Type := mk {
  id : string;
  difficulty_level : Z;
  credits : Z }.
End Course.

Module Grade.
Record t : Type := mk {
  student_id : string;
  course_id : string;
  grade_point : Q;
  semester : string;
  year : Z;
  attendance_rate : Q }.
End Grade.

Module Preference.
Record t : Type := mk {
  student_id : string;
  career_interests : list string;
  learning_styles : list string }.
End Preference.

Module Disability.
Record t : Type := mk {
  student_id : string;
  disability_type : string }.
End Disability.

(** The dictionary returned by [fetch_all_data]. *)
Record Data : Type := mkData {
  students : list Student.t;
  courses : list Course.t;
  grades : list Grade.t;
  preferences : list Preference.t;
  disabilities : list Disability.t }.

(** ** pandas primitives *)

(** [left.merge(right, left_on=..., right_on=...)], the default inner join:
    every left row is paired with every right row of equal key, left rows in
    their order, and a left row without partner disappears. *)
Definition merge {A B} (left_on : A → string) (right_on : B → string)
    (left : list A) (right : list B) : list (A * B) :=
  a ← left; (λ b, (a, b)) <$> filter (λ b, right_on b = left_on a) right.

(** [df[name]], and the key column that [merge] looks up by its name, on
    an entity table: a table built from no row has no column. *)
Definition getcolumn {A} (name : string) (df : list A) : outcome (list A) :=
  match df with
  | [] => Raise (KeyError name)
  | _ :: _ => Return df
  end.

(** [df.iloc[0]] *)
Definition iloc0 {A} (df : list A) : outcome A :=
  match df with
  | [] => Raise IndexError
  | x :: _ => Return x
  end.

Definition Qsum (xs : list Q) : Q := foldr Qplus 0%Q xs.

(** [series.mean()] *)
Definition mean (xs : list Q) : Q :=
  (Qsum xs / inject_Z (Z.of_nat (length xs)))%Q.

(** [bool.astype(int)] and [int(bool)] *)
Definition int_of_bool (b : bool) : Z := if b then 1%Z else 0%Z.

(** A frame built by [pd.DataFrame(records)] from a list of dictionaries
    that all have the keys [keys]: its columns are those keys, and it has
    no column at all when the list is empty. *)
Record DataFrame (A : Type) : Type := mkDataFrame {
  columns : list string;
  rows : list A }.
Arguments mkDataFrame {A} columns rows.
Arguments columns {A} d.
Arguments rows {A} d.

Definition DataFrame_of_records {A} (keys : list string) (records : list A)
    : DataFrame A :=
  {| columns := match records with [] => [] | _ :: _ => keys end;
     rows := records |}.

(** Insertion of [x] below the rows of larger score: the rows of a frame
    sorted by descending score.  An earlier row stays ahead of a later row
    of equal score; pandas leaves the order of ties to its sorting
    algorithm, and nothing below depends on it. *)
Fixpoint insert_descending {A} (score : A → Q) (x : A) (l : list A) : list A :=
  match l with
  | [] => [x]
  | y :: l' =>
      if Qlt_le_dec (score x) (score y)
      then y :: insert_descending score x l'
      else x :: y :: l'
  end.

(** [df.sort_values(by, ascending=False)] for a numeric column [by] read
    by [score]; a frame without that column raises [KeyError]. *)
Definition sort_values_descending {A} (by_ : string) (score : A → Q)
    (df : DataFrame A) : outcome (DataFrame A) :=
  if decide (by_ ∈ columns df)
  then Return {| columns := columns df;
                 rows := foldr (insert_descending score) [] (rows df) |}
  else Raise (KeyError by_).

(** ** [DataPreprocessor] *)

Module PerformanceRow.
Record t : Type := mk {
  current_gpa : Q;
  course_difficulty : Z;
  attendance_rate : Q;
  has_disability : Z;
  credits : Z }.
End PerformanceRow.

Module RecommendationRow.
Record t : Type := mk {
  course_id : string;
  student_gpa : Q;
  avg_previous_grade : Q;
  course_difficulty : Z;
  has_disability : Z;
  credits : Z }.
Definition keys : list string :=
  ["course_id"; "student_gpa"; "avg_previous_grade"; "course_difficulty";
   "has_disability"; "credits"].
End RecommendationRow.

Module SimilarRow.
Record t : Type := mk {
  student_id : string;
  similarity_score : Q;
  avg_grade : Q }.
Definition keys : list string :=
  ["student_id"; "similarity_score"; "avg_grade"].
End SimilarRow.

Module DataPreprocessor.

Definition Merged : Type := Grade.t * Student.t * Course.t.

(** The rows of the two inner joins. *)
Definition inner_joins (data : Data) : list Merged :=
  merge (λ gs, Grade.course_id gs.1) Course.id
    (merge Grade.student_id Student.id (grades data) (students data))
    (courses data).

(** The two [merge] calls shared by [prepare_performance_data] and
    [_prepare_training_data].  A [merge] looks up the key column of its
    right frame, then that of its left frame; the frame joined first has
    its columns also when it has no row. *)
Definition merged_frame (data : Data) : outcome (list Merged) :=
  _ ⇐ getcolumn "id" (students data);;
  _ ⇐ getcolumn "student_id" (grades data);;
  _ ⇐ getcolumn "id" (courses data);;
  Return (inner_joins data).

Definition performance_row (m : Merged) : PerformanceRow.t :=
  let '(g, s, c) := m in
  {| PerformanceRow.current_gpa := Student.current_gpa s;
     PerformanceRow.course_difficulty := Course.difficulty_level c;
     PerformanceRow.attendance_rate := Grade.attendance_rate g;
     PerformanceRow.has_disability := int_of_bool (Student.has_disability s);
     PerformanceRow.credits := Course.credits c |}.

(** [(target < 2.0).astype(int)], one entry *)
Definition at_risk_of (target : Q) : Z :=
  if Qlt_le_dec target 2.0 then 1%Z else 0%Z.

Definition prepare_performance_data (data : Data)
    : outcome (list PerformanceRow.t * list Q * list Z) :=
  merged ⇐ merged_frame data;;
  let features := performance_row <$> merged in
  let target := (λ m : Merged, Grade.grade_point m.1.1) <$> merged in
  let at_risk := at_risk_of <$> target in
  Return (features, target, at_risk).

Definition prepare_recommendation_data (data : Data) (student_id : string)
    : outcome (DataFrame RecommendationRow.t) :=
  students_df ⇐ getcolumn "id" (students data);;
  student ⇐ iloc0 (filter (λ s, Student.id s = student_id) students_df);;
  grades_df ⇐ getcolumn "student_id" (grades data);;
  let student_grades :=
    filter (λ g, Grade.student_id g = student_id) grades_df in
  preferences_df ⇐ getcolumn "student_id" (preferences data);;
  let student_prefs :=
    filter (λ p, Preference.student_id p = student_id) preferences_df in
  let student_prefs :=
    if decide (0 < length student_prefs) then head student_prefs else None in
  let courses_taken : gset string :=
    list_to_set (Grade.course_id <$> student_grades) in
  courses_df ⇐ getcolumn "id" (courses data);;
  let available_courses :=
    filter (λ c, Course.id c ∉ courses_taken) courses_df in
  let avg_grade :=
    if decide (0 < length student_grades)
    then mean (Grade.grade_point <$> student_grades)
    else 2.5%Q in
  let features_list :=
    (λ course,
       {| RecommendationRow.course_id := Course.id course;
          RecommendationRow.student_gpa := Student.current_gpa student;
          RecommendationRow.avg_previous_grade := avg_grade;
          RecommendationRow.course_difficulty := Course.difficulty_level course;
          RecommendationRow.has_disability :=
            int_of_bool (Student.has_disability student);
          RecommendationRow.credits := Course.credits course |})
      <$> available_courses in
  Return (DataFrame_of_records RecommendationRow.keys features_list).

Definition similarity_score (target_student student : Student.t) : Q :=
  let gpa_diff :=
    Qabs (Student.current_gpa target_student - Student.current_gpa student) in
  let major_match :=
    if decide (Student.major target_student = Student.major student)
    then 1%Q else 0%Q in
  let disability_match :=
    if decide (Student.has_disability target_student
               = Student.has_disability student)
    then 1%Q else 0%Q in
  ((5 - gpa_diff) * 0.4 + major_match * 0.3 + disability_match * 0.3)%Q.

(** The loop over [students_df.iterrows()] that fills the list
    [similar_students]: the target's own rows and the students without
    grades are skipped. *)
Definition similar_students (student_id : string) (data : Data)
    (target_student : Student.t) : list SimilarRow.t :=
  student ← students data;
  if decide (Student.id student = student_id) then [] else
  let student_grades :=
    filter (λ g, Grade.student_id g = Student.id student) (grades data) in
  if decide (length student_grades = 0) then [] else
  [ {| SimilarRow.student_id := Student.id student;
       SimilarRow.similarity_score :=
         similarity_score target_student student;
       SimilarRow.avg_grade := mean (Grade.grade_point <$> student_grades) |} ].

Definition calculate_similarity_features (student_id : string) (data : Data)
    : outcome (DataFrame SimilarRow.t) :=
  students_df ⇐ getcolumn "id" (students data);;
  target_student ⇐
    iloc0 (filter (λ s, Student.id s = student_id) students_df);;
  grades_df ⇐ getcolumn "student_id" (grades data);;
  let target_grades :=
    filter (λ g, Grade.student_id g = student_id) grades_df in
  let target_avg_grade :=
    if decide (0 < length target_grades)
    then mean (Grade.grade_point <$> target_grades)
    else 2.5%Q in
  sort_values_descending "similarity_score" SimilarRow.similarity_score
    (DataFrame_of_records SimilarRow.keys
       (similar_students student_id data target_student)).

End DataPreprocessor.

(** ** Runs of a trainer *)

(** What a run leaves behind, in order: the lines it printed and the
    library calls that returned.  A call that raises ends the run and is
    not recorded. *)
Inductive effect (call : Type) : Type :=
  | Print (msg : string)
  | Call (c : call).
Arguments Print {call} msg.
Arguments Call {call} c.

Section run.
Context {call : Type}.
(** The calls that raise in this run, with their exception. *)
Context (raises : call → option exn).

Definition run (A : Type) : Type :=
  list (effect call) → outcome A * list (effect call).

Definition ret {A} (a : A) : run A := λ log, (Return a, log).

(** A computation of the run that calls no library: its exception, if it
    raises, ends the run. *)
Definition lift {A} (o : outcome A) : run A := λ log, (o, log).

Definition bind {A B} (m : run A) (k : A → run B) : run B :=
  λ log,
    match m log with
    | (Return a, log') => k a log'
    | (Raise e, log') => (Raise e, log')
    end.

Definition print (msg : string) : run unit :=
  λ log, (Return (), log ++ [Print msg]).

Definition invoke (c : call) : run unit :=
  λ log,
    match raises c with
    | Some e => (Raise e, log)
    | None => (Return (), log ++ [Call c])
    end.

(** A block of consecutive calls. *)
Fixpoint invoke_all (cs : list call) : run unit :=
  match cs with
  | [] => ret ()
  | c :: cs' => bind (invoke c) (λ _, invoke_all cs')
  end.

(** The calls of [cs] that return before the first one that raises, and
    the exception of that one. *)
Fixpoint attempt (cs : list call) : list call * option exn :=
  match cs with
  | [] => ([], None)
  | c :: cs' =>
      match raises c with
      | Some e => ([], Some e)
      | None => let '(returned, e) := attempt cs' in (c :: returned, e)
      end
  end.

End run.

Notation "m ;;; k" := (bind m (λ _, k))
  (at level 100, k at level 200, right associativity, only parsing).

(** ** Exported parameter documents *)

(** The values written by [json.dump]: literals of the code, attributes
    read from a fitted estimator ([JAttr estimator attribute]), the text of
    the tree rules cut to a number of characters, and the clock. *)
#[local] Unset Elimination Schemes.
Inductive json : Type :=
  | JStr (s : string)
  | JInt (z : Z)
  | JFloat (q : Q)
  | JAttr (estimator attribute : string)
  | JRules (budget : nat)
  | JNow
  | JNull
  | JList (l : list json)
  | JDict (d : list (string * json)).
#[local] Set Elimination Schemes.

(** A Python dictionary literal, in insertion order. *)
Definition dict : Type := list (string * json).

Definition keys (d : dict) : list string := d.*1.

(** The two halves produced by [train_test_split]. *)
Inductive part : Type := train | test.

(** The quantities an evaluation can compute for a model family. *)
Inductive metric : Type :=
  | accuracy | precision | recall | f1 | roc_auc | cv_f1
  | rmse | mae | r2.

#[global] Instance metric_eq_dec : EqDecision metric.
Proof. solve_decision. Defined.

(** The message of the guard of both trainers. *)
Definition not_enough_data : string :=
  "Not enough data to train models. Need at least 10 samples.".

(** [d[k]] for a key the dictionary literal has. *)
Fixpoint item (d : dict) (k : string) : json :=
  match d with
  | [] => JNull
  | (k', v) :: d' => if decide (k' = k) then v else item d' k
  end.

(** ** [PerformancePredictor] *)

Module PerformancePredictor.

(** The four estimators held by the trainer. *)
Inductive family : Type :=
  | LogisticRegression
  | RandomForestClassifier
  | GradientBoostingClassifier
  | RandomForestRegressor.

#[global] Instance family_eq_dec : EqDecision family.
Proof. solve_decision. Defined.

(** Constructor arguments, as written in [train_models]. *)
Definition hyperparameters (f : family) : dict :=
  match f with
  | LogisticRegression =>
      [("max_iter", JInt 1000); ("random_state", JInt 42);
       ("class_weight", JStr "balanced")]
  | RandomForestClassifier =>
      [("n_estimators", JInt 200); ("max_depth", JInt 15);
       ("min_samples_split", JInt 5); ("min_samples_leaf", JInt 2);
       ("random_state", JInt 42); ("class_weight", JStr "balanced");
       ("n_jobs", JInt (-1))]
  | GradientBoostingClassifier =>
      [("n_estimators", JInt 100); ("learning_rate", JFloat 0.05);
       ("max_depth", JInt 5); ("min_samples_split", JInt 5);
       ("min_samples_leaf", JInt 2); ("random_state", JInt 42)]
  | RandomForestRegressor =>
      [("n_estimators", JInt 200); ("max_depth", JInt 15);
       ("min_samples_split", JInt 5); ("min_samples_leaf", JInt 2);
       ("random_state", JInt 42); ("n_jobs", JInt (-1))]
  end.

(** The arrays a model computes on [X_test]: [model.predict(X_test)] and
    [model.predict_proba(X_test)[:, 1]]. *)
Inductive prediction : Type :=
  | y_pred (f : family)
  | y_proba (f : family).

(** The library calls of a run.  [fit f] is [model.fit(X_train, y_train)];
    a metric call names the half its true labels come from and the
    predictions it scores.  [_generate_visualizations] is the plotting
    method of the trainer, taken as one step that raises when a statement
    of its body does.  In this trainer the body uses the module [os],
    which the file imports only when it is run as a script, and indexes
    the series of predicted probabilities, labelled from 0, with a mask
    that carries the labels of the test rows, which pandas refuses unless
    the labels agree.  Whether the step raises is left to [raises]; the
    properties of this trainer are stated on the runs that reach the
    export, not on those that return. *)
Inductive call : Type :=
  | scaler_fit_transform
  | train_test_split (test_size : Q) (random_state : Z) (stratify : bool)
  | fit (f : family)
  | predict (f : family) (X : part)
  | predict_proba (f : family) (X : part)
  | accuracy_score (y_true : part) (y : prediction)
  | precision_recall_fscore_support
      (y_true : part) (y : prediction) (average : string)
  | roc_auc_score (y_true : part) (y : prediction)
  | cross_val_score (f : family) (X : part) (cv : nat) (scoring : string)
  | mean_squared_error (y_true : part) (y : prediction)
  | np_mean_abs_difference (y_true : part) (y : prediction)
  | r2_score (y_true : part) (y : prediction)
  | confusion_matrix (y_true : part) (y : prediction)
  | joblib_dump (attribute path : string)
  | json_dump (path : string) (params : dict)
  | _generate_visualizations.

(** Values of the dictionary returned by [train_models]. *)
Inductive value : Type :=
  | Metric (f : family) (m : metric)
  | Len (n : nat)
  | LenOf (X : part).

(** [features.columns.tolist()] *)
Definition feature_names : list string :=
  ["current_gpa"; "course_difficulty"; "attendance_rate";
   "has_disability"; "credits"].

Definition model_parameters (feature_names : list string) : dict :=
  [ ("metadata", JDict
       [("model_version", JStr "2.0");
        ("training_samples", JInt (Z.of_nat (length feature_names)));
        ("feature_names", JList (JStr <$> feature_names));
        ("trained_at", JNow)]);
    ("logistic_regression", JDict
       [("coefficients", JAttr "logistic_model" "coef_");
        ("intercept", JAttr "logistic_model" "intercept_");
        ("classes", JAttr "logistic_model" "classes_")]);
    ("random_forest_classifier", JDict
       [("n_estimators",
         item (hyperparameters RandomForestClassifier) "n_estimators");
        ("feature_importances",
         JAttr "random_forest_classifier" "feature_importances_");
        ("max_depth",
         item (hyperparameters RandomForestClassifier) "max_depth")]);
    ("gradient_boosting_classifier", JDict
       [("n_estimators",
         item (hyperparameters GradientBoostingClassifier) "n_estimators");
        ("learning_rate",
         item (hyperparameters GradientBoostingClassifier) "learning_rate");
        ("max_depth",
         item (hyperparameters GradientBoostingClassifier) "max_depth")]);
    ("random_forest_regressor", JDict
       [("n_estimators",
         item (hyperparameters RandomForestRegressor) "n_estimators");
        ("feature_importances",
         JAttr "random_forest_regressor" "feature_importances_");
        ("max_depth",
         item (hyperparameters RandomForestRegressor) "max_depth")]) ].

Definition results (samples_used : nat) : list (string * value) :=
  [ ("logistic_accuracy", Metric LogisticRegression accuracy);
    ("logistic_roc_auc", Metric LogisticRegression roc_auc);
    ("rf_classifier_accuracy", Metric RandomForestClassifier accuracy);
    ("rf_classifier_roc_auc", Metric RandomForestClassifier roc_auc);
    ("gb_classifier_accuracy", Metric GradientBoostingClassifier accuracy);
    ("gb_classifier_roc_auc", Metric GradientBoostingClassifier roc_auc);
    ("rf_regressor_rmse", Metric RandomForestRegressor rmse);
    ("rf_regressor_mae", Metric RandomForestRegressor mae);
    ("rf_regressor_r2", Metric RandomForestRegressor r2);
    ("samples_used", Len samples_used);
    ("train_size", LenOf train);
    ("test_size", LenOf test) ].

Section trainer.
Context (raises : call → option exn).
Local Abbreviation invoke := (invoke raises).

Definition _save_models : run unit :=
  invoke (joblib_dump "logistic_model"
            "ml_models/saved_models/logistic_model.pkl");;;
  invoke (joblib_dump "random_forest_classifier"
            "ml_models/saved_models/rf_classifier.pkl");;;
  invoke (joblib_dump "gradient_boosting_classifier"
            "ml_models/saved_models/gb_classifier.pkl");;;
  invoke (joblib_dump "random_forest_regressor"
            "ml_models/saved_models/rf_regressor.pkl");;;
  invoke (joblib_dump "scaler" "ml_models/saved_models/scaler.pkl").

Definition _export_model_parameters (feature_names : list string)
    : run unit :=
  invoke (json_dump "ml_models/saved_models/model_parameters.json"
            (model_parameters feature_names)).

(** The statements of [train_models] between its guard and its
    [return] of the results.  The report lines printed between the
    calls are left out. *)
Definition training_steps : run unit :=
    invoke scaler_fit_transform;;;
    invoke (train_test_split 0.2 42 true);;;
    (* Logistic Regression for At-Risk Prediction *)
    invoke (fit LogisticRegression);;;
    invoke (predict LogisticRegression test);;;
    invoke (predict_proba LogisticRegression test);;;
    invoke (accuracy_score test (y_pred LogisticRegression));;;
    invoke (precision_recall_fscore_support
              test (y_pred LogisticRegression) "binary");;;
    invoke (roc_auc_score test (y_proba LogisticRegression));;;
    invoke (cross_val_score LogisticRegression train 5 "f1");;;
    (* Random Forest Classifier for At-Risk Prediction *)
    invoke (fit RandomForestClassifier);;;
    invoke (predict RandomForestClassifier test);;;
    invoke (predict_proba RandomForestClassifier test);;;
    invoke (accuracy_score test (y_pred RandomForestClassifier));;;
    invoke (precision_recall_fscore_support
              test (y_pred RandomForestClassifier) "binary");;;
    invoke (roc_auc_score test (y_proba RandomForestClassifier));;;
    invoke (cross_val_score RandomForestClassifier train 5 "f1");;;
    (* Gradient Boosting Classifier for At-Risk Prediction *)
    invoke (fit GradientBoostingClassifier);;;
    invoke (predict GradientBoostingClassifier test);;;
    invoke (predict_proba GradientBoostingClassifier test);;;
    invoke (accuracy_score test (y_pred GradientBoostingClassifier));;;
    invoke (precision_recall_fscore_support
              test (y_pred GradientBoostingClassifier) "binary");;;
    invoke (roc_auc_score test (y_proba GradientBoostingClassifier));;;
    (* Random Forest Regressor for Grade Prediction *)
    invoke (fit RandomForestRegressor);;;
    invoke (predict RandomForestRegressor test);;;
    invoke (mean_squared_error test (y_pred RandomForestRegressor));;;
    invoke (np_mean_abs_difference test (y_pred RandomForestRegressor));;;
    invoke (r2_score test (y_pred RandomForestRegressor));;;
    (* Confusion Matrix (Random Forest) *)
    invoke (confusion_matrix test (y_pred RandomForestClassifier));;;
    _save_models;;;
    _export_model_parameters feature_names;;;
    invoke _generate_visualizations.

(** [train_models], on the tables that [fetch_all_data] returned.  The
    result is [None] for the bare [return] of the guard. *)
Definition train_models (data : Data)
    : run (option (list (string * value))) :=
  bind (lift (DataPreprocessor.prepare_performance_data data))
    (λ '(features, target_grades, target_at_risk),
       if decide (length features < 10) then
         print not_enough_data;;;
         ret None
       else
         training_steps;;;
         ret (Some (results (length features)))).

End trainer.

(** *** Reading a log *)

Definition calls (log : list (effect call)) : list call :=
  omap (λ ef, match ef with Call c => Some c | Print _ => None end) log.

(** The calls of [training_steps] in a run where none raises. *)
Definition script : list call :=
  calls (training_steps (λ _, None) []).2.

(** The entry of the exported document that describes a family. *)
Definition entry_of (f : family) : option string :=
  match f with
  | LogisticRegression => Some "logistic_regression"
  | RandomForestClassifier => Some "random_forest_classifier"
  | GradientBoostingClassifier => Some "gradient_boosting_classifier"
  | RandomForestRegressor => Some "random_forest_regressor"
  end.

(** The families whose [fit] returned. *)
Definition fitted (log : list (effect call)) : list family :=
  omap (λ ef, match ef with Call (fit f) => Some f | _ => None end) log.

(** The order in which [train_models] fits its families. *)
Definition fit_order : list family := fitted (Call <$> script).

(** The attributes written by [joblib.dump]. *)
Definition saved (log : list (effect call)) : list string :=
  omap (λ ef, match ef with
              | Call (joblib_dump attribute _) => Some attribute
              | _ => None
              end) log.

(** The documents written by [json.dump]. *)
Definition exported (log : list (effect call)) : list dict :=
  omap (λ ef, match ef with
              | Call (json_dump _ params) => Some params
              | _ => None
              end) log.

(** The metrics a call computes, and for which family: test-set metrics
    score a model's predictions against the test labels, with the
    default positive label 1 for the binary averages; the ROC-AUC scores
    its predicted probabilities; the cross-validated F1 is the five-fold
    [cross_val_score] on the training half. *)
Definition yields (c : call) : list (family * metric) :=
  match c with
  | accuracy_score test (y_pred f) => [(f, accuracy)]
  | precision_recall_fscore_support test (y_pred f) average =>
      if decide (average = "binary")
      then [(f, precision); (f, recall); (f, f1)] else []
  | roc_auc_score test (y_proba f) => [(f, roc_auc)]
  | cross_val_score f train 5 scoring =>
      if decide (scoring = "f1") then [(f, cv_f1)] else []
  | mean_squared_error test (y_pred f) => [(f, rmse)]
  | np_mean_abs_difference test (y_pred f) => [(f, mae)]
  | r2_score test (y_pred f) => [(f, r2)]
  | _ => []
  end.

(** The metrics computed for [f] during a run, in order. *)
Definition evaluated (log : list (effect call)) (f : family) : list metric :=
  ef ← log;
  match ef with
  | Call c => (filter (λ fm, fm.1 = f) (yields c)).*2
  | Print _ => []
  end.

(** The halves that cross-validation was run on. *)
Definition cross_validated_on (log : list (effect call)) : list part :=
  omap (λ ef, match ef with
              | Call (cross_val_score _ X _ _) => Some X
              | _ => None
              end) log.

End PerformancePredictor.

(** ** [CourseRecommender] *)

(** A row of the frame built by [_prepare_training_data].  The frame is
    assembled from series with different indexes, so a row can lack the
    value of a column: [None] is the NaN that pandas fills in. *)
Module TrainingRow.
Record t : Type := mk {
  student_id : option string;
  course_id : option string;
  student_gpa : option Q;
  course_difficulty : option Z;
  has_disability : option Z;
  credits : option Z;
  avg_previous_grade : option Q;
  actual_grade : option Q;
  success : option Z }.
End TrainingRow.

Module CourseRecommender.

(** [(grade_point >= 2.5).astype(int)], one entry *)
Definition success_of (grade_point : Q) : Z :=
  if Qlt_le_dec grade_point 2.5 then 0%Z else 1%Z.

(** [grades_df.groupby('student_id')['grade_point'].transform('mean')]:
    a series on the index of the grade table, holding at each grade row
    the mean over all grade rows of the same student. *)
Definition student_avg_grades (grades_df : list Grade.t) : list Q :=
  (λ g, mean (Grade.grade_point <$>
                filter (λ g', Grade.student_id g' = Grade.student_id g)
                  grades_df))
    <$> grades_df.

(** The frame is built from a dictionary of series.  Eight of them are
    columns of [merged], whose index is the fresh [0 .. len(merged)-1]
    of the join; [avg_previous_grade] has the index of the grade table.
    pandas aligns them on the union of the two indexes, label by
    label. *)
Definition training_data (merged : list DataPreprocessor.Merged)
    (student_avg_grades : list Q) : list TrainingRow.t :=
  (λ i,
     let m := merged !! i in
     {| TrainingRow.student_id :=
          (λ m : DataPreprocessor.Merged, Grade.student_id m.1.1) <$> m;
        TrainingRow.course_id :=
          (λ m : DataPreprocessor.Merged, Grade.course_id m.1.1) <$> m;
        TrainingRow.student_gpa :=
          (λ m : DataPreprocessor.Merged, Student.current_gpa m.1.2) <$> m;
        TrainingRow.course_difficulty :=
          (λ m : DataPreprocessor.Merged, Course.difficulty_level m.2) <$> m;
        TrainingRow.has_disability :=
          (λ m : DataPreprocessor.Merged,
             int_of_bool (Student.has_disability m.1.2)) <$> m;
        TrainingRow.credits :=
          (λ m : DataPreprocessor.Merged, Course.credits m.2) <$> m;
        TrainingRow.avg_previous_grade := student_avg_grades !! i;
        TrainingRow.actual_grade :=
          (λ m : DataPreprocessor.Merged, Grade.grade_point m.1.1) <$> m;
        TrainingRow.success :=
          (λ m : DataPreprocessor.Merged,
             success_of (Grade.grade_point m.1.1)) <$> m |})
    <$> seq 0 (length merged `max` length student_avg_grades).

Definition _prepare_training_data (data : Data)
    : outcome (list TrainingRow.t) :=
  let grades_df := grades data in
  merged ⇐ DataPreprocessor.merged_frame data;;
  let student_avg_grades := student_avg_grades grades_df in
  Return (training_data merged student_avg_grades).

(** The five estimators held by the trainer. *)
Inductive family : Type :=
  | KNeighborsClassifier
  | DecisionTreeClassifier
  | RandomForestClassifier
  | AdaBoostClassifier
  | NearestNeighbors.

#[global] Instance family_eq_dec : EqDecision family.
Proof. solve_decision. Defined.

(** Constructor arguments, as written in [train_models]; two of them
    depend on the size of the training half. *)
Definition hyperparameters (len_X_train : nat) (f : family) : dict :=
  match f with
  | KNeighborsClassifier =>
      [("n_neighbors", JInt (Z.of_nat (5 `min` (len_X_train / 2))));
       ("weights", JStr "distance"); ("metric", JStr "euclidean");
       ("leaf_size", JInt 30)]
  | DecisionTreeClassifier =>
      [("max_depth", JInt 8); ("min_samples_split", JInt 5);
       ("min_samples_leaf", JInt 2); ("random_state", JInt 42);
       ("class_weight", JStr "balanced")]
  | RandomForestClassifier =>
      [("n_estimators", JInt 150); ("max_depth", JInt 12);
       ("min_samples_split", JInt 5); ("min_samples_leaf", JInt 2);
       ("random_state", JInt 42); ("class_weight", JStr "balanced");
       ("n_jobs", JInt (-1))]
  | AdaBoostClassifier =>
      [("n_estimators", JInt 100); ("learning_rate", JFloat 0.1);
       ("random_state", JInt 42)]
  | NearestNeighbors =>
      [("n_neighbors", JInt (Z.of_nat (10 `min` (len_X_train - 1))));
       ("metric", JStr "euclidean")]
  end.

Inductive prediction : Type :=
  | y_pred (f : family)
  | y_proba (f : family).

Inductive call : Type :=
  | scaler_fit_transform
  | train_test_split (test_size : Q) (random_state : Z) (stratify : bool)
  | fit (f : family)
  | predict (f : family) (X : part)
  | predict_proba (f : family) (X : part)
  | accuracy_score (y_true : part) (y : prediction)
  | f1_score (y_true : part) (y : prediction)
  | roc_auc_score (y_true : part) (y : prediction)
  | cross_val_score (f : family) (X : part) (cv : nat) (scoring : string)
  | export_text (f : family)
  | confusion_matrix (y_true : part) (y : prediction)
  | joblib_dump (attribute path : string)
  | json_dump (path : string) (params : dict)
  | _generate_visualizations.

Inductive value : Type :=
  | Metric (f : family) (m : metric)
  | Len (n : nat)
  | LenOf (X : part).

Definition feature_names : list string :=
  ["GPA"; "Difficulty"; "Disability"; "Credits"; "Avg Grade"].

Definition model_parameters (len_X_train : nat)
    (feature_names : list string) : dict :=
  let hyperparameters := hyperparameters len_X_train in
  [ ("metadata", JDict
       [("model_version", JStr "2.0");
        ("feature_names", JList (JStr <$> feature_names));
        ("trained_at", JNow)]);
    ("knn", JDict
       [("n_neighbors",
         item (hyperparameters KNeighborsClassifier) "n_neighbors");
        ("weights", item (hyperparameters KNeighborsClassifier) "weights");
        ("metric", item (hyperparameters KNeighborsClassifier) "metric")]);
    ("decision_tree", JDict
       [("max_depth",
         item (hyperparameters DecisionTreeClassifier) "max_depth");
        ("n_features", JAttr "decision_tree_model" "n_features_in_");
        ("n_classes", JAttr "decision_tree_model" "n_classes_");
        ("feature_importances",
         JAttr "decision_tree_model" "feature_importances_");
        ("feature_names", JList (JStr <$> feature_names));
        ("tree_rules", JRules 2000)]);
    ("random_forest", JDict
       [("n_estimators",
         item (hyperparameters RandomForestClassifier) "n_estimators");
        ("feature_importances",
         JAttr "random_forest_model" "feature_importances_");
        ("max_depth",
         item (hyperparameters RandomForestClassifier) "max_depth")]);
    ("adaboost", JDict
       [("n_estimators",
         item (hyperparameters AdaBoostClassifier) "n_estimators");
        ("learning_rate",
         item (hyperparameters AdaBoostClassifier) "learning_rate")]) ].

Definition results (samples_used : nat) : list (string * value) :=
  [ ("knn_accuracy", Metric KNeighborsClassifier accuracy);
    ("knn_f1", Metric KNeighborsClassifier f1);
    ("knn_roc_auc", Metric KNeighborsClassifier roc_auc);
    ("decision_tree_accuracy", Metric DecisionTreeClassifier accuracy);
    ("decision_tree_f1", Metric DecisionTreeClassifier f1);
    ("decision_tree_roc_auc", Metric DecisionTreeClassifier roc_auc);
    ("random_forest_accuracy", Metric RandomForestClassifier accuracy);
    ("random_forest_f1", Metric RandomForestClassifier f1);
    ("random_forest_roc_auc", Metric RandomForestClassifier roc_auc);
    ("adaboost_accuracy", Metric AdaBoostClassifier accuracy);
    ("adaboost_f1", Metric AdaBoostClassifier f1);
    ("adaboost_roc_auc", Metric AdaBoostClassifier roc_auc);
    ("samples_used", Len samples_used);
    ("train_size", LenOf train);
    ("test_size", LenOf test) ].

Section trainer.
Context (raises : call → option exn).
(** [len(X_train)], as left by [train_test_split]. *)
Context (len_X_train : nat).
Local Abbreviation invoke := (invoke raises).

Definition _save_models : run unit :=
  invoke (joblib_dump "knn_model" "ml_models/saved_models/knn_model.pkl");;;
  invoke (joblib_dump "decision_tree_model"
            "ml_models/saved_models/decision_tree_model.pkl");;;
  invoke (joblib_dump "random_forest_model"
            "ml_models/saved_models/random_forest_model.pkl");;;
  invoke (joblib_dump "adaboost_model"
            "ml_models/saved_models/adaboost_model.pkl");;;
  invoke (joblib_dump "nearest_neighbors"
            "ml_models/saved_models/nearest_neighbors.pkl");;;
  invoke (joblib_dump "scaler"
            "ml_models/saved_models/recommendation_scaler.pkl").

Definition _export_model_parameters (feature_names : list string)
    : run unit :=
  invoke (json_dump "ml_models/saved_models/recommendation_parameters.json"
            (model_parameters len_X_train feature_names)).

Definition training_steps : run unit :=
    invoke scaler_fit_transform;;;
    invoke (train_test_split 0.2 42 true);;;
    (* K-Nearest Neighbors *)
    invoke (fit KNeighborsClassifier);;;
    invoke (predict KNeighborsClassifier test);;;
    invoke (predict_proba KNeighborsClassifier test);;;
    invoke (accuracy_score test (y_pred KNeighborsClassifier));;;
    invoke (f1_score test (y_pred KNeighborsClassifier));;;
    invoke (roc_auc_score test (y_proba KNeighborsClassifier));;;
    invoke (cross_val_score KNeighborsClassifier train 5 "f1");;;
    (* Decision Tree *)
    invoke (fit DecisionTreeClassifier);;;
    invoke (predict DecisionTreeClassifier test);;;
    invoke (predict_proba DecisionTreeClassifier test);;;
    invoke (accuracy_score test (y_pred DecisionTreeClassifier));;;
    invoke (f1_score test (y_pred DecisionTreeClassifier));;;
    invoke (roc_auc_score test (y_proba DecisionTreeClassifier));;;
    invoke (cross_val_score DecisionTreeClassifier train 5 "f1");;;
    invoke (export_text DecisionTreeClassifier);;;
    (* Random Forest Classifier *)
    invoke (fit RandomForestClassifier);;;
    invoke (predict RandomForestClassifier test);;;
    invoke (predict_proba RandomForestClassifier test);;;
    invoke (accuracy_score test (y_pred RandomForestClassifier));;;
    invoke (f1_score test (y_pred RandomForestClassifier));;;
    invoke (roc_auc_score test (y_proba RandomForestClassifier));;;
    (* AdaBoost Classifier *)
    invoke (fit AdaBoostClassifier);;;
    invoke (predict AdaBoostClassifier test);;;
    invoke (predict_proba AdaBoostClassifier test);;;
    invoke (accuracy_score test (y_pred AdaBoostClassifier));;;
    invoke (f1_score test (y_pred AdaBoostClassifier));;;
    invoke (roc_auc_score test (y_proba AdaBoostClassifier));;;
    (* Nearest Neighbors for Similarity *)
    invoke (fit NearestNeighbors);;;
    (* Confusion Matrices *)
    invoke (confusion_matrix test (y_pred DecisionTreeClassifier));;;
    invoke (confusion_matrix test (y_pred RandomForestClassifier));;;
    _save_models;;;
    _export_model_parameters feature_names;;;
    invoke _generate_visualizations.

Definition train_models (data : Data)
    : run (option (list (string * value))) :=
  bind (lift (_prepare_training_data data))
    (λ training_data,
       if decide (length training_data < 10) then
         print not_enough_data;;;
         ret None
       else
         training_steps;;;
         ret (Some (results (length training_data)))).

End trainer.

(** *** Reading a log *)

Definition calls (log : list (effect call)) : list call :=
  omap (λ ef, match ef with Call c => Some c | Print _ => None end) log.

Definition script (len_X_train : nat) : list call :=
  calls (training_steps (λ _, None) len_X_train []).2.

(** The entry of the exported document that describes a family; the
    nearest-neighbour index has none. *)
Definition entry_of (f : family) : option string :=
  match f with
  | KNeighborsClassifier => Some "knn"
  | DecisionTreeClassifier => Some "decision_tree"
  | RandomForestClassifier => Some "random_forest"
  | AdaBoostClassifier => Some "adaboost"
  | NearestNeighbors => None
  end.

(** The attribute of the trainer that holds a family's estimator. *)
Definition attribute_of (f : family) : string :=
  match f with
  | KNeighborsClassifier => "knn_model"
  | DecisionTreeClassifier => "decision_tree_model"
  | RandomForestClassifier => "random_forest_model"
  | AdaBoostClassifier => "adaboost_model"
  | NearestNeighbors => "nearest_neighbors"
  end.

Definition fitted (log : list (effect call)) : list family :=
  omap (λ ef, match ef with Call (fit f) => Some f | _ => None end) log.

Definition fit_order (len_X_train : nat) : list family :=
  fitted (Call <$> script len_X_train).

Definition saved (log : list (effect call)) : list string :=
  omap (λ ef, match ef with
              | Call (joblib_dump attribute _) => Some attribute
              | _ => None
              end) log.

Definition exported (log : list (effect call)) : list dict :=
  omap (λ ef, match ef with
              | Call (json_dump _ params) => Some params
              | _ => None
              end) log.

(** As for the performance trainer; [f1_score] has the binary average
    and the positive label 1 by default. *)
Definition yields (c : call) : list (family * metric) :=
  match c with
  | accuracy_score test (y_pred f) => [(f, accuracy)]
  | f1_score test (y_pred f) => [(f, f1)]
  | roc_auc_score test (y_proba f) => [(f, roc_auc)]
  | cross_val_score f train 5 scoring =>
      if decide (scoring = "f1") then [(f, cv_f1)] else []
  | _ => []
  end.

Definition evaluated (log : list (effect call)) (f : family) : list metric :=
  ef ← log;
  match ef with
  | Call c => (filter (λ fm, fm.1 = f) (yields c)).*2
  | Print _ => []
  end.

Definition cross_validated_on (log : list (effect call)) : list part :=
  omap (λ ef, match ef with
              | Call (cross_val_score _ X _ _) => Some X
              | _ => None
              end) log.

End CourseRecommender.

(** ** [normalize_features] *)

(** Frames with typed columns, and scikit-learn's [StandardScaler] on the
    numeric ones.  Numbers are reals here: the scaler divides by a
    standard deviation, the square root of a variance.  The reals name
    the quantities that the scaler computes; the rounding of the floats
    is not modelled, and no property below states an exact moment of a
    transformed column. *)
Module Normalize.

Inductive column : Type :=
  | Numeric (xs : list R)
  | Boolean (xs : list bool)
  | Object (xs : list string).

(** Named columns, in column order. *)
Definition Frame : Type := list (string * column).

Definition column_length (c : column) : nat :=
  match c with
  | Numeric xs => length xs
  | Boolean xs => length xs
  | Object xs => length xs
  end.

(** Every column has [n] entries. *)
Definition rectangular (n : nat) (df : Frame) : Prop :=
  Forall (λ nc, column_length nc.2 = n) df.

(** [df.select_dtypes(include=[np.number])]: the numeric columns; boolean
    and object columns are not selected. *)
Definition select_numeric (df : Frame) : list (list R) :=
  omap (λ nc, match nc.2 with Numeric xs => Some xs | _ => None end) df.

Definition Rsum (xs : list R) : R := foldr Rplus 0%R xs.

Definition Rmean (xs : list R) : R := (Rsum xs / INR (length xs))%R.

(** The population variance, as [StandardScaler] computes it. *)
Definition variance (xs : list R) : R :=
  Rmean ((λ x, (x - Rmean xs) * (x - Rmean xs))%R <$> xs).

(** [np.finfo(np.float64).eps] *)
Definition eps : R := (/ 2 ^ 52)%R.

(** scikit-learn's test for a constant column: the variance is within the
    rounding error of computing it. *)
Definition is_constant_feature (var mean : R) (n_samples : nat) : Prop :=
  (var <= INR n_samples * eps * var + (INR n_samples * mean * eps) ^ 2)%R.

Definition is_constant_feature_dec (var mean : R) (n_samples : nat)
    : {is_constant_feature var mean n_samples}
      + {¬ is_constant_feature var mean n_samples} :=
  Rle_dec _ _.

(** The divisor of a column: its standard deviation, or 1 for a column
    taken for constant. *)
Definition scale_of (xs : list R) : R :=
  if is_constant_feature_dec (variance xs) (Rmean xs) (length xs)
  then 1%R else sqrt (variance xs).

(** The fitted parameters of a [StandardScaler], one entry per column. *)
Record StandardScaler : Type := mkScaler {
  mean_ : list R;
  scale_ : list R }.

(** [scaler.fit(X)]; an array without columns or without rows is
    refused. *)
Definition fit (X : list (list R)) : outcome StandardScaler :=
  match X with
  | [] => Raise ValueError
  | xs :: _ =>
      if decide (length xs = 0) then Raise ValueError
      else Return {| mean_ := Rmean <$> X; scale_ := scale_of <$> X |}
  end.

(** [scaler.transform(X)] *)
Fixpoint transform_columns (means scales : list R) (X : list (list R))
    : list (list R) :=
  match means, scales, X with
  | m :: means', s :: scales', xs :: X' =>
      ((λ x, (x - m) / s)%R <$> xs) :: transform_columns means' scales' X'
  | _, _, _ => []
  end.

Definition transform (scaler : StandardScaler) (X : list (list R))
    : list (list R) :=
  transform_columns (mean_ scaler) (scale_ scaler) X.

(** [df[numeric_cols] = values]: the numeric columns are overwritten, in
    order; the other columns stay. *)
Fixpoint assign_numeric (df : Frame) (values : list (list R)) : Frame :=
  match df with
  | [] => []
  | (name, Numeric xs) :: df' =>
      match values with
      | ys :: values' => (name, Numeric ys) :: assign_numeric df' values'
      | [] => (name, Numeric xs) :: assign_numeric df' []
      end
  | nc :: df' => nc :: assign_numeric df' values
  end.

(** [normalize_features].  The scaler is a local variable of the
    function: it is fitted, used once, and not returned.  (The argument
    frame is overwritten in place and is the frame returned.) *)
Definition normalize_features (df : Frame) : outcome Frame :=
  let numeric_cols := select_numeric df in
  scaler ⇐ fit numeric_cols;;
  Return (assign_numeric df (transform scaler numeric_cols)).

(** What the specification describes instead: the transformed frame
    together with the fitted scaler. *)
Definition normalize_with_scaler (df : Frame)
    : outcome (Frame * StandardScaler) :=
  let numeric_cols := select_numeric df in
  scaler ⇐ fit numeric_cols;;
  Return (assign_numeric df (transform scaler numeric_cols), scaler).

(** One numeric column, standardized. *)
Definition standardize (xs : list R) : list R :=
  (λ x, (x - Rmean xs) / scale_of xs)%R <$> xs.

(** A frame with [f] applied to its numeric columns. *)
Definition map_numeric (f : list R → list R) (df : Frame) : Frame :=
  (λ nc, match nc.2 with
         | Numeric xs => (nc.1, Numeric (f xs))
         | _ => nc
         end) <$> df.

(** Two frames of one numeric column each; the second is the first
    shifted by ten. *)
Definition low : Frame :=
  [("x", Numeric [0%R; 2%R]); ("tag", Object ["a"; "b"])].
Definition high : Frame :=
  [("x", Numeric [10%R; 12%R]); ("tag", Object ["a"; "b"])].

(** A frame without numeric column. *)
Definition tags : Frame :=
  [("tag", Object ["a"; "b"]); ("flag", Boolean [true; false])].

End Normalize.

(** ** Entity sets *)

(** Identifiers are primary keys of the store: no two students and no two
    courses share an id. *)
Definition valid_ids (data : Data) : Prop :=
  NoDup (Student.id <$> students data) ∧ NoDup (Course.id <$> courses data).

(** A grade row resolves when both its references name an existing row. *)
Definition resolves (data : Data) (g : Grade.t) : Prop :=
  Grade.student_id g ∈ Student.id <$> students data ∧
  Grade.course_id g ∈ Course.id <$> courses data.

(** The grade history of a student: the rows of the grade table that carry
    the student's id. *)
Definition history (data : Data) (student_id : string) : list Grade.t :=
  filter (λ g, Grade.student_id g = student_id) (grades data).

(** The row built for an available course, given the selected student
    record and the average that was computed for the student. *)
Definition candidate_row (student : Student.t) (avg_grade : Q)
    (course : Course.t) : RecommendationRow.t :=
  {| RecommendationRow.course_id := Course.id course;
     RecommendationRow.student_gpa := Student.current_gpa student;
     RecommendationRow.avg_previous_grade := avg_grade;
     RecommendationRow.course_difficulty := Course.difficulty_level course;
     RecommendationRow.has_disability :=
       int_of_bool (Student.has_disability student);
     RecommendationRow.credits := Course.credits course |}.

Definition cold_start_average (hist : list Grade.t) : Q :=
  match hist with
  | [] => 2.5%Q
  | _ :: _ => mean (Grade.grade_point <$> hist)
  end.

(** Sample entity sets used to exercise the definitions. *)
Module Sample.

Definition alice : Student.t :=
  Student.mk "s1" 3.5 "Junior" "Computer Science" false.
Definition bob : Student.t :=
  Student.mk "s2" 2.9 "Sophomore" "Mathematics" true.
Definition carol : Student.t :=
  Student.mk "s3" 3.2 "Freshman" "Computer Science" false.

Definition algebra : Course.t := Course.mk "c1" 2 3.
Definition compilers : Course.t := Course.mk "c2" 4 4.
Definition drawing : Course.t := Course.mk "c3" 1 2.

Definition grade (s c : string) (gp : Q) : Grade.t :=
  Grade.mk s c gp "Fall" 2024 90.

(** Three grades resolve; the last one names a student that does not
    exist. *)
Definition campus : Data :=
  {| students := [alice; bob; carol];
     courses := [algebra; compilers; drawing];
     grades := [grade "s1" "c1" 3.7; grade "s1" "c2" 1.5;
                grade "s2" "c1" 2.0; grade "s9" "c1" 4.0];
     preferences := [Preference.mk "s2" ["teaching"] ["auditory"]];
     disabilities := [] |}.

(** Two student rows share the id [s1]; dave has taken no course. *)
Definition alice_again : Student.t :=
  Student.mk "s1" 1.0 "Senior" "History" true.
Definition dave : Student.t :=
  Student.mk "s4" 3.0 "Freshman" "Physics" false.

Definition twins : Data :=
  {| students := [alice; alice_again; dave];
     courses := [algebra; compilers; drawing];
     grades := [grade "s1" "c1" 3.5; grade "s1" "c3" 4.0];
     preferences := [Preference.mk "s4" ["research"] ["visual"]];
     disabilities := [] |}.

(** Only dave has grades. *)
Definition lonely : Data :=
  {| students := [alice; dave; carol];
     courses := [algebra; compilers];
     grades := [grade "s4" "c1" 3.0; grade "s4" "c2" 2.0];
     preferences := [];
     disabilities := [] |}.

(** The first grade row names a student that does not exist. *)
Definition dangling : Data :=
  {| students := [alice; bob];
     courses := [algebra];
     grades := [grade "s9" "c1" 4.0; grade "s1" "c1" 1.0;
                grade "s2" "c1" 3.0];
     preferences := [];
     disabilities := [] |}.

Definition ethics : Course.t := Course.mk "c4" 3 3.

(** Twelve grade rows, all resolving, three of them below 2.0. *)
Definition term : Data :=
  {| students := [alice; bob; carol];
     courses := [algebra; compilers; drawing; ethics];
     grades := [grade "s1" "c1" 3.7; grade "s1" "c2" 3.0;
                grade "s1" "c3" 4.0; grade "s1" "c4" 3.3;
                grade "s2" "c1" 1.7; grade "s2" "c2" 1.0;
                grade "s2" "c3" 3.0; grade "s2" "c4" 2.3;
                grade "s3" "c1" 2.7; grade "s3" "c2" 1.3;
                grade "s3" "c3" 3.7; grade "s3" "c4" 2.0];
     preferences := [];
     disabilities := [] |}.

(** A store in which no grade has been recorded yet. *)
Definition no_grades : Data :=
  {| students := [alice; bob; carol];
     courses := [algebra; compilers; drawing];
     grades := [];
     preferences := [Preference.mk "s2" ["teaching"] ["auditory"]];
     disabilities := [] |}.

(** A store in which no student has stated preferences yet. *)
Definition no_preferences : Data :=
  {| students := [alice; bob; carol];
     courses := [algebra; compilers; drawing];
     grades := [grade "s1" "c1" 3.7; grade "s1" "c2" 1.5;
                grade "s2" "c1" 2.0];
     preferences := [];
     disabilities := [] |}.

(** Nine dangling grade rows ahead of the three rows of [dangling]. *)
Definition mostly_dangling : Data :=
  {| students := [alice; bob];
     courses := [algebra];
     grades := replicate 9 (grade "s9" "c1" 4.0) ++ grades dangling;
     preferences := [];
     disabilities := [] |}.

(** A run in which the logistic regression cannot be fit (a training
    half with a single class, say) and every other call returns. *)
Definition logistic_fails (c : PerformancePredictor.call) : option exn :=
  match c with
  | PerformancePredictor.fit PerformancePredictor.LogisticRegression =>
      Some (LibraryError "fit")
  | _ => None
  end.

(** A run in which the decision tree cannot be fit. *)
Definition tree_fails (c : CourseRecommender.call) : option exn :=
  match c with
  | CourseRecommender.fit CourseRecommender.DecisionTreeClassifier =>
      Some (LibraryError "fit")
  | _ => None
  end.

End Sample.

(** ** Further vocabulary for the properties *)

(** How many rows of a table carry the key [k]. *)
Definition matches {A} (key : A → string) (k : string) (l : list A) : nat :=
  length (filter (λ x, key x = k) l).


(** Further sample data. *)
Module Scenario.

(** [Sample.campus] a term later: carol has a grade, bob has one more, and
    alice has stated her preferences; alice's own grades are the same. *)
Definition campus_next : Data :=
  {| students := students Sample.campus;
     courses := courses Sample.campus;
     grades := grades Sample.campus
                 ++ [Sample.grade "s3" "c2" 3.0; Sample.grade "s2" "c3" 2.5];
     preferences := [Preference.mk "s1" ["research"] ["visual"]];
     disabilities := [Disability.mk "s2" "Visual"] |}.

(** Four students with grades: seen from alice, carol (same major and
    flag) ranks first, dave (same flag) second, bob last. *)
Definition cohort : Data :=
  {| students := [Sample.alice; Sample.bob; Sample.carol; Sample.dave];
     courses := [Sample.algebra; Sample.compilers];
     grades := [Sample.grade "s1" "c1" 3.7; Sample.grade "s2" "c1" 2.0;
                Sample.grade "s3" "c1" 3.0; Sample.grade "s4" "c2" 2.5;
                Sample.grade "s3" "c2" 4.0];
     preferences := [];
     disabilities := [] |}.

(** Runs in which one late step fails: the export of the performance
    parameters, or the plotting at the end of either trainer. *)
Definition export_fails (c : PerformancePredictor.call) : option exn :=
  match c with
  | PerformancePredictor.json_dump _ _ => Some (LibraryError "json.dump")
  | _ => None
  end.

Definition plot_fails (c : PerformancePredictor.call) : option exn :=
  match c with
  | PerformancePredictor._generate_visualizations =>
      Some (LibraryError "savefig")
  | _ => None
  end.

Definition recommendation_plot_fails (c : CourseRecommender.call)
    : option exn :=
  match c with
  | CourseRecommender._generate_visualizations =>
      Some (LibraryError "savefig")
  | _ => None
  end.

End Scenario.


(** ** [encode_categorical_features] *)

(** Frames whose columns hold strings or integers, with [None] for a
    missing entry, and [pd.Categorical(...).codes] on them.  Strings are
    ordered as Python orders them, position by position on their code
    points (for UTF-8 text, on their bytes). *)
Module Categorical.

Section codes.
Context {V : Type} `{EqDecision V} (le : relation V) `{!RelDecision le}.

(** [pd.Categorical(values).categories]: the distinct values present, in
    ascending order. *)
Definition categories (values : list (option V)) : list V :=
  merge_sort le (remove_dups (omap (λ v, v) values)).

(** The code of one entry: its position among the categories, and [-1]
    for a missing entry. *)
Definition code (cats : list V) (v : option V) : Z :=
  match v with
  | None => (-1)%Z
  | Some x =>
      match list_find (λ y, y = x) cats with
      | Some (i, _) => Z.of_nat i
      | None => (-1)%Z
      end
  end.

(** [pd.Categorical(values).codes] *)
Definition codes (values : list (option V)) : list Z :=
  code (categories values) <$> values.

End codes.

Inductive column : Type :=
  | Strings (xs : list (option string))
  | Integers (xs : list (option Z)).

Definition Frame : Type := list (string * column).

(** [pd.Categorical(df_encoded[col]).codes], as a column: codes are
    integers and none of them is missing. *)
Definition encode_column (c : column) : column :=
  match c with
  | Strings xs => Integers (Some <$> codes String.le xs)
  | Integers xs => Integers (Some <$> codes Z.le xs)
  end.

(** [df_encoded[col] = new] for a column the frame has. *)
Definition assign (col : string) (f : column → column) (df : Frame) : Frame :=
  (λ nc, if decide (nc.1 = col) then (nc.1, f nc.2) else nc) <$> df.

Definition encode_categorical_features (df : Frame) (columns : list string)
    : Frame :=
  foldl (λ df_encoded col,
           if decide (col ∈ df_encoded.*1)
           then assign col encode_column df_encoded
           else df_encoded)
    df columns.

(** A frame with a gap in its [major] column. *)
Definition roster : Frame :=
  [("major", Strings [Some "Physics"; Some "Biology"; None; Some "Physics";
                      Some "Art"]);
   ("level", Strings [Some "Junior"; Some "Senior"; Some "Junior";
                      Some "Junior"; Some "Senior"]);
   ("credits", Integers [Some 30%Z; Some 90%Z; Some 30%Z; Some 45%Z;
                         Some 90%Z])].

End Categorical.


(* ================================================================= *)
(** * Stored estimators: [_load_models] and [predict_performance] *)

(** The trainers keep their estimators in attributes of [self].  The
    attributes are modelled as the dictionary of the object, from
    attribute name to what the attribute holds. *)
Module Estimators.

(** What an attribute holds: [None], an object made by its constructor
    in this process and not fitted ([StandardScaler()] in [__init__]),
    such an object after it was fitted in this process, or the object
    that [joblib.load] read from a file. *)
Inductive object : Type :=
  | NoneType
  | Constructed (class_name : string)
  | Fitted (class_name : string)
  | Loaded (path : string).

#[global] Instance object_eq_dec : EqDecision object.
Proof. solve_decision. Defined.

(** [self.__dict__] *)
Definition self : Type := gmap string object.

(** The library calls of [_load_models] and [predict_performance]; a
    method call names the object it is made on, an indexing the call
    whose result it indexes. *)
Inductive call : Type :=
  | joblib_load (path : string)
  | transform (scaler : object)
  | predict_proba (model : object)
  | predict (model : object)
  | feature_importances_ (model : object)
  | column_1 (array : call)
  | item_0 (array : call).

(** An exception of the library, or the [AttributeError] of Python for
    an attribute [name] that the object does not have. *)
Inductive raised : Type :=
  | AttributeError (name : string)
  | Library (e : exn).

Section methods.
Context (raises : call → option exn).

(** A method: from the attributes and the log before to the result or
    the exception, the attributes and the log after. *)
Definition method (A : Type) : Type :=
  self → list (effect call) → (A + raised) * self * list (effect call).

Definition pure {A} (a : A) : method A := λ s log, (inl a, s, log).

Definition raise {A} (e : raised) : method A := λ s log, (inr e, s, log).

Definition and_then {A B} (m : method A) (k : A → method B) : method B :=
  λ s log,
    match m s log with
    | (inl a, s', log') => k a s' log'
    | (inr e, s', log') => (inr e, s', log')
    end.

(** [self.name] *)
Definition getattr (name : string) : method object :=
  λ s log,
    match s !! name with
    | Some o => (inl o, s, log)
    | None => (inr (AttributeError name), s, log)
    end.

(** [self.name = o] *)
Definition setattr (name : string) (o : object) : method unit :=
  λ s log, (inl (), <[name := o]> s, log).

Definition library (c : call) : method call :=
  λ s log,
    match raises c with
    | Some e => (inr (Library e), s, log)
    | None => (inl c, s, log ++ [Call c])
    end.

(** [self.name = joblib.load(path)] *)
Definition load (name path : string) : method unit :=
  and_then (library (joblib_load path)) (λ _, setattr name (Loaded path)).

(** What scikit-learn raises when an estimator is used before it was
    fitted. *)
Definition NotFittedError : raised := Library (LibraryError "NotFittedError").

(** The objects that hold a fitted estimator. *)
Definition is_fitted (o : object) : Prop :=
  match o with
  | Fitted _ | Loaded _ => True
  | NoneType | Constructed _ => False
  end.

#[global] Instance is_fitted_dec (o : object) : Decision (is_fitted o).
Proof. destruct o; apply _. Defined.

(** [self.name.member(...)], or [self.name.member] for a property, for
    the members used here: [transform], [predict], [predict_proba] and
    [feature_importances_].  [None] has no member, and each of these
    members first checks that the estimator is fitted. *)
Definition on (name member : string) (c : object → call) : method call :=
  and_then (getattr name) (λ o,
    match o with
    | NoneType => raise (AttributeError member)
    | Constructed _ => raise NotFittedError
    | Fitted _ | Loaded _ => library (c o)
    end).

End methods.

(** A method that assigns no attribute and reads no file. *)
Definition reads_only {A} (m : method A) : Prop :=
  ∀ s log,
    (m s log).1.2 = s ∧
    ∃ calls, (m s log).2 = log ++ (Call <$> calls) ∧
             ∀ path, joblib_load path ∉ calls.

Local Notation "'let*' x ':=' m 'in' k" := (and_then m (λ x, k))
  (at level 10, x name, m at level 100, k at level 200).
Local Notation "m '>>' k" := (and_then m (λ _, k))
  (at level 100, k at level 200, right associativity).

Module PerformancePredictor.

Definition __init__ : self :=
  {[ "preprocessor" := Constructed "DataPreprocessor";
     "logistic_model" := NoneType;
     "random_forest_classifier" := NoneType;
     "random_forest_regressor" := NoneType;
     "gradient_boosting_classifier" := NoneType;
     "scaler" := Constructed "StandardScaler" ]}.

Section methods.
Context (raises : call → option exn).

Definition _load_models : method unit :=
  load raises "logistic_model"
    "ml_models/saved_models/logistic_model.pkl" >>
  load raises "random_forest_classifier"
    "ml_models/saved_models/rf_classifier.pkl" >>
  load raises "gradient_boosting_classifier"
    "ml_models/saved_models/gb_classifier.pkl" >>
  load raises "random_forest_regressor"
    "ml_models/saved_models/rf_regressor.pkl" >>
  load raises "scaler" "ml_models/saved_models/scaler.pkl".

(** The returned dictionary: for every key the call its value is taken
    from. *)
Definition predict_performance : method (list (string * call)) :=
  let* logistic_model := getattr "logistic_model" in
  (match logistic_model with
   | NoneType => _load_models
   | _ => pure ()
   end) >>
  let* X_scaled := on raises "scaler" "transform" transform in
  let* proba := on raises "logistic_model" "predict_proba" predict_proba in
  let* at_risk_prob := library raises (column_1 proba) in
  let* at_risk := on raises "logistic_model" "predict" predict in
  let* predicted_grade :=
    on raises "random_forest_regressor" "predict" predict in
  let* importances :=
    on raises "random_forest_classifier" "feature_importances_"
      feature_importances_ in
  let* predicted_grade_0 := library raises (item_0 predicted_grade) in
  let* at_risk_0 := library raises (item_0 at_risk) in
  let* at_risk_prob_0 := library raises (item_0 at_risk_prob) in
  pure [("predicted_grade", predicted_grade_0);
        ("at_risk", at_risk_0);
        ("risk_probability", at_risk_prob_0);
        ("feature_importance", importances)].

End methods.

End PerformancePredictor.

Module CourseRecommender.

Definition __init__ : self :=
  {[ "preprocessor" := Constructed "DataPreprocessor";
     "knn_model" := NoneType;
     "decision_tree_model" := NoneType;
     "random_forest_model" := NoneType;
     "adaboost_model" := NoneType;
     "nearest_neighbors" := NoneType;
     "scaler" := Constructed "StandardScaler" ]}.

Section methods.
Context (raises : call → option exn).

Definition _load_models : method unit :=
  load raises "knn_model" "ml_models/saved_models/knn_model.pkl" >>
  load raises "decision_tree_model"
    "ml_models/saved_models/decision_tree_model.pkl" >>
  load raises "random_forest_model"
    "ml_models/saved_models/random_forest_model.pkl" >>
  load raises "adaboost_model"
    "ml_models/saved_models/adaboost_model.pkl" >>
  load raises "nearest_neighbors"
    "ml_models/saved_models/nearest_neighbors.pkl" >>
  load raises "scaler" "ml_models/saved_models/recommendation_scaler.pkl".

End methods.

End CourseRecommender.

(** The attributes after the files [fs] have been loaded into them. *)
Definition loaded (fs : list (string * string)) (s : self) : self :=
  foldl (λ s f, <[f.1 := Loaded f.2]> s) s fs.

End Estimators.

(** The attribute and the file of every [joblib.dump] of a training run. *)
Definition performance_dumps (log : list (effect PerformancePredictor.call))
    : list (string * string) :=
  omap (λ ef, match ef with
              | Call (PerformancePredictor.joblib_dump attribute path) =>
                  Some (attribute, path)
              | _ => None
              end) log.

Definition recommendation_dumps (log : list (effect CourseRecommender.call))
    : list (string * string) :=
  omap (λ ef, match ef with
              | Call (CourseRecommender.joblib_dump attribute path) =>
                  Some (attribute, path)
              | _ => None
              end) log.

(* ================================================================= *)
(** * The seeding scripts *)

(** The scripts draw from [random] and [numpy.random].  Every draw is an
    argument of the model: the position drawn by [random.choice], the
    value drawn by [random.uniform] or [random.gauss], and the standard
    normal deviate behind [np.random.normal(loc, scale)]. *)

(** [random.choice(seq)] for the position drawn; an empty sequence is
    refused. *)
Definition choice {A} (draw : nat) (seq : list A) : outcome A :=
  match seq !! (draw `mod` length seq) with
  | Some x => Return x
  | None => Raise IndexError
  end.

(** Rounding to the nearest hundredth, a tie going to the even one.  This
    is [round(x, 2)] on exact decimals; on a binary float Python can
    resolve a tie such as 2.675 the other way, so the generator below
    takes its rounding as a parameter. *)
Definition round2 (x : Q) : Q :=
  let scaled := (x * 100)%Q in
  let below := Qfloor scaled in
  let rest := (scaled - inject_Z below)%Q in
  let nearest :=
    if Qlt_le_dec rest (1 # 2) then below
    else if Qlt_le_dec (1 # 2) rest then (below + 1)%Z
    else if Z.even below then below else (below + 1)%Z in
  (inject_Z nearest / 100)%Q.

(** [d.get(k)] on a dictionary with string keys *)
Definition get {V} (d : list (string * V)) (k : string) : option V :=
  snd <$> (snd <$> list_find (λ kv, kv.1 = k) d).

(** [d[k]] *)
Definition getitem {V} (d : list (string * V)) (k : string) : outcome V :=
  match get d k with
  | Some v => Return v
  | None => Raise (KeyError k)
  end.

(** [seed_test_data.py] *)
Module SeedTestData.

Module Profile.
Record t : Type := mk {
  email : string;
  full_name : string;
  major : string;
  academic_level : string;
  current_gpa : Q;
  has_disability : bool }.
End Profile.

Definition test_students : list Profile.t :=
  [ Profile.mk "john.doe@example.com" "John Doe" "Computer Science"
      "Junior" 3.5 false;
    Profile.mk "jane.smith@example.com" "Jane Smith" "Computer Science"
      "Senior" 3.8 true;
    Profile.mk "bob.johnson@example.com" "Bob Johnson" "Mathematics"
      "Sophomore" 2.9 false;
    Profile.mk "alice.williams@example.com" "Alice Williams" "Physics"
      "Freshman" 3.2 true;
    Profile.mk "charlie.brown@example.com" "Charlie Brown" "Biology"
      "Junior" 2.5 false ].

Definition grade_map : list (string * Q) :=
  [("A", 4.0); ("A-", 3.7); ("B+", 3.3); ("B", 3.0); ("B-", 2.7);
   ("C+", 2.3); ("C", 2.0); ("C-", 1.7); ("D", 1.0); ("F", 0.0)]%Q.

Definition grade_options (gpa : Q) : list string :=
  if Qle_bool 3.5 gpa then ["A"; "A-"; "B+"]
  else if Qle_bool 3.0 gpa then ["A-"; "B+"; "B"; "B-"]
  else if Qle_bool 2.5 gpa then ["B"; "B-"; "C+"; "C"]
  else ["C+"; "C"; "C-"; "D"].

(** The draws for one selected course. *)
Record Draw : Type := mkDraw {
  grade : nat;
  attendance : Q;
  semester : nat;
  year : nat }.

(** The grade row that the script inserts for a selected course, when no
    such row exists yet. *)
Definition grade_row (student_id : string) (gpa : Q) (course_id : string)
    (draw : Draw) : outcome Grade.t :=
  grade ⇐ choice (grade draw) (grade_options gpa);;
  grade_point ⇐ getitem grade_map grade;;
  let attendance := attendance draw in
  semester ⇐ choice (semester draw) ["Fall"; "Spring"];;
  year ⇐ choice (year draw) [2022; 2023]%Z;;
  Return {| Grade.student_id := student_id;
            Grade.course_id := course_id;
            Grade.grade_point := grade_point;
            Grade.semester := semester;
            Grade.year := year;
            Grade.attendance_rate := attendance |}.

End SeedTestData.

(** [generate_dataset.py] *)
Module DatasetGenerator.

Definition departments : list string :=
  ["Computer Science"; "Mathematics"; "Physics"; "Biology"; "Chemistry";
   "Psychology"; "Economics"; "History"; "English"; "Art"].

Definition academic_levels : list string :=
  ["Freshman"; "Sophomore"; "Junior"; "Senior"; "Graduate"].

Definition semesters : list string := ["Fall"; "Spring"; "Summer"].

Module StudentRow.
Record t : Type := mk {
  full_name : string;
  email : string;
  current_gpa : Q;
  academic_level : string;
  major : string;
  has_disability : bool }.
End StudentRow.

Module GradeRow.
Record t : Type := mk {
  student_id : string;
  course_id : string;
  grade : string;
  grade_point : Q;
  semester : string;
  year : Z;
  attendance_rate : Q }.
End GradeRow.

Module DisabilityRow.
Record t : Type := mk {
  student_id : string;
  disability_type : string;
  preferred_interaction_mode : option string;
  support_requirements : option string }.
End DisabilityRow.

(** The draws for one student: [normal] is the standard normal deviate,
    [np.random.normal(loc, scale)] being [loc + scale * normal]. *)
Record StudentDraw : Type := mkStudentDraw {
  level : nat;
  disabled : nat;
  normal : Q;
  penalty : Q;
  department : nat }.

(** The draws of one round of [generate_grades]; [courses] is the answer
    of the course query of that round. *)
Record GradeDraw : Type := mkGradeDraw {
  year : Z;
  semester : nat;
  courses : list string;
  course : nat;
  gpa_influence : Q;
  attendance : Q }.

Definition grade_map : list (Q * string) :=
  [(4.0, "A"); (3.7, "A-"); (3.3, "B+"); (3.0, "B"); (2.7, "B-");
   (2.3, "C+"); (2.0, "C"); (1.7, "C-"); (1.0, "D"); (0.0, "F")]%Q.

(** [min(xs, key=key)]: the first element of least key. *)
Fixpoint min_from {A} (key : A → Q) (best : A) (xs : list A) : A :=
  match xs with
  | [] => best
  | x :: xs' =>
      min_from key (if Qlt_le_dec (key x) (key best) then x else best) xs'
  end.

Definition min_by {A} (key : A → Q) (xs : list A) : outcome A :=
  match xs with
  | [] => Raise ValueError
  | x :: xs' => Return (min_from key x xs')
  end.

(** [grade_map[closest_grade]] *)
Definition grade_of (closest_grade : Q) : outcome string :=
  match list_find (λ kv, Qeq_bool kv.1 closest_grade = true) grade_map with
  | Some (_, kv) => Return kv.2
  | None => Raise (KeyError "closest_grade")
  end.

(** The generator of students and of grades, for a rounding [round] that
    stands for [round(x, 2)]. *)
Section rounding.
Context (round : Q → Q).

Definition generate_student (i : nat) (draw : StudentDraw)
    : outcome StudentRow.t :=
  level ⇐ choice (level draw) academic_levels;;
  has_disability ⇐ choice (disabled draw) [true; false];;
  let gpa_base :=
    if decide (level = "Freshman") then (2.8 + 0.6 * normal draw)%Q
    else if decide (level = "Sophomore") then (3.0 + 0.6 * normal draw)%Q
    else if decide (level = "Junior") then (3.1 + 0.5 * normal draw)%Q
    else if decide (level = "Senior") then (3.2 + 0.5 * normal draw)%Q
    else (3.5 + 0.4 * normal draw)%Q in
  let gpa_base :=
    if has_disability then (gpa_base - penalty draw)%Q else gpa_base in
  let current_gpa := Qmax 0 (Qmin 4.0 gpa_base) in
  major ⇐ choice (department draw) departments;;
  Return {| StudentRow.full_name := "Student " +:+ pretty (i + 1);
            StudentRow.email :=
              "student" +:+ pretty (i + 1) +:+ "@university.edu";
            StudentRow.current_gpa := round current_gpa;
            StudentRow.academic_level := level;
            StudentRow.major := major;
            StudentRow.has_disability := has_disability |}.

(** [generate_students(count)], with the draws of the [count] rounds. *)
Fixpoint generate_students_from (i : nat) (draws : list StudentDraw)
    : outcome (list StudentRow.t) :=
  match draws with
  | [] => Return []
  | draw :: draws' =>
      student ⇐ generate_student i draw;;
      students ⇐ generate_students_from (S i) draws';;
      Return (student :: students)
  end.

Definition generate_students (draws : list StudentDraw)
    : outcome (list StudentRow.t) :=
  generate_students_from 0 draws.

(** One round: [None] when the round is skipped. *)
Definition generate_grade (student_id : string) (draw : GradeDraw)
    : outcome (option GradeRow.t) :=
  let year := year draw in
  semester ⇐ choice (semester draw) semesters;;
  match courses draw with
  | [] => Return None
  | _ =>
      course_id ⇐ choice (course draw) (courses draw);;
      let grade_point := Qmax 0 (Qmin 4.0 (3.0 + gpa_influence draw)) in
      let attendance := attendance draw in
      closest_grade ⇐
        min_by (λ x, Qabs (x - grade_point)) grade_map.*1;;
      grade_letter ⇐ grade_of closest_grade;;
      Return (Some {| GradeRow.student_id := student_id;
                      GradeRow.course_id := course_id;
                      GradeRow.grade := grade_letter;
                      GradeRow.grade_point := round grade_point;
                      GradeRow.semester := semester;
                      GradeRow.year := year;
                      GradeRow.attendance_rate := round attendance |})
  end.

(** [generate_grades(student_id, num_courses)], with the draws of the
    [num_courses] rounds. *)
Fixpoint generate_grades (student_id : string) (draws : list GradeDraw)
    : outcome (list GradeRow.t) :=
  match draws with
  | [] => Return []
  | draw :: draws' =>
      grade ⇐ generate_grade student_id draw;;
      grades ⇐ generate_grades student_id draws';;
      Return (match grade with
              | Some row => row :: grades
              | None => grades
              end)
  end.

End rounding.

Definition accommodation_map : list (string * list (string * string)) :=
  [("Visual",
    [("preferred_interaction_mode",
      "Audio materials and screen reader compatible content");
     ("support_requirements",
      "Braille materials, audio descriptions, magnified text")]);
   ("Hearing",
    [("preferred_interaction_mode",
      "Visual materials and written summaries");
     ("support_requirements",
      "Captioning, sign language interpreter, written notes")]);
   ("Mobility",
    [("preferred_interaction_mode",
      "Flexible seating and movement breaks");
     ("support_requirements",
      "Accessible facilities, flexible class attendance")]);
   ("Learning",
    [("preferred_interaction_mode",
      "Structured materials and additional time");
     ("support_requirements",
      "Extended test time, simplified instructions, tutoring")])].

(** [generate_disabilities]; [None] is Python's [None]. *)
Definition generate_disabilities (student_id : string)
    (has_disability : bool) (draw : nat) : outcome (option DisabilityRow.t) :=
  if negb has_disability then Return None
  else
    disability_type ⇐
      choice draw ["Visual"; "Hearing"; "Mobility"; "Learning"];;
    let accommodation :=
      default [] (get accommodation_map disability_type) in
    Return (Some
      {| DisabilityRow.student_id := student_id;
         DisabilityRow.disability_type := disability_type;
         DisabilityRow.preferred_interaction_mode :=
           get accommodation "preferred_interaction_mode";
         DisabilityRow.support_requirements :=
           get accommodation "support_requirements" |}).

End DatasetGenerator.

(** A data set as [seed_test_data] leaves it for John Doe and Charlie
    Brown: one grade row each, of the first two courses. *)
Definition seeded : Data :=
  {| students := [Student.mk "s1" 3.5 "Junior" "Computer Science" false;
                  Student.mk "s5" 2.5 "Junior" "Biology" false];
     courses := [Sample.algebra; Sample.compilers];
     grades := [Grade.mk "s1" "c1" 3.7 "Fall" 2022%Z 80;
                Grade.mk "s5" "c2" 2.0 "Spring" 2023%Z 90];
     preferences := [];
     disabilities := [] |}.

(* ================================================================= *)
(** * Properties *)

(** ** Joins *)

Section merge_facts.
Context {A B : Type} (left_on : A → string) (right_on : B → string).

Lemma merge_cons (a : A) (left : list A) (right : list B) :
  merge left_on right_on (a :: left) right =
  ((λ b, (a, b)) <$> filter (λ b, right_on b = left_on a) right)
    ++ merge left_on right_on left right.
Proof. reflexivity. Qed.

(** With unique keys on the right, a key selects one row or none. *)
Lemma filter_key_NoDup (k : string) (right : list B) :
  NoDup (right_on <$> right) →
  length (filter (λ b, right_on b = k) right) =
  if decide (k ∈ right_on <$> right) then 1 else 0.
Proof.
  induction right as [|b right IH]; intros Hnd.
  - destruct (decide _) as [Hin|]; [inversion Hin|reflexivity].
  - rewrite fmap_cons in Hnd. apply NoDup_cons in Hnd as [Hnotin Hnd].
    specialize (IH Hnd). rewrite filter_cons.
    destruct (decide (right_on b = k)) as [Hk|Hk].
    + subst k. simpl. rewrite IH.
      destruct (decide (right_on b ∈ right_on <$> right)); [done|].
      destruct (decide _) as [|Hn]; [done|]. exfalso. apply Hn. left.
    + rewrite IH. destruct (decide (k ∈ right_on <$> right)) as [Hin|Hin].
      * destruct (decide _) as [|Hn]; [done|]. exfalso. apply Hn. by right.
      * destruct (decide _) as [Hin'|]; [|done].
        rewrite fmap_cons in Hin'. apply elem_of_cons in Hin' as [->|]; done.
Qed.

(** The left rows that survive an inner join on a unique right key are
    the rows whose key occurs on the right, once each and in order. *)
Lemma merge_fst_NoDup (left : list A) (right : list B) :
  NoDup (right_on <$> right) →
  fst <$> merge left_on right_on left right =
  filter (λ a, left_on a ∈ right_on <$> right) left.
Proof.
  intros Hnd. induction left as [|a left IH]; [reflexivity|].
  rewrite merge_cons, fmap_app, IH, filter_cons. clear IH.
  pose proof (filter_key_NoDup (left_on a) right Hnd) as Hlen.
  destruct (filter (λ b, right_on b = left_on a) right) as [|b [|b' bs]];
    destruct (decide (left_on a ∈ right_on <$> right)); simpl in *;
    done.
Qed.

Lemma merge_filter_left (P : A → Prop) `{!∀ a, Decision (P a)}
    `{!∀ ab : A * B, Decision (P ab.1)} (left : list A) (right : list B) :
  filter (λ ab, P ab.1) (merge left_on right_on left right) =
  merge left_on right_on (filter P left) right.
Proof.
  induction left as [|a left IH]; [reflexivity|].
  rewrite merge_cons, filter_app, IH, (filter_cons P). clear IH.
  destruct (decide (P a)) as [HP|HP].
  - rewrite merge_cons. f_equal. generalize (filter (λ b, right_on b = left_on a) right).
    intros bs. induction bs as [|b bs IHb]; [reflexivity|].
    rewrite fmap_cons, filter_cons_True by done. by rewrite IHb.
  - rewrite <- (app_nil_l (merge _ _ (filter P left) right)). f_equal.
    generalize (filter (λ b, right_on b = left_on a) right).
    intros bs. induction bs as [|b bs IHb]; [reflexivity|].
    rewrite fmap_cons, filter_cons_False by done. by rewrite IHb.
Qed.

End merge_facts.

(** ** [prepare_performance_data] *)

Section performance_data.
Import DataPreprocessor.

Lemma inner_joins_grades (data : Data) :
  valid_ids data →
  (λ m : Merged, m.1.1) <$> inner_joins data =
  filter (resolves data) (grades data).
Proof.
  intros [Hs Hc]. unfold inner_joins, Merged.
  change (λ m : Grade.t * Student.t * Course.t, m.1.1)
    with (@fst Grade.t Student.t ∘ @fst _ Course.t).
  rewrite list_fmap_compose.
  rewrite (merge_fst_NoDup _ Course.id _ _ Hc). cbv beta.
  rewrite (merge_filter_left _ _
             (λ g, Grade.course_id g ∈ Course.id <$> courses data)).
  rewrite (merge_fst_NoDup _ Student.id _ _ Hs).
  rewrite list_filter_filter. apply list_filter_iff.
  intros g. unfold resolves. tauto.
Qed.

Lemma at_risk_of_spec (gp : Q) :
  (at_risk_of gp = 1%Z ∨ at_risk_of gp = 0%Z) ∧
  (at_risk_of gp = 1%Z ↔ (gp < 2.0)%Q).
Proof.
  unfold at_risk_of. destruct (Qlt_le_dec gp 2.0) as [Hlt|Hle].
  - split; [by left|done].
  - split; [by right|]. split; [done|].
    intros Hlt. exfalso. exact (Qlt_not_le _ _ Hlt Hle).
Qed.

Lemma getcolumn_return {A} (name : string) (df : list A) :
  df ≠ [] → getcolumn name df = Return df.
Proof. by destruct df. Qed.

Lemma getcolumn_inv {A} (name : string) (df df' : list A) :
  getcolumn name df = Return df' → df ≠ [] ∧ df' = df.
Proof. destruct df; [done|]. by intros [= <-]. Qed.

(** The joins return exactly when each of the three tables has a row. *)
Lemma merged_frame_populated (data : Data) :
  students data ≠ [] → grades data ≠ [] → courses data ≠ [] →
  merged_frame data = Return (inner_joins data).
Proof.
  intros Hs Hg Hc. unfold merged_frame.
  by rewrite !getcolumn_return.
Qed.

Lemma merged_frame_return (data : Data) (merged : list Merged) :
  merged_frame data = Return merged →
  students data ≠ [] ∧ grades data ≠ [] ∧ courses data ≠ [] ∧
  merged = inner_joins data.
Proof.
  unfold merged_frame.
  destruct (students data), (grades data), (courses data); try done.
  by intros [= <-].
Qed.

Lemma prepare_performance_data_populated (data : Data) :
  students data ≠ [] → grades data ≠ [] → courses data ≠ [] →
  prepare_performance_data data
  = Return (performance_row <$> inner_joins data,
            (λ m : Merged, Grade.grade_point m.1.1) <$> inner_joins data,
            at_risk_of
              <$> ((λ m : Merged, Grade.grade_point m.1.1)
                     <$> inner_joins data)).
Proof.
  intros Hs Hg Hc. unfold prepare_performance_data.
  by rewrite merged_frame_populated.
Qed.

Lemma prepare_performance_data_return (data : Data)
    (features : list PerformanceRow.t) (target : list Q) (at_risk : list Z) :
  prepare_performance_data data = Return (features, target, at_risk) →
  merged_frame data = Return (inner_joins data) ∧
  features = performance_row <$> inner_joins data ∧
  target = (λ m : Merged, Grade.grade_point m.1.1) <$> inner_joins data ∧
  at_risk = at_risk_of <$> target.
Proof.
  unfold prepare_performance_data.
  destruct (merged_frame data) as [merged|e] eqn:Hmerged; [|done].
  apply merged_frame_return in Hmerged as (_ & _ & _ & ->).
  cbn [obind]. by intros [= <- <- <-].
Qed.

(** The rows of the joins, one by one: on unique ids, row [i] pairs the
    [i]-th resolving grade row with the student and the course it
    names. *)
Lemma inner_joins_lookup (data : Data) (i : nat) (g : Grade.t) :
  valid_ids data →
  filter (resolves data) (grades data) !! i = Some g →
  ∃ s c, inner_joins data !! i = Some (g, s, c) ∧
         s ∈ students data ∧ Student.id s = Grade.student_id g ∧
         c ∈ courses data ∧ Course.id c = Grade.course_id g.
Proof.
  intros Hvalid Hi. rewrite <- (inner_joins_grades data Hvalid) in Hi.
  rewrite list_lookup_fmap in Hi.
  destruct (inner_joins data !! i) as [[[g' s] c]|] eqn:Hm; [|done].
  injection Hi as ->. exists s, c. split; [done|].
  apply list_elem_of_lookup_2 in Hm. unfold inner_joins, merge in Hm.
  apply list_elem_of_bind in Hm as ([g1 s1] & Hc & Hgs).
  apply list_elem_of_fmap in Hc as (c1 & [= -> -> ->] & Hc).
  apply list_elem_of_filter in Hc as [Hcid Hc].
  apply list_elem_of_bind in Hgs as (g2 & Hs & Hg).
  apply list_elem_of_fmap in Hs as (s2 & [= -> ->] & Hs).
  apply list_elem_of_filter in Hs as [Hsid Hs].
  done.
Qed.

End performance_data.

(** C1.  On an entity set with unique student and course ids in which
    each of the three tables has a row, [prepare_performance_data] returns
    a feature frame, a target series and a risk series of one common
    length, the number of grade rows whose [student_id] and [course_id]
    both resolve; row [i] is built from the [i]-th such grade row and from
    the student and the course it names: the GPA and the disability flag
    (0 or 1) of that student, the difficulty and the credits of that
    course, the attendance and the grade point of that grade; and the
    risk label of the row is 0 or 1, and 1 exactly when the grade point is
    below 2.0.  On [Sample.no_grades], where no grade is recorded, the
    claim asks for a frame without rows and no error; the call raises
    [KeyError] instead, as it does when the student table or the course
    table has no row. *)
Theorem prepare_performance_data_spec :
  (∀ data : Data,
     valid_ids data →
     students data ≠ [] → grades data ≠ [] → courses data ≠ [] →
     ∃ features target at_risk,
       DataPreprocessor.prepare_performance_data data
         = Return (features, target, at_risk) ∧
       length features = length (filter (resolves data) (grades data)) ∧
       length target = length features ∧
       length at_risk = length features ∧
       ∀ i g, filter (resolves data) (grades data) !! i = Some g →
         ∃ s c r,
           s ∈ students data ∧ Student.id s = Grade.student_id g ∧
           c ∈ courses data ∧ Course.id c = Grade.course_id g ∧
           features !! i
             = Some (PerformanceRow.mk (Student.current_gpa s)
                       (Course.difficulty_level c) (Grade.attendance_rate g)
                       (int_of_bool (Student.has_disability s))
                       (Course.credits c)) ∧
           (int_of_bool (Student.has_disability s) = 0%Z ∨
            int_of_bool (Student.has_disability s) = 1%Z) ∧
           target !! i = Some (Grade.grade_point g) ∧
           at_risk !! i = Some r ∧ (r = 1%Z ∨ r = 0%Z) ∧
           (r = 1%Z ↔ (Grade.grade_point g < 2.0)%Q)) ∧
  valid_ids Sample.no_grades ∧
  filter (resolves Sample.no_grades) (grades Sample.no_grades) = [] ∧
  DataPreprocessor.prepare_performance_data Sample.no_grades
    = Raise (KeyError "student_id") ∧
  (∀ data : Data,
     students data = [] ∨ grades data = [] ∨ courses data = [] →
     ∃ key, DataPreprocessor.prepare_performance_data data
              = Raise (KeyError key)).
Proof.
  split_and!.
  - intros data Hvalid Hs Hg Hc. eexists _, _, _.
    split; [exact (prepare_performance_data_populated data Hs Hg Hc)|].
    pose proof (inner_joins_grades data Hvalid) as Hgrades.
    split_and!.
    + rewrite <- Hgrades. by rewrite !length_fmap.
    + by rewrite !length_fmap.
    + by rewrite !length_fmap.
    + intros i g Hi.
      destruct (inner_joins_lookup data i g Hvalid Hi)
        as (s & c & Hm & Hs' & Hsid & Hc' & Hcid).
      exists s, c, (DataPreprocessor.at_risk_of (Grade.grade_point g)).
      unfold DataPreprocessor.Merged in *.
      rewrite !list_lookup_fmap, Hm.
      split_and!; try done.
      * destruct (Student.has_disability s); [by right|by left].
      * apply at_risk_of_spec.
      * apply at_risk_of_spec.
  - split; apply (bool_decide_unpack _); vm_compute; exact I.
  - reflexivity.
  - reflexivity.
  - intros data Hempty.
    unfold DataPreprocessor.prepare_performance_data,
      DataPreprocessor.merged_frame.
    destruct (students data); [by eexists|].
    destruct (grades data); [by eexists|].
    destruct (courses data); [by eexists|].
    by destruct Hempty as [|[|]].
Qed.

Lemma prepare_performance_data_spec_witness :
  valid_ids Sample.campus ∧
  ∃ features target at_risk,
    DataPreprocessor.prepare_performance_data Sample.campus
      = Return (features, target, at_risk) ∧
    length features
      = length (filter (resolves Sample.campus) (grades Sample.campus)) ∧
    features = [PerformanceRow.mk 3.5 2 90 0 3;
                PerformanceRow.mk 3.5 4 90 0 4;
                PerformanceRow.mk 2.9 2 90 1 3] ∧
    at_risk = [0%Z; 1%Z; 0%Z].
Proof.
  assert (valid_ids Sample.campus) as Hvalid.
  { split; apply (bool_decide_unpack _); vm_compute; exact I. }
  split; [exact Hvalid|].
  destruct (proj1 prepare_performance_data_spec Sample.campus Hvalid)
    as (features & target & at_risk & Hrun & Hlen & _); [done..|].
  exists features, target, at_risk.
  split; [exact Hrun|]. split; [exact Hlen|].
  vm_compute in Hrun. injection Hrun as <- <- <-. by split.
Defined.

(** Without unique ids the join multiplies rows: in [Sample.twins] two
    student rows share the id of the two grade rows, which become four
    feature rows. *)
Example prepare_performance_data_twins :
  length (filter (resolves Sample.twins) (grades Sample.twins)) = 2 ∧
  ∃ features target at_risk,
    DataPreprocessor.prepare_performance_data Sample.twins
      = Return (features, target, at_risk) ∧
    length features = 4.
Proof. split; [by vm_compute|]. eexists _, _, _. by vm_compute. Qed.

Example prepare_performance_data_campus :
  DataPreprocessor.prepare_performance_data Sample.campus =
  Return ([PerformanceRow.mk 3.5 2 90 0 3;
           PerformanceRow.mk 3.5 4 90 0 4;
           PerformanceRow.mk 2.9 2 90 1 3],
          [3.7%Q; 1.5%Q; 2.0%Q],
          [0%Z; 1%Z; 0%Z]).
Proof. vm_compute. reflexivity. Qed.

(** ** Selecting the first row of a selection *)

Lemma iloc0_filter_first {A} (key : A → string) (k : string)
    (pre : list A) (x : A) (post : list A) :
  key x = k → (∀ y, y ∈ pre → key y ≠ k) →
  iloc0 (filter (λ y, key y = k) (pre ++ x :: post)) = Return x.
Proof.
  intros Hx Hpre. rewrite filter_app.
  assert (filter (λ y, key y = k) pre = []) as ->.
  { induction pre as [|y pre IH]; [reflexivity|].
    rewrite filter_cons_False by (apply Hpre; left).
    apply IH. intros z Hz. apply Hpre. by right. }
  by rewrite app_nil_l, filter_cons_True.
Qed.

Lemma iloc0_filter_absent {A} (key : A → string) (k : string) (l : list A) :
  k ∉ key <$> l → iloc0 (filter (λ y, key y = k) l) = Raise IndexError.
Proof.
  intros Hk. assert (filter (λ y, key y = k) l = []) as ->; [|reflexivity].
  induction l as [|y l IH]; [reflexivity|].
  rewrite fmap_cons in Hk. apply not_elem_of_cons in Hk as [Hne Hk].
  rewrite filter_cons_False by done. by apply IH.
Qed.

Lemma first_occurrence {A} (key : A → string) (k : string) (l : list A) :
  k ∈ key <$> l →
  ∃ pre x post, l = pre ++ x :: post ∧ key x = k ∧ ∀ y, y ∈ pre → key y ≠ k.
Proof.
  induction l as [|y l IH]; intros Hk; [inversion Hk|].
  destruct (decide (key y = k)) as [Hy|Hy].
  - exists [], y, l. split_and!; [done|done|]. intros z Hz. inversion Hz.
  - rewrite fmap_cons in Hk. apply elem_of_cons in Hk as [Hk|Hk]; [done|].
    destruct (IH Hk) as (pre & x & post & -> & Hx & Hpre).
    exists (y :: pre), x, post. split_and!; [done|done|].
    intros z [->|Hz]%elem_of_cons; [done|by apply Hpre].
Qed.

(** ** [prepare_recommendation_data] *)

Section recommendation_data.
Import DataPreprocessor.

Lemma prepare_recommendation_data_first (data : Data) (student_id : string)
    (pre : list Student.t) (student : Student.t) (post : list Student.t) :
  students data = pre ++ student :: post →
  Student.id student = student_id →
  (∀ s, s ∈ pre → Student.id s ≠ student_id) →
  grades data ≠ [] → preferences data ≠ [] → courses data ≠ [] →
  prepare_recommendation_data data student_id =
  Return (DataFrame_of_records RecommendationRow.keys
    (candidate_row student (cold_start_average (history data student_id))
       <$> filter (λ c, Course.id c ∉ Grade.course_id <$> history data student_id)
             (courses data))).
Proof.
  intros Hst Hid Hpre Hg Hp Hc. unfold prepare_recommendation_data.
  rewrite (getcolumn_return "id" (students data))
    by (rewrite Hst; by destruct pre).
  cbn [obind].
  rewrite Hst, (iloc0_filter_first Student.id) by done.
  rewrite !getcolumn_return by done. cbn [obind].
  fold (history data student_id). do 2 f_equal.
  assert (∀ hist, (if decide (0 < length hist)
                   then mean (Grade.grade_point <$> hist) else 2.5%Q)
                  = cold_start_average hist) as ->.
  { intros [|g hist]; [reflexivity|].
    unfold cold_start_average. case_decide as Hn; [reflexivity|].
    exfalso. apply Hn. simpl. lia. }
  f_equal. apply list_filter_iff. intros c.
  by rewrite elem_of_list_to_set.
Qed.

(** After the record of the student is selected, the columns of the
    grade, preference and course tables are read, in this order. *)
Lemma prepare_recommendation_data_empty_table (data : Data)
    (student_id : string) :
  student_id ∈ Student.id <$> students data →
  grades data = [] ∨ preferences data = [] ∨ courses data = [] →
  ∃ key, prepare_recommendation_data data student_id = Raise (KeyError key).
Proof.
  intros Hin Hempty.
  destruct (first_occurrence Student.id _ _ Hin)
    as (pre & student & post & Hst & Hid & Hpre).
  unfold prepare_recommendation_data.
  rewrite (getcolumn_return "id" (students data))
    by (rewrite Hst; by destruct pre).
  cbn [obind].
  rewrite Hst, (iloc0_filter_first Student.id) by done. cbn [obind].
  destruct (grades data); [by eexists|].
  destruct (preferences data); [by eexists|].
  destruct (courses data); [by eexists|].
  by destruct Hempty as [|[|]].
Qed.

End recommendation_data.

(** C7.  When the requested student exists and the grade, preference and
    course tables each have a row, [prepare_recommendation_data] returns
    a frame with one row per course row whose id does not occur in the
    student's grade history, in course order; no returned row carries a
    course id of that history; with an empty history every row has
    [avg_previous_grade] 2.5, and otherwise every row has the mean of the
    history's grade points.  On [Sample.no_grades], where carol exists
    and no grade is recorded, the claim asks for one row per course at
    2.5; the call raises [KeyError] instead, as it does on
    [Sample.no_preferences] and whenever one of the three tables has no
    row. *)
Theorem prepare_recommendation_data_spec :
  (∀ (data : Data) (student_id : string),
     student_id ∈ Student.id <$> students data →
     grades data ≠ [] → preferences data ≠ [] → courses data ≠ [] →
     ∃ df,
       DataPreprocessor.prepare_recommendation_data data student_id
         = Return df ∧
       RecommendationRow.course_id <$> rows df =
         Course.id <$>
           filter (λ c, Course.id c
                          ∉ Grade.course_id <$> history data student_id)
             (courses data) ∧
       (∀ row, row ∈ rows df →
          RecommendationRow.course_id row
            ∉ Grade.course_id <$> history data student_id) ∧
       (history data student_id = [] →
          ∀ row, row ∈ rows df →
            RecommendationRow.avg_previous_grade row = 2.5%Q) ∧
       (history data student_id ≠ [] →
          ∀ row, row ∈ rows df →
            RecommendationRow.avg_previous_grade row =
            mean (Grade.grade_point <$> history data student_id))) ∧
  "s3" ∈ Student.id <$> students Sample.no_grades ∧
  history Sample.no_grades "s3" = [] ∧
  DataPreprocessor.prepare_recommendation_data Sample.no_grades "s3"
    = Raise (KeyError "student_id") ∧
  "s1" ∈ Student.id <$> students Sample.no_preferences ∧
  DataPreprocessor.prepare_recommendation_data Sample.no_preferences "s1"
    = Raise (KeyError "student_id") ∧
  (∀ (data : Data) (student_id : string),
     student_id ∈ Student.id <$> students data →
     grades data = [] ∨ preferences data = [] ∨ courses data = [] →
     ∃ key, DataPreprocessor.prepare_recommendation_data data student_id
              = Raise (KeyError key)).
Proof.
  split_and!.
  - intros data student_id Hin Hg Hp Hc.
    destruct (first_occurrence Student.id _ _ Hin)
      as (pre & student & post & Hst & Hid & Hpre).
    eexists. split.
    { exact (prepare_recommendation_data_first data student_id _ _ _
               Hst Hid Hpre Hg Hp Hc). }
    simpl. split_and!.
    + by rewrite <- list_fmap_compose.
    + intros row (c & -> & Hc')%list_elem_of_fmap. simpl.
      by apply list_elem_of_filter in Hc' as [Hc' _].
    + intros Hnil row (c & -> & _)%list_elem_of_fmap. simpl.
      by rewrite Hnil.
    + intros Hne row (c & -> & _)%list_elem_of_fmap. simpl.
      by destruct (history data student_id).
  - apply (bool_decide_unpack _). vm_compute. exact I.
  - reflexivity.
  - reflexivity.
  - apply (bool_decide_unpack _). vm_compute. exact I.
  - reflexivity.
  - exact prepare_recommendation_data_empty_table.
Qed.

Lemma prepare_recommendation_data_spec_witness :
  "s1" ∈ Student.id <$> students Sample.campus ∧
  ∃ df,
    DataPreprocessor.prepare_recommendation_data Sample.campus "s1" = Return df ∧
    RecommendationRow.course_id <$> rows df =
      Course.id <$>
        filter (λ c, Course.id c ∉ Grade.course_id <$> history Sample.campus "s1")
          (courses Sample.campus) ∧
    (∀ row, row ∈ rows df →
       RecommendationRow.course_id row
         ∉ Grade.course_id <$> history Sample.campus "s1") ∧
    (history Sample.campus "s1" = [] →
       ∀ row, row ∈ rows df →
         RecommendationRow.avg_previous_grade row = 2.5%Q) ∧
    (history Sample.campus "s1" ≠ [] →
       ∀ row, row ∈ rows df →
         RecommendationRow.avg_previous_grade row =
         mean (Grade.grade_point <$> history Sample.campus "s1")).
Proof.
  assert ("s1" ∈ Student.id <$> students Sample.campus) as Hin.
  { apply (bool_decide_unpack _). vm_compute. exact I. }
  split; [exact Hin|].
  by apply (proj1 prepare_recommendation_data_spec Sample.campus "s1" Hin).
Defined.

(** Alice took algebra and compilers: drawing is the one candidate, with
    the mean of her two grades, 3.7 and 1.5. *)
Example prepare_recommendation_data_alice :
  ∃ df,
    DataPreprocessor.prepare_recommendation_data Sample.campus "s1" = Return df ∧
    rows df = [RecommendationRow.mk "c3" 3.5 (mean [3.7; 1.5]%Q) 1 0 2] ∧
    columns df = RecommendationRow.keys.
Proof. eexists. vm_compute. split_and!; reflexivity. Qed.

(** Carol has no grades: every course is a candidate at the default 2.5. *)
Example prepare_recommendation_data_carol :
  DataPreprocessor.prepare_recommendation_data Sample.campus "s3" =
  Return (mkDataFrame RecommendationRow.keys
            [RecommendationRow.mk "c1" 3.2 2.5 2 0 3;
             RecommendationRow.mk "c2" 3.2 2.5 4 0 4;
             RecommendationRow.mk "c3" 3.2 2.5 1 0 2]).
Proof. vm_compute. reflexivity. Qed.

(** C8 (as amended).  When the student table has rows and none of them
    carries the requested id, [prepare_recommendation_data] raises
    [IndexError], the exception of [.iloc[0]] on the empty selection.
    When several rows carry it, the first of them in table order is the
    record used for [student_gpa] and [has_disability], and the call
    returns, the grade, preference and course tables having rows. *)
Theorem prepare_recommendation_data_lookup (data : Data) (student_id : string) :
  (students data ≠ [] →
   student_id ∉ Student.id <$> students data →
   DataPreprocessor.prepare_recommendation_data data student_id
     = Raise IndexError) ∧
  (∀ pre student post,
     students data = pre ++ student :: post →
     Student.id student = student_id →
     (∀ s, s ∈ pre → Student.id s ≠ student_id) →
     grades data ≠ [] → preferences data ≠ [] → courses data ≠ [] →
     ∃ df,
       DataPreprocessor.prepare_recommendation_data data student_id
         = Return df ∧
       ∀ row, row ∈ rows df →
         RecommendationRow.student_gpa row = Student.current_gpa student ∧
         RecommendationRow.has_disability row
           = int_of_bool (Student.has_disability student)).
Proof.
  split.
  - intros Hrows Habsent.
    unfold DataPreprocessor.prepare_recommendation_data.
    rewrite getcolumn_return by done. cbn [obind].
    by rewrite (iloc0_filter_absent Student.id).
  - intros pre student post Hst Hid Hpre Hg Hp Hc. eexists. split.
    { exact (prepare_recommendation_data_first data student_id _ _ _
               Hst Hid Hpre Hg Hp Hc). }
    simpl. by intros row (c & -> & _)%list_elem_of_fmap.
Qed.

Lemma prepare_recommendation_data_lookup_witness :
  students Sample.campus ≠ [] ∧
  ("s9" ∉ Student.id <$> students Sample.campus) ∧
  DataPreprocessor.prepare_recommendation_data Sample.campus "s9"
    = Raise IndexError ∧
  (students Sample.twins = [] ++ Sample.alice :: [Sample.alice_again; Sample.dave] ∧
   Student.id Sample.alice = "s1" ∧
   Student.id Sample.alice_again = "s1" ∧
   grades Sample.twins ≠ [] ∧ preferences Sample.twins ≠ [] ∧
   courses Sample.twins ≠ [] ∧
   ∃ df,
     DataPreprocessor.prepare_recommendation_data Sample.twins "s1"
       = Return df ∧
     ∀ row, row ∈ rows df →
       RecommendationRow.student_gpa row = Student.current_gpa Sample.alice ∧
       RecommendationRow.has_disability row
         = int_of_bool (Student.has_disability Sample.alice)).
Proof.
  assert ("s9" ∉ Student.id <$> students Sample.campus) as Habsent.
  { apply (bool_decide_unpack _). vm_compute. exact I. }
  split; [done|]. split; [exact Habsent|]. split.
  - by apply (proj1 (prepare_recommendation_data_lookup Sample.campus "s9")).
  - split_and!; [reflexivity..|done|done|done|].
    refine (proj2 (prepare_recommendation_data_lookup Sample.twins "s1")
              [] Sample.alice [Sample.alice_again; Sample.dave]
              eq_refl eq_refl _ _ _ _); [|done..].
    intros s Hs. inversion Hs.
Defined.

(** With two rows of id [s1] the first one decides: GPA 3.5 and no
    disability, not the second row's 1.0 and disability. *)
Example prepare_recommendation_data_twins :
  DataPreprocessor.prepare_recommendation_data Sample.twins "s1" =
  Return (mkDataFrame RecommendationRow.keys
            [RecommendationRow.mk "c2" 3.5 (mean [3.5%Q; 4.0%Q]) 4 0 4]).
Proof. vm_compute. reflexivity. Qed.

(** The exception of a missing student is [IndexError]; no exception class
    named [NotFoundError] is raised. *)
Lemma prepare_recommendation_data_not_NotFoundError :
  DataPreprocessor.prepare_recommendation_data Sample.campus "s9"
    = Raise IndexError ∧
  DataPreprocessor.prepare_recommendation_data Sample.campus "s9"
    ≠ Raise (UserDefined "NotFoundError").
Proof. split; [vm_compute; reflexivity|]. vm_compute. discriminate. Qed.

(** ** [calculate_similarity_features] *)

Section similarity.
Import DataPreprocessor.

(** A list assembled piece by piece is empty when every piece is. *)
Lemma bind_nil_iff {A B} (f : A → list B) (l : list A) :
  l ≫= f = [] ↔ ∀ x, x ∈ l → f x = [].
Proof.
  induction l as [|x l IH].
  - split; [|done]. intros _ y Hy. inversion Hy.
  - rewrite bind_cons. split.
    + intros Happ y Hy. apply app_eq_nil in Happ as [Hx Hl].
      apply elem_of_cons in Hy as [->|Hy]; [done|]. by apply IH.
    + intros H. rewrite (H x) by left. simpl. apply IH.
      intros y Hy. apply H. by right.
Qed.

Lemma sort_values_descending_no_rows {A} (by_ : string) (keys : list string)
    (score : A → Q) :
  sort_values_descending by_ score (DataFrame_of_records keys [])
    = Raise (KeyError by_).
Proof.
  unfold sort_values_descending, DataFrame_of_records. cbn [columns].
  destruct (decide (by_ ∈ [])) as [Hin|_]; [inversion Hin|reflexivity].
Qed.

Lemma sort_values_descending_length {A} (by_ : string) (score : A → Q)
    (df df' : DataFrame A) :
  sort_values_descending by_ score df = Return df' →
  length (rows df') = length (rows df) ∧ by_ ∈ columns df.
Proof.
  unfold sort_values_descending. case_decide as Hin; [|done].
  intros [= <-]. split; [|done]. simpl.
  induction (rows df) as [|x l IH]; [reflexivity|]. simpl.
  rewrite <- IH. generalize (foldr (insert_descending score) [] l).
  intros s. induction s as [|y s IHs]; [reflexivity|]. simpl.
  destruct (Qlt_le_dec _ _); simpl; [by rewrite IHs|reflexivity].
Qed.

End similarity.

Section similarity_peers.
Import DataPreprocessor.

Lemma similar_students_nil (student_id : string) (data : Data)
    (target_student : Student.t) :
  similar_students student_id data target_student = [] ↔
  ∀ s, s ∈ students data → Student.id s ≠ student_id →
       history data (Student.id s) = [].
Proof.
  unfold similar_students. rewrite bind_nil_iff.
  apply forall_proper. intros s. apply forall_proper. intros Hs.
  fold (history data (Student.id s)).
  destruct (decide (Student.id s = student_id)) as [Hid|Hid]; [done|].
  destruct (decide (length (history data (Student.id s)) = 0)) as [Hlen|Hlen].
  - apply length_zero_iff_nil in Hlen. by rewrite Hlen.
  - split; [done|]. intros Hnil. exfalso. apply Hlen.
    by rewrite (Hnil Hid).
Qed.

Lemma similar_students_elem (student_id : string) (data : Data)
    (target_student : Student.t) (row : SimilarRow.t) :
  row ∈ similar_students student_id data target_student →
  ∃ s, s ∈ students data ∧ Student.id s ≠ student_id ∧
       history data (Student.id s) ≠ [] ∧
       SimilarRow.student_id row = Student.id s.
Proof.
  unfold similar_students. intros (s & Hrow & Hs)%list_elem_of_bind.
  fold (history data (Student.id s)) in Hrow.
  destruct (decide (Student.id s = student_id)) as [Hid|Hid];
    [by apply elem_of_nil in Hrow|].
  destruct (decide (length (history data (Student.id s)) = 0)) as [Hlen|Hlen];
    [by apply elem_of_nil in Hrow|].
  apply list_elem_of_singleton in Hrow as ->.
  exists s. split_and!; [done|done| |done].
  intros Hnil. apply Hlen. by rewrite Hnil.
Qed.

End similarity_peers.

(** C10. When the target student exists and no student row of another id
    has a grade record, [calculate_similarity_features] raises and
    returns no ranking: the [KeyError] of sorting a frame without columns
    by [similarity_score], or, when the grade table has no row at all,
    the [KeyError] of its missing [student_id] column.  Whenever the call
    returns a frame, the frame has rows and some student of another id
    has a grade record. *)
Theorem calculate_similarity_features_needs_peer
    (student_id : string) (data : Data) :
  student_id ∈ Student.id <$> students data →
  ((∀ s, s ∈ students data → Student.id s ≠ student_id →
         history data (Student.id s) = []) →
   DataPreprocessor.calculate_similarity_features student_id data
     = Raise (KeyError match grades data with
                       | [] => "student_id"
                       | _ :: _ => "similarity_score"
                       end)) ∧
  (∀ df,
     DataPreprocessor.calculate_similarity_features student_id data
       = Return df →
     rows df ≠ [] ∧
     ∃ s, s ∈ students data ∧ Student.id s ≠ student_id ∧
          history data (Student.id s) ≠ []).
Proof.
  intros Hin.
  destruct (first_occurrence Student.id _ _ Hin)
    as (pre & target & post & Hst & Hid & Hpre).
  unfold DataPreprocessor.calculate_similarity_features.
  rewrite (getcolumn_return "id" (students data))
    by (rewrite Hst; by destruct pre).
  cbn [obind].
  assert (iloc0 (filter (λ s, Student.id s = student_id) (students data))
          = Return target) as ->.
  { rewrite Hst. by apply (iloc0_filter_first Student.id). }
  cbn [obind].
  destruct (grades data) as [|g grades_df] eqn:Hgrades; [by split|].
  cbn [getcolumn obind].
  pose proof (similar_students_nil student_id data target) as Hnil.
  destruct (DataPreprocessor.similar_students student_id data target)
    as [|row similar] eqn:Hsim.
  - split.
    + intros _. apply sort_values_descending_no_rows.
    + intros df Hdf. by rewrite sort_values_descending_no_rows in Hdf.
  - split.
    + intros Hnone. by apply Hnil in Hnone.
    + intros df Hdf.
      apply sort_values_descending_length in Hdf as [Hlen _]. split.
      * intros Hrows. by rewrite Hrows in Hlen.
      * destruct (similar_students_elem student_id data target row)
          as (s & Hs & Hne & Hh & _); [rewrite Hsim; left|eauto].
Qed.

Lemma calculate_similarity_features_needs_peer_witness :
  ("s4" ∈ Student.id <$> students Sample.lonely) ∧
  (∀ s, s ∈ students Sample.lonely → Student.id s ≠ "s4" →
        history Sample.lonely (Student.id s) = []) ∧
  DataPreprocessor.calculate_similarity_features "s4" Sample.lonely
    = Raise (KeyError "similarity_score") ∧
  ("s1" ∈ Student.id <$> students Sample.lonely) ∧
  ∃ df,
    DataPreprocessor.calculate_similarity_features "s1" Sample.lonely
      = Return df ∧
    rows df ≠ [] ∧
    ∃ s, s ∈ students Sample.lonely ∧ Student.id s ≠ "s1" ∧
         history Sample.lonely (Student.id s) ≠ [].
Proof.
  assert ("s4" ∈ Student.id <$> students Sample.lonely) as Hdave.
  { apply (bool_decide_unpack _). vm_compute. exact I. }
  assert ("s1" ∈ Student.id <$> students Sample.lonely) as Halice.
  { apply (bool_decide_unpack _). vm_compute. exact I. }
  assert (∀ s, s ∈ students Sample.lonely → Student.id s ≠ "s4" →
               history Sample.lonely (Student.id s) = []) as Hnone.
  { intros s Hs Hne. simpl in Hs.
    repeat (apply elem_of_cons in Hs as [->|Hs]); [reflexivity|done|reflexivity|].
    by apply elem_of_nil in Hs. }
  split_and!; [exact Hdave|exact Hnone| |exact Halice|].
  - exact (proj1 (calculate_similarity_features_needs_peer "s4" Sample.lonely
                    Hdave) Hnone).
  - destruct (DataPreprocessor.calculate_similarity_features "s1" Sample.lonely)
      as [df|e] eqn:Hrun; [|vm_compute in Hrun; discriminate].
    exists df. split; [reflexivity|].
    exact (proj2 (calculate_similarity_features_needs_peer "s1" Sample.lonely
                    Halice) df Hrun).
Defined.

(** Seen from alice, dave is the only student with grades: his row
    carries the score of the two and the mean of his grades, 3.0 and
    2.0. *)
Example calculate_similarity_features_alice :
  ∃ df,
    DataPreprocessor.calculate_similarity_features "s1" Sample.lonely
      = Return df ∧
    columns df = SimilarRow.keys ∧
    rows df
    = [SimilarRow.mk "s4"
         (DataPreprocessor.similarity_score Sample.alice Sample.dave)
         (mean [3.0; 2.0]%Q)].
Proof. eexists. vm_compute. split_and!; reflexivity. Qed.

(** An absent target fails earlier, on the selection of its record. *)
Example calculate_similarity_features_absent :
  DataPreprocessor.calculate_similarity_features "s9" Sample.lonely
    = Raise IndexError.
Proof. vm_compute. reflexivity. Qed.

(** ** [_prepare_training_data] *)

Section training_data.
Import CourseRecommender.

Lemma filter_Forall_id {A} (P : A → Prop) `{!∀ x, Decision (P x)}
    (l : list A) :
  Forall P l → filter P l = l.
Proof.
  induction 1 as [|x l Hx _ IH]; [reflexivity|].
  by rewrite filter_cons_True, IH.
Qed.

Lemma success_of_spec (gp : Q) :
  (success_of gp = 1%Z ∨ success_of gp = 0%Z) ∧
  (success_of gp = 1%Z ↔ (2.5 <= gp)%Q).
Proof.
  unfold success_of. destruct (Qlt_le_dec gp 2.5) as [Hlt|Hle].
  - split; [by right|]. split; [done|].
    intros Hle. exfalso. exact (Qlt_not_le _ _ Hlt Hle).
  - split; [by left|done].
Qed.

Lemma training_data_length (merged : list DataPreprocessor.Merged)
    (averages : list Q) :
  length (training_data merged averages)
  = length merged `max` length averages.
Proof. unfold training_data. by rewrite length_fmap, length_seq. Qed.

(** The frame is assembled exactly when the joins return. *)
Lemma prepare_training_data_populated (data : Data) :
  students data ≠ [] → grades data ≠ [] → courses data ≠ [] →
  _prepare_training_data data
  = Return (training_data (DataPreprocessor.inner_joins data)
              (student_avg_grades (grades data))).
Proof.
  intros Hs Hg Hc. unfold _prepare_training_data.
  by rewrite merged_frame_populated.
Qed.

Lemma prepare_training_data_return (data : Data)
    (frame : list TrainingRow.t) :
  _prepare_training_data data = Return frame →
  DataPreprocessor.merged_frame data
    = Return (DataPreprocessor.inner_joins data) ∧
  frame = training_data (DataPreprocessor.inner_joins data)
            (student_avg_grades (grades data)).
Proof.
  unfold _prepare_training_data. cbv zeta.
  destruct (DataPreprocessor.merged_frame data) as [merged|e] eqn:Hmerged;
    [|done].
  apply merged_frame_return in Hmerged as (_ & _ & _ & ->).
  cbn [obind]. by intros [= <-].
Qed.

Lemma prepare_training_data_length (data : Data)
    (frame : list TrainingRow.t) :
  _prepare_training_data data = Return frame →
  length frame =
  length (DataPreprocessor.inner_joins data) `max` length (grades data).
Proof.
  intros [_ ->]%prepare_training_data_return.
  rewrite training_data_length. unfold student_avg_grades.
  by rewrite length_fmap.
Qed.

(** When ids are unique and every grade row resolves, the join keeps
    every grade row at its position, and the frame is what its author
    meant: row [i] describes grade [i], with the mean of all grades of
    that grade's student and the success label of that grade. *)
Lemma prepare_training_data_aligned (data : Data)
    (frame : list TrainingRow.t) :
  valid_ids data → Forall (resolves data) (grades data) →
  _prepare_training_data data = Return frame →
  length frame = length (grades data) ∧
  ∀ i g, grades data !! i = Some g →
    ∃ row, frame !! i = Some row ∧
      TrainingRow.student_id row = Some (Grade.student_id g) ∧
      TrainingRow.course_id row = Some (Grade.course_id g) ∧
      TrainingRow.actual_grade row = Some (Grade.grade_point g) ∧
      TrainingRow.avg_previous_grade row =
        Some (mean (Grade.grade_point <$> history data (Grade.student_id g))) ∧
      TrainingRow.success row = Some (success_of (Grade.grade_point g)).
Proof.
  intros Hvalid Hres Hframe.
  pose proof (prepare_training_data_length data frame Hframe) as Hlength.
  apply prepare_training_data_return in Hframe as [_ ->].
  pose proof (inner_joins_grades data Hvalid) as Hm.
  rewrite (filter_Forall_id _ _ Hres) in Hm.
  assert (length (DataPreprocessor.inner_joins data) = length (grades data))
    as Hlen by (by rewrite <- Hm, length_fmap).
  split; [lia|].
  intros i g Hi.
  assert (i < length (grades data)) as Hlt by (by eapply lookup_lt_Some).
  assert (∃ m : DataPreprocessor.Merged,
            DataPreprocessor.inner_joins data !! i = Some m ∧ m.1.1 = g)
    as (m & Hmi & Hg).
  { rewrite <- Hm, list_lookup_fmap in Hi.
    destruct (DataPreprocessor.inner_joins data !! i) as [m|]; [|done].
    exists m. split; [done|]. by injection Hi. }
  unfold training_data.
  rewrite list_lookup_fmap, lookup_seq_lt; last first.
  { unfold student_avg_grades. rewrite length_fmap. lia. }
  change (0 + i) with i. eexists. split; [reflexivity|].
  cbn [TrainingRow.student_id TrainingRow.course_id TrainingRow.actual_grade
       TrainingRow.avg_previous_grade TrainingRow.success].
  rewrite Hmi. simpl. rewrite Hg.
  split_and!; try done.
  unfold student_avg_grades. by rewrite list_lookup_fmap, Hi.
Qed.

End training_data.

(** C2, at the entity set [Sample.dangling], whose first grade row names a
    missing student.  The join keeps the two other grade rows, of students
    [s1] and [s2]; the frame has three rows.  Row 0 is the grade of [s1],
    whose mean grade is 1.0, yet its [avg_previous_grade] is 4.0, the mean
    of the dropped row's student; row 1 is the grade of [s2] (mean 3.0)
    with the 1.0 of [s1]; row 2 has an average and no joined value, so no
    [success] label. *)
Theorem prepare_training_data_misaligned :
  ∃ merged training_data,
    DataPreprocessor.merged_frame Sample.dangling = Return merged ∧
    CourseRecommender._prepare_training_data Sample.dangling
      = Return training_data ∧
    (λ m : DataPreprocessor.Merged, Grade.student_id m.1.1) <$> merged
      = ["s1"; "s2"] ∧
    mean (Grade.grade_point <$> history Sample.dangling "s1") = 1.0%Q ∧
    mean (Grade.grade_point <$> history Sample.dangling "s2") = 3.0%Q ∧
    TrainingRow.student_id <$> training_data = [Some "s1"; Some "s2"; None] ∧
    TrainingRow.avg_previous_grade <$> training_data
      = [Some 4.0%Q; Some 1.0%Q; Some 3.0%Q] ∧
    TrainingRow.success <$> training_data = [Some 0%Z; Some 1%Z; None].
Proof. eexists _, _. vm_compute. split_and!; reflexivity. Qed.

Lemma prepare_training_data_aligned_witness :
  valid_ids Sample.term ∧ Forall (resolves Sample.term) (grades Sample.term) ∧
  ∃ frame,
    CourseRecommender._prepare_training_data Sample.term = Return frame ∧
    length frame = 12.
Proof.
  assert (valid_ids Sample.term) as Hvalid.
  { split; apply (bool_decide_unpack _); vm_compute; exact I. }
  assert (Forall (resolves Sample.term) (grades Sample.term)) as Hres.
  { apply (bool_decide_unpack _). vm_compute. exact I. }
  split_and!; [done|done|]. eexists. split; [reflexivity|].
  exact (proj1 (prepare_training_data_aligned Sample.term _ Hvalid Hres
                  eq_refl)).
Defined.

(** ** Runs *)

Section run_facts.
Context {call : Type} (raises : call → option exn).

(** A block of calls leaves the calls that returned, and ends with the
    exception of the first call that raises. *)
Lemma invoke_all_attempt (cs : list call) (log : list (effect call)) :
  invoke_all raises cs log =
  (match (attempt raises cs).2 with
   | None => Return ()
   | Some e => Raise e
   end,
   log ++ (Call <$> (attempt raises cs).1)).
Proof.
  revert log. induction cs as [|c cs IH]; intros log; simpl.
  - unfold ret. by rewrite app_nil_r.
  - unfold bind, invoke. destruct (raises c) as [e|]; simpl.
    + by rewrite app_nil_r.
    + rewrite IH. destruct (attempt raises cs) as [returned e]. simpl.
      by rewrite <- app_assoc.
Qed.

Lemma attempt_prefix (cs : list call) :
  (attempt raises cs).1 `prefix_of` cs.
Proof.
  induction cs as [|c cs IH]; simpl; [done|].
  destruct (raises c); simpl; [apply prefix_nil|].
  destruct (attempt raises cs). by apply prefix_cons.
Qed.

Lemma attempt_complete (cs : list call) :
  (attempt raises cs).2 = None → (attempt raises cs).1 = cs.
Proof.
  induction cs as [|c cs IH]; simpl; [done|].
  destruct (raises c); simpl; [done|].
  destruct (attempt raises cs). simpl in *. intros He. by rewrite IH.
Qed.

(** A raising call stops the block at or before its position. *)
Lemma attempt_raises (pre : list call) (c : call) (post : list call)
    (e : exn) :
  raises c = Some e →
  ∃ e', (attempt raises (pre ++ c :: post)).2 = Some e' ∧
        (attempt raises (pre ++ c :: post)).1 `prefix_of` pre.
Proof.
  intros Hc. induction pre as [|c' pre IH]; simpl.
  - rewrite Hc. by exists e.
  - destruct (raises c') as [e'|]; simpl.
    + exists e'. split; [done|apply prefix_nil].
    + destruct IH as (e' & He' & Hpre).
      destruct (attempt raises (pre ++ c :: post)). simpl in *.
      exists e'. split; [done|by apply prefix_cons].
Qed.

(** When no call ahead of it raises, it stops the block exactly there,
    with its own exception. *)
Lemma attempt_raises_first (pre : list call) (c : call) (post : list call)
    (e : exn) :
  raises c = Some e → Forall (λ c', raises c' = None) pre →
  attempt raises (pre ++ c :: post) = (pre, Some e).
Proof.
  intros Hc Hpre. induction Hpre as [|c' pre Hc' _ IH]; simpl.
  - by rewrite Hc.
  - by rewrite Hc', IH.
Qed.

End run_facts.

Lemma fmap_prefix {A B} (f : A → B) (l k : list A) :
  l `prefix_of` k → f <$> l `prefix_of` f <$> k.
Proof. intros [k' ->]. rewrite fmap_app. by eexists. Qed.

(** A log that is a prefix of a block holds no more of a kind of entry
    than the block does. *)
Lemma omap_prefix_nil {A B} (f : A → option B) (l k : list A) :
  l `prefix_of` k → omap f k = [] → omap f l = [].
Proof.
  intros [k' ->]. rewrite omap_app. by intros [? ?]%app_eq_nil.
Qed.

Lemma omap_prefix_Forall {A B} (P : B → Prop) (f : A → option B)
    (l k : list A) :
  l `prefix_of` k → Forall P (omap f k) → Forall P (omap f l).
Proof.
  intros [k' ->]. rewrite omap_app. by intros [? ?]%Forall_app.
Qed.

(** ** The performance trainer *)

(** The steps of a trainer are one block of calls: walk both sides call by
    call, splitting on whether the call raises. *)
Ltac walk_calls raises :=
  repeat match goal with
         | |- context [raises ?c] =>
             destruct (raises c); [reflexivity|]
         end;
  reflexivity.

Section performance_trainer.
Import PerformancePredictor.
Context (raises : call → option exn).

Lemma performance_steps_script (log : list (effect call)) :
  training_steps raises log = invoke_all raises script log.
Proof.
  let s := eval vm_compute in script in change script with s.
  unfold training_steps, _save_models, _export_model_parameters.
  cbn [invoke_all]. unfold bind, invoke, ret.
  walk_calls raises.
Qed.

End performance_trainer.

Section performance_runs.
Import PerformancePredictor.
Context (raises : call → option exn).

(** An exception of the assembly ends the run before its guard. *)
Lemma performance_raise (data : Data) (e : exn) (log : list (effect call)) :
  DataPreprocessor.prepare_performance_data data = Raise e →
  train_models raises data log = (Raise e, log).
Proof. intros Hdata. unfold train_models, bind, lift. by rewrite Hdata. Qed.

(** The number of rows the guard of [train_models] looks at. *)
Lemma performance_guard (data : Data) (features : list PerformanceRow.t)
    (target : list Q) (at_risk : list Z) (log : list (effect call)) :
  DataPreprocessor.prepare_performance_data data
    = Return (features, target, at_risk) →
  length features < 10 →
  train_models raises data log = (Return None, log ++ [Print not_enough_data]).
Proof.
  intros Hdata Hlt. unfold train_models, bind at 1, lift. rewrite Hdata.
  destruct (decide _) as [|Hge]; [reflexivity|done].
Qed.

Lemma performance_run (data : Data) (features : list PerformanceRow.t)
    (target : list Q) (at_risk : list Z) (log : list (effect call)) :
  DataPreprocessor.prepare_performance_data data
    = Return (features, target, at_risk) →
  10 ≤ length features →
  train_models raises data log =
  (match (attempt raises script).2 with
   | None => Return (Some (results (length features)))
   | Some e => Raise e
   end,
   log ++ (Call <$> (attempt raises script).1)).
Proof.
  intros Hdata Hge. unfold train_models, bind at 1, lift. rewrite Hdata.
  destruct (decide _) as [Hlt|_]; [lia|].
  unfold bind. rewrite performance_steps_script, invoke_all_attempt.
  by destruct (attempt raises script).2.
Qed.

(** The three ways a run can go. *)
Lemma performance_cases (data : Data) (log : list (effect call)) :
  (∃ e, DataPreprocessor.prepare_performance_data data = Raise e ∧
        train_models raises data log = (Raise e, log)) ∨
  (∃ features target at_risk,
     DataPreprocessor.prepare_performance_data data
       = Return (features, target, at_risk) ∧
     length features < 10 ∧
     train_models raises data log
       = (Return None, log ++ [Print not_enough_data])) ∨
  (∃ features target at_risk,
     DataPreprocessor.prepare_performance_data data
       = Return (features, target, at_risk) ∧
     10 ≤ length features ∧
     train_models raises data log =
     (match (attempt raises script).2 with
      | None => Return (Some (results (length features)))
      | Some e => Raise e
      end,
      log ++ (Call <$> (attempt raises script).1))).
Proof.
  destruct (DataPreprocessor.prepare_performance_data data)
    as [[[features target] at_risk]|e] eqn:Hdata.
  - destruct (decide (length features < 10)) as [Hlt|Hge].
    + right. left. exists features, target, at_risk.
      split_and!; [done|done|]. by eapply performance_guard.
    + right. right. exists features, target, at_risk.
      split_and!; [done|lia|]. eapply performance_run; [done|lia].
  - left. exists e. split; [done|]. by apply performance_raise.
Qed.

Lemma performance_fitted_prefix (returned cs : list call) :
  returned `prefix_of` cs →
  ∃ later, fitted (Call <$> cs) = fitted (Call <$> returned) ++ later.
Proof.
  intros [k ->]. exists (fitted (Call <$> k)).
  unfold fitted. by rewrite fmap_app, omap_app.
Qed.

(** Where each family is fit: nothing is saved or exported ahead of it,
    and the families fit ahead of it are those ahead of it in
    [fit_order]. *)
Lemma performance_script_at (f : family) :
  ∃ pre post rest,
    script = pre ++ fit f :: post ∧
    saved (Call <$> pre) = [] ∧ exported (Call <$> pre) = [] ∧
    fit_order = fitted (Call <$> pre) ++ f :: rest ∧
    Forall (λ c, c ≠ fit f) pre.
Proof.
  destruct f;
    [exists (take 2 script), (drop 3 script)
    |exists (take 9 script), (drop 10 script)
    |exists (take 16 script), (drop 17 script)
    |exists (take 22 script), (drop 23 script)];
    eexists; (split_and!; [vm_compute; reflexivity..|]);
    vm_compute; repeat (apply Forall_cons; split; [discriminate|]);
    by apply Forall_nil.
Qed.

End performance_runs.

(** ** The recommendation trainer *)

Section recommendation_runs.
Import CourseRecommender.
Context (raises : call → option exn) (len_X_train : nat).

Lemma recommendation_steps_script (log : list (effect call)) :
  training_steps raises len_X_train log =
  invoke_all raises (script len_X_train) log.
Proof.
  let s := eval cbv -[model_parameters] in (script len_X_train) in
  change (script len_X_train) with s.
  unfold training_steps, _save_models, _export_model_parameters.
  cbn [invoke_all]. unfold bind, invoke, ret.
  walk_calls raises.
Qed.

Lemma recommendation_raise (data : Data) (e : exn)
    (log : list (effect call)) :
  _prepare_training_data data = Raise e →
  train_models raises len_X_train data log = (Raise e, log).
Proof. intros Hdata. unfold train_models, bind, lift. by rewrite Hdata. Qed.

Lemma recommendation_guard (data : Data) (frame : list TrainingRow.t)
    (log : list (effect call)) :
  _prepare_training_data data = Return frame →
  length frame < 10 →
  train_models raises len_X_train data log
    = (Return None, log ++ [Print not_enough_data]).
Proof.
  intros Hdata Hlt. unfold train_models, bind at 1, lift. rewrite Hdata.
  destruct (decide _) as [|Hge]; [reflexivity|done].
Qed.

Lemma recommendation_run (data : Data) (frame : list TrainingRow.t)
    (log : list (effect call)) :
  _prepare_training_data data = Return frame →
  10 ≤ length frame →
  train_models raises len_X_train data log =
  (match (attempt raises (script len_X_train)).2 with
   | None => Return (Some (results (length frame)))
   | Some e => Raise e
   end,
   log ++ (Call <$> (attempt raises (script len_X_train)).1)).
Proof.
  intros Hdata Hge. unfold train_models, bind at 1, lift. rewrite Hdata.
  destruct (decide _) as [Hlt|_]; [lia|].
  unfold bind. rewrite recommendation_steps_script, invoke_all_attempt.
  by destruct (attempt raises (script len_X_train)).2.
Qed.

Lemma recommendation_cases (data : Data) (log : list (effect call)) :
  (∃ e, _prepare_training_data data = Raise e ∧
        train_models raises len_X_train data log = (Raise e, log)) ∨
  (∃ frame,
     _prepare_training_data data = Return frame ∧
     length frame < 10 ∧
     train_models raises len_X_train data log
       = (Return None, log ++ [Print not_enough_data])) ∨
  (∃ frame,
     _prepare_training_data data = Return frame ∧
     10 ≤ length frame ∧
     train_models raises len_X_train data log =
     (match (attempt raises (script len_X_train)).2 with
      | None => Return (Some (results (length frame)))
      | Some e => Raise e
      end,
      log ++ (Call <$> (attempt raises (script len_X_train)).1))).
Proof.
  destruct (_prepare_training_data data) as [frame|e] eqn:Hdata.
  - destruct (decide (length frame < 10)) as [Hlt|Hge].
    + right. left. exists frame.
      split_and!; [done|done|]. by eapply recommendation_guard.
    + right. right. exists frame.
      split_and!; [done|lia|]. eapply recommendation_run; [done|lia].
  - left. exists e. split; [done|]. by apply recommendation_raise.
Qed.

Lemma recommendation_fitted_prefix (returned cs : list call) :
  returned `prefix_of` cs →
  ∃ later, fitted (Call <$> cs) = fitted (Call <$> returned) ++ later.
Proof.
  intros [k ->]. exists (fitted (Call <$> k)).
  unfold fitted. by rewrite fmap_app, omap_app.
Qed.

Lemma recommendation_script_at (f : family) :
  ∃ pre post rest,
    script len_X_train = pre ++ fit f :: post ∧
    saved (Call <$> pre) = [] ∧ exported (Call <$> pre) = [] ∧
    fit_order len_X_train = fitted (Call <$> pre) ++ f :: rest ∧
    Forall (λ c, c ≠ fit f) pre.
Proof.
  destruct f;
    [exists (take 2 (script len_X_train)), (drop 3 (script len_X_train))
    |exists (take 9 (script len_X_train)), (drop 10 (script len_X_train))
    |exists (take 17 (script len_X_train)), (drop 18 (script len_X_train))
    |exists (take 23 (script len_X_train)), (drop 24 (script len_X_train))
    |exists (take 29 (script len_X_train)), (drop 30 (script len_X_train))];
    eexists; (split_and!; [vm_compute; reflexivity..|]);
    vm_compute; repeat (apply Forall_cons; split; [discriminate|]);
    by apply Forall_nil.
Qed.

End recommendation_runs.

(** ** The guard on the number of samples *)

(** C3 (as amended). When the table a trainer assembled has fewer than ten
    rows (the joined feature rows for the performance trainer, the training
    frame for the recommendation trainer), [train_models] prints one line
    and returns [None]: no exception is raised, and the run has made no
    library call, so nothing was scaled, split, fit, saved or exported.
    (A run whose assembly raises, as it does on a table without rows,
    assembles no table and is not covered.) *)
Theorem train_models_insufficient_data :
  (∀ raises data features target at_risk,
     DataPreprocessor.prepare_performance_data data
       = Return (features, target, at_risk) →
     length features < 10 →
     PerformancePredictor.train_models raises data []
       = (Return None, [Print not_enough_data])) ∧
  (∀ raises len_X_train data training_data,
     CourseRecommender._prepare_training_data data = Return training_data →
     length training_data < 10 →
     CourseRecommender.train_models raises len_X_train data []
       = (Return None, [Print not_enough_data])).
Proof.
  split.
  - intros raises data features target at_risk Hdata Hlt.
    exact (performance_guard raises data _ _ _ [] Hdata Hlt).
  - intros raises len_X_train data training_data Hdata Hlt.
    exact (recommendation_guard raises len_X_train data _ [] Hdata Hlt).
Qed.

Lemma train_models_insufficient_data_witness :
  (∃ features target at_risk,
     DataPreprocessor.prepare_performance_data Sample.campus
       = Return (features, target, at_risk) ∧
     length features < 10) ∧
  (∃ training_data,
     CourseRecommender._prepare_training_data Sample.campus
       = Return training_data ∧
     length training_data < 10) ∧
  PerformancePredictor.train_models (λ _, None) Sample.campus []
    = (Return None, [Print not_enough_data]) ∧
  CourseRecommender.train_models (λ _, None) 0 Sample.campus []
    = (Return None, [Print not_enough_data]).
Proof.
  split_and!.
  - eexists _, _, _. split; [reflexivity|]. vm_compute. lia.
  - eexists. split; [reflexivity|]. vm_compute. lia.
  - refine (proj1 train_models_insufficient_data (λ _, None) Sample.campus
              _ _ _ eq_refl _).
    vm_compute. lia.
  - refine (proj2 train_models_insufficient_data (λ _, None) 0 Sample.campus
              _ eq_refl _).
    vm_compute. lia.
Defined.

(** With three joined rows both trainers return [None]; neither raises an
    [InsufficientDataError]. *)
Lemma train_models_no_InsufficientDataError :
  (∃ features target at_risk,
     DataPreprocessor.prepare_performance_data Sample.campus
       = Return (features, target, at_risk) ∧
     length features = 3) ∧
  (PerformancePredictor.train_models (λ _, None) Sample.campus []).1
    = Return None ∧
  (PerformancePredictor.train_models (λ _, None) Sample.campus []).1
    ≠ Raise (UserDefined "InsufficientDataError") ∧
  (CourseRecommender.train_models (λ _, None) 0 Sample.campus []).1
    = Return None ∧
  (CourseRecommender.train_models (λ _, None) 0 Sample.campus []).1
    ≠ Raise (UserDefined "InsufficientDataError").
Proof.
  split; [eexists _, _, _; by vm_compute|].
  vm_compute. split_and!; (reflexivity || discriminate).
Qed.

(** The guard of the recommendation trainer counts the rows of the
    training frame, which the dropped grade rows pad: with two joined rows
    out of twelve grade rows the run is not stopped. *)
Example recommendation_guard_counts_padding :
  (∃ merged training_data,
     DataPreprocessor.merged_frame Sample.mostly_dangling = Return merged ∧
     CourseRecommender._prepare_training_data Sample.mostly_dangling
       = Return training_data ∧
     length merged = 2 ∧ length training_data = 12) ∧
  CourseRecommender.fitted
    (CourseRecommender.train_models (λ _, None) 9 Sample.mostly_dangling []).2
    = CourseRecommender.fit_order 9.
Proof. split; [eexists _, _|]; by vm_compute. Qed.

(** ** A family that fails to fit *)

(** C4 (as amended). When the [fit] of some family raises in a run that
    passed the guard, [train_models] raises: the run ends with an exception
    and returns no results; the families fit so far are an initial part of
    the fitting order that stops before the failing family, so no later
    family is fit; no model is saved and no parameter document is exported.
    When nothing else raises, the exception is that of the failing [fit]
    and the families fit are exactly those ahead of it. *)
Theorem train_models_fit_failure_aborts :
  (∀ raises data features target at_risk f e,
     DataPreprocessor.prepare_performance_data data
       = Return (features, target, at_risk) →
     10 ≤ length features →
     raises (PerformancePredictor.fit f) = Some e →
     ∃ e' log,
       PerformancePredictor.train_models raises data [] = (Raise e', log) ∧
       (∃ later, PerformancePredictor.fit_order
                   = PerformancePredictor.fitted log ++ later ∧ f ∈ later) ∧
       PerformancePredictor.saved log = [] ∧
       PerformancePredictor.exported log = [] ∧
       ((∀ c, c ≠ PerformancePredictor.fit f → raises c = None) →
        e' = e ∧
        ∃ rest, PerformancePredictor.fit_order
                  = PerformancePredictor.fitted log ++ f :: rest)) ∧
  (∀ raises len_X_train data training_data f e,
     CourseRecommender._prepare_training_data data = Return training_data →
     10 ≤ length training_data →
     raises (CourseRecommender.fit f) = Some e →
     ∃ e' log,
       CourseRecommender.train_models raises len_X_train data []
         = (Raise e', log) ∧
       (∃ later, CourseRecommender.fit_order len_X_train
                   = CourseRecommender.fitted log ++ later ∧ f ∈ later) ∧
       CourseRecommender.saved log = [] ∧
       CourseRecommender.exported log = [] ∧
       ((∀ c, c ≠ CourseRecommender.fit f → raises c = None) →
        e' = e ∧
        ∃ rest, CourseRecommender.fit_order len_X_train
                  = CourseRecommender.fitted log ++ f :: rest)).
Proof.
  split.
  - intros raises data features target at_risk f e Hdata Hge Hf.
    destruct (performance_script_at f)
      as (pre & post & rest & Hscript & Hsaved & Hexported & Horder & Hpre).
    destruct (attempt_raises raises pre _ post e Hf) as (e' & He' & Hprefix).
    rewrite <- Hscript in He', Hprefix.
    exists e', (Call <$> (attempt raises PerformancePredictor.script).1).
    rewrite (performance_run raises data _ _ _ [] Hdata Hge), He'. split_and!.
    + reflexivity.
    + destruct (performance_fitted_prefix _ _ Hprefix) as [k Hk].
      exists (k ++ f :: rest). rewrite Horder, Hk, <- app_assoc.
      split; [done|]. apply elem_of_app. right. left.
    + eapply omap_prefix_nil; [|exact Hsaved]. by apply fmap_prefix.
    + eapply omap_prefix_nil; [|exact Hexported]. by apply fmap_prefix.
    + intros Honly.
      assert (attempt raises PerformancePredictor.script = (pre, Some e)) as Hat.
      { rewrite Hscript. apply attempt_raises_first; [done|].
        eapply Forall_impl; [exact Hpre|]. intros c Hc. by apply Honly. }
      rewrite Hat in He' |- *. simpl in He' |- *.
      split; [congruence|]. by exists rest.
  - intros raises len_X_train data training_data f e Hdata Hge Hf.
    destruct (recommendation_script_at len_X_train f)
      as (pre & post & rest & Hscript & Hsaved & Hexported & Horder & Hpre).
    destruct (attempt_raises raises pre _ post e Hf) as (e' & He' & Hprefix).
    rewrite <- Hscript in He', Hprefix.
    exists e',
      (Call <$> (attempt raises (CourseRecommender.script len_X_train)).1).
    rewrite (recommendation_run raises len_X_train data _ [] Hdata Hge), He'.
    split_and!.
    + reflexivity.
    + destruct (recommendation_fitted_prefix _ _ Hprefix) as [k Hk].
      exists (k ++ f :: rest). rewrite Horder, Hk, <- app_assoc.
      split; [done|]. apply elem_of_app. right. left.
    + eapply omap_prefix_nil; [|exact Hsaved]. by apply fmap_prefix.
    + eapply omap_prefix_nil; [|exact Hexported]. by apply fmap_prefix.
    + intros Honly.
      assert (attempt raises (CourseRecommender.script len_X_train)
              = (pre, Some e)) as Hat.
      { rewrite Hscript. apply attempt_raises_first; [done|].
        eapply Forall_impl; [exact Hpre|]. intros c Hc. by apply Honly. }
      rewrite Hat in He' |- *. simpl in He' |- *.
      split; [congruence|]. by exists rest.
Qed.

Lemma train_models_fit_failure_aborts_witness :
  (∃ features target at_risk,
     DataPreprocessor.prepare_performance_data Sample.term
       = Return (features, target, at_risk) ∧
     10 ≤ length features) ∧
  Sample.logistic_fails
    (PerformancePredictor.fit PerformancePredictor.LogisticRegression)
    = Some (LibraryError "fit") ∧
  (∃ e' log,
     PerformancePredictor.train_models Sample.logistic_fails Sample.term []
       = (Raise e', log) ∧
     (∃ later, PerformancePredictor.fit_order
                 = PerformancePredictor.fitted log ++ later ∧
               PerformancePredictor.LogisticRegression ∈ later) ∧
     PerformancePredictor.saved log = [] ∧
     PerformancePredictor.exported log = [] ∧
     ((∀ c, c ≠ PerformancePredictor.fit PerformancePredictor.LogisticRegression →
            Sample.logistic_fails c = None) →
      e' = LibraryError "fit" ∧
      ∃ rest, PerformancePredictor.fit_order
                = PerformancePredictor.fitted log
                    ++ PerformancePredictor.LogisticRegression :: rest)) ∧
  (∃ training_data,
     CourseRecommender._prepare_training_data Sample.term
       = Return training_data ∧
     10 ≤ length training_data) ∧
  Sample.tree_fails
    (CourseRecommender.fit CourseRecommender.DecisionTreeClassifier)
    = Some (LibraryError "fit") ∧
  (∃ e' log,
     CourseRecommender.train_models Sample.tree_fails 9 Sample.term []
       = (Raise e', log) ∧
     (∃ later, CourseRecommender.fit_order 9
                 = CourseRecommender.fitted log ++ later ∧
               CourseRecommender.DecisionTreeClassifier ∈ later) ∧
     CourseRecommender.saved log = [] ∧
     CourseRecommender.exported log = [] ∧
     ((∀ c, c ≠ CourseRecommender.fit CourseRecommender.DecisionTreeClassifier →
            Sample.tree_fails c = None) →
      e' = LibraryError "fit" ∧
      ∃ rest, CourseRecommender.fit_order 9
                = CourseRecommender.fitted log
                    ++ CourseRecommender.DecisionTreeClassifier :: rest)).
Proof.
  split_and!; [|reflexivity| | |reflexivity|].
  - eexists _, _, _. split; [reflexivity|]. vm_compute. lia.
  - refine (proj1 train_models_fit_failure_aborts Sample.logistic_fails
              Sample.term _ _ _ PerformancePredictor.LogisticRegression
              (LibraryError "fit") eq_refl _ eq_refl).
    vm_compute. lia.
  - eexists. split; [reflexivity|]. vm_compute. lia.
  - refine (proj2 train_models_fit_failure_aborts Sample.tree_fails 9
              Sample.term _ CourseRecommender.DecisionTreeClassifier
              (LibraryError "fit") eq_refl _ eq_refl).
    vm_compute. lia.
Defined.

(** One family fails and the run does not go on: with the logistic
    regression failing, the random forest, whose [fit] would return, is
    never fit, and the caller gets the exception instead of results; with
    the decision tree failing, the k-nearest-neighbours model that was
    already fit and evaluated is neither returned, saved nor exported. *)
Lemma train_models_fit_failure_not_partial :
  PerformancePredictor.train_models Sample.logistic_fails Sample.term [] =
    (Raise (LibraryError "fit"),
     [Call PerformancePredictor.scaler_fit_transform;
      Call (PerformancePredictor.train_test_split 0.2 42 true)]) ∧
  Sample.logistic_fails
    (PerformancePredictor.fit PerformancePredictor.RandomForestClassifier)
    = None ∧
  (CourseRecommender.train_models Sample.tree_fails 9 Sample.term []).1
    = Raise (LibraryError "fit") ∧
  CourseRecommender.fitted
    (CourseRecommender.train_models Sample.tree_fails 9 Sample.term []).2
    = [CourseRecommender.KNeighborsClassifier] ∧
  CourseRecommender.saved
    (CourseRecommender.train_models Sample.tree_fails 9 Sample.term []).2 = [] ∧
  CourseRecommender.exported
    (CourseRecommender.train_models Sample.tree_fails 9 Sample.term []).2 = [].
Proof. vm_compute. split_and!; reflexivity. Qed.

(** ** What is evaluated for each family *)

Section evaluation.

Lemma performance_complete_log raises data r log :
  PerformancePredictor.train_models raises data [] = (Return (Some r), log) →
  log = Call <$> PerformancePredictor.script.
Proof.
  destruct (performance_cases raises data [])
    as [(e & _ & ->)|[(? & ? & ? & _ & _ & ->)|(? & ? & ? & _ & _ & ->)]];
    [done|done|].
  destruct (attempt raises PerformancePredictor.script).2 eqn:He; [done|].
  intros Heq. apply (f_equal snd) in Heq. cbn [snd app] in Heq.
  by rewrite <- Heq, (attempt_complete raises _ He).
Qed.

Lemma performance_any_log raises data o log :
  PerformancePredictor.train_models raises data [] = (o, log) →
  log = [Print not_enough_data] ∨
  ∃ returned, returned `prefix_of` PerformancePredictor.script ∧
              log = Call <$> returned.
Proof.
  destruct (performance_cases raises data [])
    as [(e & _ & ->)|[(? & ? & ? & _ & _ & ->)|(? & ? & ? & _ & _ & ->)]];
    intros Heq; apply (f_equal snd) in Heq; cbn [snd app] in Heq.
  - right. exists []. split; [apply prefix_nil|done].
  - by left.
  - right. eexists. split; [apply attempt_prefix|by rewrite <- Heq].
Qed.

Lemma recommendation_complete_log raises len_X_train data r log :
  CourseRecommender.train_models raises len_X_train data []
    = (Return (Some r), log) →
  log = Call <$> CourseRecommender.script len_X_train.
Proof.
  destruct (recommendation_cases raises len_X_train data [])
    as [(e & _ & ->)|[(? & _ & _ & ->)|(? & _ & _ & ->)]];
    [done|done|].
  destruct (attempt raises (CourseRecommender.script len_X_train)).2 eqn:He;
    [done|].
  intros Heq. apply (f_equal snd) in Heq. cbn [snd app] in Heq.
  by rewrite <- Heq, (attempt_complete raises _ He).
Qed.

Lemma recommendation_any_log raises len_X_train data o log :
  CourseRecommender.train_models raises len_X_train data [] = (o, log) →
  log = [Print not_enough_data] ∨
  ∃ returned, returned `prefix_of` CourseRecommender.script len_X_train ∧
              log = Call <$> returned.
Proof.
  destruct (recommendation_cases raises len_X_train data [])
    as [(e & _ & ->)|[(? & _ & _ & ->)|(? & _ & _ & ->)]];
    intros Heq; apply (f_equal snd) in Heq; cbn [snd app] in Heq.
  - right. exists []. split; [apply prefix_nil|done].
  - by left.
  - right. eexists. split; [apply attempt_prefix|by rewrite <- Heq].
Qed.

End evaluation.

Lemma prefix_take_length {A} (l k : list A) :
  l `prefix_of` k → l = take (length l) k.
Proof. intros [k' ->]. by rewrite take_app_length. Qed.

(** A run that has exported has made every call of the script up to the
    export: only the plotting can be missing from its log. *)
Lemma performance_export_reached raises data o log :
  PerformancePredictor.train_models raises data [] = (o, log) →
  PerformancePredictor.exported log ≠ [] →
  log = Call <$> take 34 PerformancePredictor.script ∨
  log = Call <$> PerformancePredictor.script.
Proof.
  intros [->|(returned & Hprefix & ->)]%performance_any_log Hexported;
    [done|].
  rewrite (prefix_take_length _ _ Hprefix) in Hexported |- *.
  pose proof (prefix_length _ _ Hprefix) as Hlen.
  revert Hexported Hlen. generalize (length returned). intros n Hin Hlen.
  vm_compute in Hlen.
  do 34 (destruct n as [|n]; [by vm_compute in Hin|]).
  destruct n as [|n]; [by left|].
  destruct n as [|n]; [by right|]. lia.
Qed.

Lemma recommendation_export_reached raises len_X_train data o log :
  CourseRecommender.train_models raises len_X_train data [] = (o, log) →
  CourseRecommender.exported log ≠ [] →
  log = Call <$> take 39 (CourseRecommender.script len_X_train) ∨
  log = Call <$> CourseRecommender.script len_X_train.
Proof.
  intros [->|(returned & Hprefix & ->)]%recommendation_any_log Hexported;
    [done|].
  rewrite (prefix_take_length _ _ Hprefix) in Hexported |- *.
  pose proof (prefix_length _ _ Hprefix) as Hlen.
  revert Hexported Hlen. generalize (length returned). intros n Hin Hlen.
  vm_compute in Hlen.
  do 39 (destruct n as [|n]; [by vm_compute in Hin|]).
  destruct n as [|n]; [by left|].
  destruct n as [|n]; [by right|]. lia.
Qed.

(** C5 (as amended). In every run that reaches the export of the
    parameters, as every run that returns results does, every classifier
    has been scored on the test half for accuracy, binary F1 and ROC-AUC
    from its predicted probabilities.  Precision and recall are computed
    for the three classifiers of the risk task only.  The five-fold
    cross-validated F1 is computed for the logistic regression and the
    random forest of the risk task and for the nearest-neighbour and
    decision-tree classifiers of the recommendation task, and for no other
    family.  In every run, complete or not, each cross-validation runs on
    the training half. *)
Theorem train_models_evaluation :
  (∀ raises data o log,
     PerformancePredictor.train_models raises data [] = (o, log) →
     PerformancePredictor.exported log ≠ [] →
     PerformancePredictor.evaluated log PerformancePredictor.LogisticRegression
       = [accuracy; precision; recall; f1; roc_auc; cv_f1] ∧
     PerformancePredictor.evaluated log PerformancePredictor.RandomForestClassifier
       = [accuracy; precision; recall; f1; roc_auc; cv_f1] ∧
     PerformancePredictor.evaluated log
       PerformancePredictor.GradientBoostingClassifier
       = [accuracy; precision; recall; f1; roc_auc]) ∧
  (∀ raises data o log,
     PerformancePredictor.train_models raises data [] = (o, log) →
     Forall (λ X, X = train) (PerformancePredictor.cross_validated_on log)) ∧
  (∀ raises len_X_train data o log,
     CourseRecommender.train_models raises len_X_train data [] = (o, log) →
     CourseRecommender.exported log ≠ [] →
     CourseRecommender.evaluated log CourseRecommender.KNeighborsClassifier
       = [accuracy; f1; roc_auc; cv_f1] ∧
     CourseRecommender.evaluated log CourseRecommender.DecisionTreeClassifier
       = [accuracy; f1; roc_auc; cv_f1] ∧
     CourseRecommender.evaluated log CourseRecommender.RandomForestClassifier
       = [accuracy; f1; roc_auc] ∧
     CourseRecommender.evaluated log CourseRecommender.AdaBoostClassifier
       = [accuracy; f1; roc_auc]) ∧
  (∀ raises len_X_train data o log,
     CourseRecommender.train_models raises len_X_train data [] = (o, log) →
     Forall (λ X, X = train) (CourseRecommender.cross_validated_on log)) ∧
  (∀ raises data r log,
     PerformancePredictor.train_models raises data [] = (Return (Some r), log) →
     PerformancePredictor.exported log ≠ []) ∧
  (∀ raises len_X_train data r log,
     CourseRecommender.train_models raises len_X_train data []
       = (Return (Some r), log) →
     CourseRecommender.exported log ≠ []).
Proof.
  split_and!.
  - intros raises data o log Hrun Hexported.
    destruct (performance_export_reached raises data o log Hrun Hexported)
      as [->| ->]; vm_compute; split_and!; reflexivity.
  - intros raises data o log [->|(returned & Hprefix & ->)]%performance_any_log.
    + apply Forall_nil_2.
    + eapply omap_prefix_Forall; [by apply fmap_prefix|].
      vm_compute. repeat constructor.
  - intros raises len_X_train data o log Hrun Hexported.
    destruct (recommendation_export_reached raises len_X_train data o log
                Hrun Hexported) as [->| ->];
      vm_compute; split_and!; reflexivity.
  - intros raises len_X_train data o log
      [->|(returned & Hprefix & ->)]%recommendation_any_log.
    + apply Forall_nil_2.
    + eapply omap_prefix_Forall; [by apply fmap_prefix|].
      vm_compute. repeat constructor.
  - intros raises data r log ->%performance_complete_log. by vm_compute.
  - intros raises len_X_train data r log ->%recommendation_complete_log.
    by vm_compute.
Qed.

Lemma train_models_evaluation_witness :
  (∃ log,
     PerformancePredictor.train_models Scenario.plot_fails Sample.term []
       = (Raise (LibraryError "savefig"), log) ∧
     PerformancePredictor.exported log ≠ [] ∧
     PerformancePredictor.evaluated log PerformancePredictor.LogisticRegression
       = [accuracy; precision; recall; f1; roc_auc; cv_f1] ∧
     PerformancePredictor.evaluated log PerformancePredictor.RandomForestClassifier
       = [accuracy; precision; recall; f1; roc_auc; cv_f1] ∧
     PerformancePredictor.evaluated log
       PerformancePredictor.GradientBoostingClassifier
       = [accuracy; precision; recall; f1; roc_auc]) ∧
  (∃ o log,
     PerformancePredictor.train_models Sample.logistic_fails Sample.term []
       = (o, log) ∧
     Forall (λ X, X = train) (PerformancePredictor.cross_validated_on log)) ∧
  (∃ r log,
     CourseRecommender.train_models (λ _, None) 9 Sample.term []
       = (Return (Some r), log) ∧
     CourseRecommender.exported log ≠ [] ∧
     CourseRecommender.evaluated log CourseRecommender.KNeighborsClassifier
       = [accuracy; f1; roc_auc; cv_f1] ∧
     CourseRecommender.evaluated log CourseRecommender.DecisionTreeClassifier
       = [accuracy; f1; roc_auc; cv_f1] ∧
     CourseRecommender.evaluated log CourseRecommender.RandomForestClassifier
       = [accuracy; f1; roc_auc] ∧
     CourseRecommender.evaluated log CourseRecommender.AdaBoostClassifier
       = [accuracy; f1; roc_auc]) ∧
  (∃ o log,
     CourseRecommender.train_models Sample.tree_fails 9 Sample.term []
       = (o, log) ∧
     Forall (λ X, X = train) (CourseRecommender.cross_validated_on log)).
Proof.
  destruct train_models_evaluation as (Hperf & Hperf_cv & Hrec & Hrec_cv & _).
  split_and!.
  - eexists. split; [vm_compute; reflexivity|]. split; [by vm_compute|].
    refine (Hperf Scenario.plot_fails Sample.term _ _ _ _);
      [vm_compute; reflexivity|by vm_compute].
  - eexists _, _. split; [apply surjective_pairing|].
    exact (Hperf_cv Sample.logistic_fails Sample.term _ _
             (surjective_pairing _)).
  - eexists _, _. split; [vm_compute; reflexivity|]. split; [by vm_compute|].
    refine (Hrec (λ _, None) 9 Sample.term _ _ _ _);
      [vm_compute; reflexivity|by vm_compute].
  - eexists _, _. split; [apply surjective_pairing|].
    exact (Hrec_cv Sample.tree_fails 9 Sample.term _ _ (surjective_pairing _)).
Defined.

(** Runs on twelve samples that reach the export; the performance run
    ends in its plotting step, the recommendation run returns.  There is
    no cross-validated F1 for the gradient boosting classifier of the
    risk task, nor for the random forest and AdaBoost classifiers of the
    recommendation task, and no precision or recall for any
    recommendation classifier. *)
Lemma train_models_evaluation_uneven :
  let performance_log :=
    (PerformancePredictor.train_models Scenario.plot_fails Sample.term []).2 in
  let recommendation_log :=
    (CourseRecommender.train_models (λ _, None) 9 Sample.term []).2 in
  PerformancePredictor.exported performance_log
    = [PerformancePredictor.model_parameters
         PerformancePredictor.feature_names] ∧
  (PerformancePredictor.GradientBoostingClassifier
     ∈ PerformancePredictor.fitted performance_log) ∧
  (cv_f1 ∉ PerformancePredictor.evaluated performance_log
             PerformancePredictor.GradientBoostingClassifier) ∧
  (CourseRecommender.train_models (λ _, None) 9 Sample.term []).1
    = Return (Some (CourseRecommender.results 12)) ∧
  CourseRecommender.evaluated recommendation_log
    CourseRecommender.KNeighborsClassifier = [accuracy; f1; roc_auc; cv_f1] ∧
  CourseRecommender.evaluated recommendation_log
    CourseRecommender.RandomForestClassifier = [accuracy; f1; roc_auc] ∧
  CourseRecommender.evaluated recommendation_log
    CourseRecommender.AdaBoostClassifier = [accuracy; f1; roc_auc].
Proof.
  split_and!; try (vm_compute; reflexivity).
  - apply (bool_decide_unpack _). vm_compute. exact I.
  - apply (bool_decide_unpack _). vm_compute. exact I.
Qed.

(** ** The exported parameter document *)

(** One position of the script: ahead of the export nothing has been
    exported; from the export on, the facts hold by evaluation. *)
Ltac export_case Hin :=
  vm_compute in Hin;
  first
    [ by apply elem_of_nil in Hin
    | apply list_elem_of_singleton in Hin; subst;
      split_and!;
      first
        [ vm_compute; reflexivity
        | apply (bool_decide_unpack _); vm_compute; exact I ] ].

(** C9 (as amended). A run exports at most one document.  Its keys are
    ["metadata"] followed by the entries of the families fit in the run,
    in fitting order, without repetition; by the time of the export every
    family of the trainer has been fit.  The recommendation trainer's
    nearest-neighbour index is among the fitted families and has no
    entry. *)
Theorem exported_parameters_keys :
  (∀ raises data o log params,
     PerformancePredictor.train_models raises data [] = (o, log) →
     params ∈ PerformancePredictor.exported log →
     PerformancePredictor.exported log = [params] ∧
     PerformancePredictor.fitted log = PerformancePredictor.fit_order ∧
     keys params
       = "metadata" :: omap PerformancePredictor.entry_of
                         (PerformancePredictor.fitted log) ∧
     NoDup (keys params)) ∧
  (∀ raises len_X_train data o log params,
     CourseRecommender.train_models raises len_X_train data [] = (o, log) →
     params ∈ CourseRecommender.exported log →
     CourseRecommender.exported log = [params] ∧
     CourseRecommender.fitted log = CourseRecommender.fit_order len_X_train ∧
     keys params
       = "metadata" :: omap CourseRecommender.entry_of
                         (CourseRecommender.fitted log) ∧
     NoDup (keys params) ∧
     CourseRecommender.NearestNeighbors ∈ CourseRecommender.fitted log ∧
     CourseRecommender.entry_of CourseRecommender.NearestNeighbors = None).
Proof.
  split.
  - intros raises data o log params
      [->|(returned & Hprefix & ->)]%performance_any_log Hin.
    { vm_compute in Hin. by apply elem_of_nil in Hin. }
    rewrite (prefix_take_length _ _ Hprefix) in Hin |- *.
    pose proof (prefix_length _ _ Hprefix) as Hlen.
    revert Hin Hlen. generalize (length returned). intros n Hin Hlen.
    vm_compute in Hlen.
    do 36 (destruct n as [|n]; [export_case Hin|]).
    exfalso. lia.
  - intros raises len_X_train data o log params
      [->|(returned & Hprefix & ->)]%recommendation_any_log Hin.
    { vm_compute in Hin. by apply elem_of_nil in Hin. }
    rewrite (prefix_take_length _ _ Hprefix) in Hin |- *.
    pose proof (prefix_length _ _ Hprefix) as Hlen.
    revert Hin Hlen. generalize (length returned). intros n Hin Hlen.
    vm_compute in Hlen.
    do 41 (destruct n as [|n]; [export_case Hin|]).
    exfalso. lia.
Qed.

Lemma exported_parameters_keys_witness :
  (∃ o log params,
     PerformancePredictor.train_models Scenario.plot_fails Sample.term []
       = (o, log) ∧
     params ∈ PerformancePredictor.exported log ∧
     PerformancePredictor.exported log = [params] ∧
     PerformancePredictor.fitted log = PerformancePredictor.fit_order ∧
     keys params
       = "metadata" :: omap PerformancePredictor.entry_of
                         (PerformancePredictor.fitted log) ∧
     NoDup (keys params)) ∧
  (∃ o log params,
     CourseRecommender.train_models (λ _, None) 9 Sample.term [] = (o, log) ∧
     params ∈ CourseRecommender.exported log ∧
     CourseRecommender.exported log = [params] ∧
     CourseRecommender.fitted log = CourseRecommender.fit_order 9 ∧
     keys params
       = "metadata" :: omap CourseRecommender.entry_of
                         (CourseRecommender.fitted log) ∧
     NoDup (keys params) ∧
     CourseRecommender.NearestNeighbors ∈ CourseRecommender.fitted log ∧
     CourseRecommender.entry_of CourseRecommender.NearestNeighbors = None).
Proof.
  split.
  - pose (run := PerformancePredictor.train_models Scenario.plot_fails
                   Sample.term []).
    assert (PerformancePredictor.model_parameters
              PerformancePredictor.feature_names
              ∈ PerformancePredictor.exported run.2) as Hin.
    { vm_compute. left. }
    exists run.1, run.2,
      (PerformancePredictor.model_parameters PerformancePredictor.feature_names).
    split; [exact (surjective_pairing run)|]. split; [exact Hin|].
    exact (proj1 exported_parameters_keys Scenario.plot_fails Sample.term
             run.1 run.2 _ (surjective_pairing run) Hin).
  - pose (run := CourseRecommender.train_models (λ _, None) 9 Sample.term []).
    assert (CourseRecommender.model_parameters 9 CourseRecommender.feature_names
              ∈ CourseRecommender.exported run.2) as Hin.
    { vm_compute. left. }
    exists run.1, run.2,
      (CourseRecommender.model_parameters 9 CourseRecommender.feature_names).
    split; [exact (surjective_pairing run)|]. split; [exact Hin|].
    exact (proj2 exported_parameters_keys (λ _, None) 9 Sample.term run.1 run.2 _
             (surjective_pairing run) Hin).
Defined.

(** Runs on twelve samples that reach the export; the performance run
    ends in its plotting step.  The performance document has five keys for
    four fitted families: ["metadata"] names no family.  The
    recommendation document has the same extra key and none for the
    nearest-neighbour index, which was fit and saved. *)
Lemma exported_parameters_keys_mismatch :
  let performance_log :=
    (PerformancePredictor.train_models Scenario.plot_fails Sample.term []).2 in
  let recommendation_log :=
    (CourseRecommender.train_models (λ _, None) 9 Sample.term []).2 in
  (keys <$> PerformancePredictor.exported performance_log
     = [["metadata"; "logistic_regression"; "random_forest_classifier";
         "gradient_boosting_classifier"; "random_forest_regressor"]]) ∧
  (omap PerformancePredictor.entry_of
     (PerformancePredictor.fitted performance_log)
     = ["logistic_regression"; "random_forest_classifier";
        "gradient_boosting_classifier"; "random_forest_regressor"]) ∧
  (keys <$> CourseRecommender.exported recommendation_log
     = [["metadata"; "knn"; "decision_tree"; "random_forest"; "adaboost"]]) ∧
  (CourseRecommender.fitted recommendation_log
     = [CourseRecommender.KNeighborsClassifier;
        CourseRecommender.DecisionTreeClassifier;
        CourseRecommender.RandomForestClassifier;
        CourseRecommender.AdaBoostClassifier;
        CourseRecommender.NearestNeighbors]) ∧
  ("nearest_neighbors" ∈ CourseRecommender.saved recommendation_log) ∧
  (∀ params, params ∈ PerformancePredictor.exported performance_log →
     list_to_set (keys params) ≠@{gset string}
     list_to_set (omap PerformancePredictor.entry_of
                    (PerformancePredictor.fitted performance_log))) ∧
  (∀ params, params ∈ CourseRecommender.exported recommendation_log →
     list_to_set (keys params) ≠@{gset string}
     list_to_set (CourseRecommender.attribute_of
                    <$> CourseRecommender.fitted recommendation_log)).
Proof.
  split_and!; try (vm_compute; reflexivity).
  - apply (bool_decide_unpack _). vm_compute. exact I.
  - intros params Hin. vm_compute in Hin.
    apply list_elem_of_singleton in Hin. subst params. intros Heq.
    assert ("metadata" ∈@{gset string}
              list_to_set (omap PerformancePredictor.entry_of
                (PerformancePredictor.fitted
                   (PerformancePredictor.train_models Scenario.plot_fails
                      Sample.term []).2))) as Hin.
    { rewrite <- Heq. apply elem_of_list_to_set. left. }
    apply elem_of_list_to_set in Hin. vm_compute in Hin.
    repeat (apply elem_of_cons in Hin as [Hin|Hin]; [discriminate|]).
    by apply elem_of_nil in Hin.
  - intros params Hin. vm_compute in Hin.
    apply list_elem_of_singleton in Hin. subst params. intros Heq.
    assert ("metadata" ∈@{gset string}
              list_to_set (CourseRecommender.attribute_of
                <$> CourseRecommender.fitted
                      (CourseRecommender.train_models (λ _, None) 9
                         Sample.term []).2)) as Hin.
    { rewrite <- Heq. apply elem_of_list_to_set. left. }
    apply elem_of_list_to_set in Hin. vm_compute in Hin.
    repeat (apply elem_of_cons in Hin as [Hin|Hin]; [discriminate|]).
    by apply elem_of_nil in Hin.
Qed.

(** ** [normalize_features] *)

Section normalize.
Import Normalize.
Local Open Scope R_scope.

Lemma transform_fitted (X : list (list R)) :
  transform_columns (Rmean <$> X) (scale_of <$> X) X = standardize <$> X.
Proof.
  induction X as [|xs X IH]; [reflexivity|].
  rewrite !fmap_cons. cbn [transform_columns]. by rewrite IH.
Qed.

Lemma assign_numeric_map (f : list R → list R) (df : Frame) :
  assign_numeric df (f <$> select_numeric df) = map_numeric f df.
Proof.
  induction df as [|[name [xs|bs|ss]] df IH]; [reflexivity|..].
  - change ((name, Numeric (f xs))
              :: assign_numeric df (f <$> select_numeric df)
            = (name, Numeric (f xs)) :: map_numeric f df).
    by rewrite IH.
  - change ((name, Boolean bs)
              :: assign_numeric df (f <$> select_numeric df)
            = (name, Boolean bs) :: map_numeric f df).
    by rewrite IH.
  - change ((name, Object ss)
              :: assign_numeric df (f <$> select_numeric df)
            = (name, Object ss) :: map_numeric f df).
    by rewrite IH.
Qed.

End normalize.

Section normalize_frames.
Import Normalize.
Local Open Scope R_scope.

Lemma select_numeric_rectangular (n : nat) (df : Frame) :
  rectangular n df → Forall (λ xs, length xs = n) (select_numeric df).
Proof.
  unfold rectangular, select_numeric.
  induction 1 as [|[name [xs|bs|ss]] df Hlen _ IH]; simpl in *;
    [by apply Forall_nil|apply Forall_cons; split|..]; done.
Qed.

Lemma normalize_features_map (n : nat) (df : Frame) :
  rectangular n df → (0 < n)%nat → select_numeric df ≠ [] →
  normalize_with_scaler df =
  Return (map_numeric standardize df,
          {| mean_ := Rmean <$> select_numeric df;
             scale_ := scale_of <$> select_numeric df |}) ∧
  normalize_features df = Return (map_numeric standardize df).
Proof.
  intros Hrect Hn Hne. unfold normalize_with_scaler, normalize_features.
  pose proof (select_numeric_rectangular n df Hrect) as Hlen.
  destruct (select_numeric df) as [|xs X] eqn:HX; [done|].
  apply Forall_cons in Hlen as [Hxs _].
  unfold fit. destruct (decide (length xs = 0%nat)) as [Hz|_]; [lia|].
  cbn [obind]. unfold transform. cbn [mean_ scale_].
  rewrite transform_fitted, <- HX, assign_numeric_map. by rewrite HX.
Qed.

(** Two values two apart: mean in the middle, deviation one. *)
Lemma standardize_two_apart (a b : R) :
  b = a + 2 →
  Rmean [a; b] = a + 1 ∧ scale_of [a; b] = 1 ∧ standardize [a; b] = [-1; 1].
Proof.
  intros ->.
  assert (Rmean [a; a + 2] = a + 1) as Hmean.
  { unfold Rmean, Rsum. simpl. lra. }
  assert (variance [a; a + 2] = 1) as Hvar.
  { unfold variance. rewrite Hmean. unfold Rmean, Rsum. simpl. lra. }
  assert (scale_of [a; a + 2] = 1) as Hscale.
  { unfold scale_of. rewrite Hvar, sqrt_1.
    by destruct (is_constant_feature_dec _ _ _). }
  split_and!; [done|done|].
  unfold standardize. rewrite Hmean, Hscale.
  cbn [fmap list_fmap]. f_equal; [lra|]. f_equal. lra.
Qed.

(** A frame and its image, column by column. *)
Lemma map_numeric_lookup (f : list R → list R) (df : Frame) (i : nat)
    (name : string) (c : column) :
  df !! i = Some (name, c) →
  map_numeric f df !! i
  = Some (name, match c with Numeric xs => Numeric (f xs) | _ => c end).
Proof.
  intros Hi. unfold map_numeric, Frame in *. rewrite list_lookup_fmap, Hi.
  by destruct c.
Qed.

End normalize_frames.

(** C6 (as amended). On a frame with at least one row and one numeric
    column, [normalize_features] returns a frame and nothing else, the
    first component of what the operation with the fitted scaler yields.
    The frame has the columns of the argument, by name and position; a
    numeric column holds its standardized values, each entry less the
    mean of the column and divided by its scale, and every other column
    is as it was.  A frame without numeric column is refused with
    [ValueError]. *)
Theorem normalize_features_spec (n : nat) (df : Normalize.Frame) :
  Normalize.rectangular n df → 0 < n →
  (Normalize.select_numeric df = [] →
     Normalize.normalize_features df = Raise ValueError) ∧
  (Normalize.select_numeric df ≠ [] →
     ∃ returned,
       Normalize.normalize_features df = Return returned ∧
       (∃ scaler,
          Normalize.normalize_with_scaler df = Return (returned, scaler)) ∧
       length returned = length df ∧
       (∀ i name xs,
          df !! i = Some (name, Normalize.Numeric xs) →
          returned !! i
          = Some (name,
                  Normalize.Numeric
                    ((λ x, (x - Normalize.Rmean xs) / Normalize.scale_of xs)%R
                       <$> xs))) ∧
       (∀ i name c,
          df !! i = Some (name, c) →
          (∀ xs, c ≠ Normalize.Numeric xs) →
          returned !! i = Some (name, c))).
Proof.
  intros Hrect Hn. split.
  - intros Hnone. unfold Normalize.normalize_features. by rewrite Hnone.
  - intros Hsome.
    destruct (normalize_features_map n df Hrect Hn Hsome) as [Hwith Honly].
    exists (Normalize.map_numeric Normalize.standardize df).
    split_and!; [exact Honly|by eexists| | |].
    + unfold Normalize.map_numeric. by rewrite length_fmap.
    + intros i name xs Hi.
      by rewrite (map_numeric_lookup _ _ _ _ _ Hi).
    + intros i name c Hi Hc.
      rewrite (map_numeric_lookup _ _ _ _ _ Hi).
      destruct c as [xs| |]; [by destruct (Hc xs)|done..].
Qed.

Lemma normalize_features_spec_witness :
  Normalize.rectangular 2 Normalize.low ∧
  Normalize.rectangular 2 Normalize.tags ∧ 0 < 2 ∧
  Normalize.select_numeric Normalize.tags = [] ∧
  Normalize.normalize_features Normalize.tags = Raise ValueError ∧
  Normalize.select_numeric Normalize.low ≠ [] ∧
  ∃ returned,
    Normalize.normalize_features Normalize.low = Return returned ∧
    (∃ scaler,
       Normalize.normalize_with_scaler Normalize.low
         = Return (returned, scaler)) ∧
    length returned = 2 ∧
    returned !! 1 = Some ("tag", Normalize.Object ["a"; "b"]).
Proof.
  assert (Normalize.rectangular 2 Normalize.low) as Hlow.
  { repeat (apply Forall_cons; split; [reflexivity|]). by apply Forall_nil. }
  assert (Normalize.rectangular 2 Normalize.tags) as Htags.
  { repeat (apply Forall_cons; split; [reflexivity|]). by apply Forall_nil. }
  assert (Normalize.select_numeric Normalize.low ≠ []) as Hsome by done.
  split_and!; [exact Hlow|exact Htags|lia|reflexivity| |exact Hsome|].
  - exact (proj1 (normalize_features_spec 2 Normalize.tags Htags
                    (Nat.lt_0_succ 1)) eq_refl).
  - destruct (proj2 (normalize_features_spec 2 Normalize.low Hlow
                       (Nat.lt_0_succ 1)) Hsome)
      as (returned & Hrun & Hscaler & Hlen & _ & Hother).
    exists returned. split_and!; [exact Hrun|exact Hscaler|exact Hlen|].
    by apply Hother.
Defined.

(** The fitted scaler is not in the result.  The frames [low] and [high]
    are returned as the same frame, while the scalers fitted on them
    differ (means 1 and 11): what [normalize_features] returns does not
    determine the scaling parameters, so no scaler can be read off it. *)
Lemma normalize_features_scaler_not_returned :
  Normalize.normalize_features Normalize.low
    = Return [("x", Normalize.Numeric [(-1)%R; 1%R]);
              ("tag", Normalize.Object ["a"; "b"])] ∧
  Normalize.normalize_features Normalize.high
    = Normalize.normalize_features Normalize.low ∧
  (∃ frame_low frame_high scaler_low scaler_high,
     Normalize.normalize_with_scaler Normalize.low
       = Return (frame_low, scaler_low) ∧
     Normalize.normalize_with_scaler Normalize.high
       = Return (frame_high, scaler_high) ∧
     frame_low = frame_high ∧ scaler_low ≠ scaler_high) ∧
  ¬ ∃ scaler_of : Normalize.Frame → Normalize.StandardScaler,
      ∀ df frame scaler,
        Normalize.normalize_with_scaler df = Return (frame, scaler) →
        ∃ returned, Normalize.normalize_features df = Return returned ∧
                    scaler_of returned = scaler.
Proof.
  destruct (standardize_two_apart 0 2) as (Hm0 & Hs0 & Hz0); [lra|].
  destruct (standardize_two_apart 10 12) as (Hm1 & Hs1 & Hz1); [lra|].
  assert (Normalize.rectangular 2 Normalize.low) as Hlow.
  { repeat (apply Forall_cons; split; [reflexivity|]). by apply Forall_nil. }
  assert (Normalize.rectangular 2 Normalize.high) as Hhigh.
  { repeat (apply Forall_cons; split; [reflexivity|]). by apply Forall_nil. }
  destruct (normalize_features_map 2 Normalize.low Hlow) as [Hwl Hfl];
    [lia|done|].
  destruct (normalize_features_map 2 Normalize.high Hhigh) as [Hwh Hfh];
    [lia|done|].
  assert (Normalize.map_numeric Normalize.standardize Normalize.low
          = [("x", Normalize.Numeric [(-1)%R; 1%R]);
             ("tag", Normalize.Object ["a"; "b"])]) as Hl.
  { unfold Normalize.map_numeric, Normalize.low. cbn [fmap list_fmap snd fst].
    by rewrite Hz0. }
  assert (Normalize.map_numeric Normalize.standardize Normalize.high
          = [("x", Normalize.Numeric [(-1)%R; 1%R]);
             ("tag", Normalize.Object ["a"; "b"])]) as Hh.
  { unfold Normalize.map_numeric, Normalize.high. cbn [fmap list_fmap snd fst].
    by rewrite Hz1. }
  assert (Normalize.mkScaler
            (Normalize.Rmean <$> Normalize.select_numeric Normalize.low)
            (Normalize.scale_of <$> Normalize.select_numeric Normalize.low)
          ≠ Normalize.mkScaler
              (Normalize.Rmean <$> Normalize.select_numeric Normalize.high)
              (Normalize.scale_of <$> Normalize.select_numeric Normalize.high))
    as Hdiff.
  { change (Normalize.select_numeric Normalize.low) with [[0%R; 2%R]].
    change (Normalize.select_numeric Normalize.high) with [[10%R; 12%R]].
    cbn [fmap list_fmap]. rewrite Hm0, Hm1. intros [= Hmean _]. lra. }
  rewrite Hl in Hwl, Hfl. rewrite Hh in Hwh, Hfh.
  split_and!.
  - exact Hfl.
  - by rewrite Hfl, Hfh.
  - eexists _, _, _, _. split_and!; [exact Hwl|exact Hwh|reflexivity|exact Hdiff].
  - intros [scaler_of Hread].
    destruct (Hread _ _ _ Hwl) as (rl & Hrl & Hsl).
    destruct (Hread _ _ _ Hwh) as (rh & Hrh & Hsh).
    rewrite Hfl in Hrl. rewrite Hfh in Hrh.
    injection Hrl as <-. injection Hrh as <-.
    apply Hdiff. by rewrite <- Hsl, <- Hsh.
Qed.

(* ================================================================= *)
(** * Further properties of the code *)

(** ** The inner joins, without assumptions on the ids *)

Section merge_general.
Context {A B : Type} (left_on : A → string) (right_on : B → string).

Lemma merge_app (l1 l2 : list A) (right : list B) :
  merge left_on right_on (l1 ++ l2) right =
  merge left_on right_on l1 right ++ merge left_on right_on l2 right.
Proof. unfold merge. apply bind_app. Qed.

(** A pair is in the join exactly when both rows are in their tables and
    their keys agree. *)
Lemma elem_of_merge (a : A) (b : B) (left : list A) (right : list B) :
  (a, b) ∈ merge left_on right_on left right ↔
  a ∈ left ∧ b ∈ right ∧ right_on b = left_on a.
Proof.
  unfold merge. rewrite list_elem_of_bind. split.
  - intros (a' & Hin & Ha').
    apply list_elem_of_fmap in Hin as (b' & [= -> ->] & Hb').
    apply list_elem_of_filter in Hb' as [Hkey Hb']. done.
  - intros (Ha & Hb & Hkey). exists a. split; [|done].
    apply list_elem_of_fmap. exists b. split; [done|].
    by apply list_elem_of_filter.
Qed.

Lemma merge_length (left : list A) (right : list B) :
  length (merge left_on right_on left right) =
  sum_list ((λ a, matches right_on (left_on a) right) <$> left).
Proof.
  induction left as [|a left IH]; [reflexivity|].
  rewrite merge_cons, length_app, length_fmap, IH. reflexivity.
Qed.

End merge_general.

Lemma inner_joins_length (data : Data) :
  length (DataPreprocessor.inner_joins data) =
  sum_list ((λ g, matches Student.id (Grade.student_id g) (students data)
                  * matches Course.id (Grade.course_id g) (courses data))
              <$> grades data).
Proof.
  unfold DataPreprocessor.inner_joins.
  generalize (grades data). intros gs.
  induction gs as [|g gs IH]; [reflexivity|].
  assert (∀ ss : list Student.t,
            length (merge (λ gs : Grade.t * Student.t, Grade.course_id gs.1)
                      Course.id ((λ b, (g, b)) <$> ss) (courses data))
            = length ss * matches Course.id (Grade.course_id g) (courses data))
    as Hone.
  { intros ss. induction ss as [|s ss IHs]; [reflexivity|].
    rewrite fmap_cons, merge_cons, length_app, length_fmap, IHs.
    reflexivity. }
  rewrite (merge_cons Grade.student_id Student.id g gs).
  rewrite merge_app, length_app, fmap_cons, Hone. cbn [sum_list].
  unfold matches at 2. by f_equal.
Qed.

Lemma elem_of_inner_joins (data : Data) (g : Grade.t) (s : Student.t)
    (c : Course.t) :
  (g, s, c) ∈ DataPreprocessor.inner_joins data ↔
  g ∈ grades data ∧ s ∈ students data ∧ c ∈ courses data ∧
  Student.id s = Grade.student_id g ∧ Course.id c = Grade.course_id g.
Proof.
  unfold DataPreprocessor.inner_joins.
  rewrite (elem_of_merge _ Course.id (g, s) c).
  rewrite (elem_of_merge Grade.student_id Student.id g s). simpl. tauto.
Qed.

(** X1. Whatever the ids, a call of [prepare_performance_data] that
    returns has built one feature row for every combination of a grade row
    with a student row of its [student_id] and a course row of its
    [course_id]: the number of rows is the sum, over the grade rows, of
    the number of matching students times the number of matching courses.
    A grade that matches nothing counts zero, a grade matched twice counts
    twice.  The call returns when each of the three tables has a row. *)
Theorem prepare_performance_data_row_count (data : Data) :
  (∀ features target at_risk,
     DataPreprocessor.prepare_performance_data data
       = Return (features, target, at_risk) →
     length features =
       sum_list ((λ g, matches Student.id (Grade.student_id g) (students data)
                       * matches Course.id (Grade.course_id g) (courses data))
                   <$> grades data) ∧
     length target = length features ∧
     length at_risk = length features) ∧
  (students data ≠ [] → grades data ≠ [] → courses data ≠ [] →
   ∃ features target at_risk,
     DataPreprocessor.prepare_performance_data data
       = Return (features, target, at_risk)).
Proof.
  split.
  - intros features target at_risk
      (_ & -> & -> & ->)%prepare_performance_data_return.
    rewrite !length_fmap. split_and!; [|done..]. apply inner_joins_length.
  - intros Hs Hg Hc. eexists _, _, _.
    by apply prepare_performance_data_populated.
Qed.

Lemma prepare_performance_data_row_count_witness :
  ∃ features target at_risk,
    DataPreprocessor.prepare_performance_data Sample.twins
      = Return (features, target, at_risk) ∧
    length features = 4 ∧ length target = 4 ∧ length at_risk = 4.
Proof.
  eexists _, _, _. split; [reflexivity|].
  exact (proj1 (prepare_performance_data_row_count Sample.twins) _ _ _
           eq_refl).
Defined.

(** X2. The joined rows are exactly the triples of a grade row, a student
    row and a course row whose ids agree, and every feature row is built
    from such a triple: GPA and disability flag of that student,
    difficulty and credits of that course, attendance of that grade. *)
Theorem prepare_performance_data_rows_sound (data : Data)
    (merged : list DataPreprocessor.Merged)
    (features : list PerformanceRow.t) (target : list Q) (at_risk : list Z) :
  DataPreprocessor.merged_frame data = Return merged →
  DataPreprocessor.prepare_performance_data data
    = Return (features, target, at_risk) →
  (∀ g s c,
     (g, s, c) ∈ merged ↔
     g ∈ grades data ∧ s ∈ students data ∧ c ∈ courses data ∧
     Student.id s = Grade.student_id g ∧ Course.id c = Grade.course_id g) ∧
  (∀ i row gp risk,
     features !! i = Some row →
     target !! i = Some gp →
     at_risk !! i = Some risk →
     ∃ g s c,
       merged !! i = Some (g, s, c) ∧
       Student.id s = Grade.student_id g ∧ Course.id c = Grade.course_id g ∧
       row = PerformanceRow.mk (Student.current_gpa s)
               (Course.difficulty_level c) (Grade.attendance_rate g)
               (int_of_bool (Student.has_disability s)) (Course.credits c) ∧
       gp = Grade.grade_point g ∧
       risk = DataPreprocessor.at_risk_of (Grade.grade_point g)).
Proof.
  intros (_ & _ & _ & ->)%merged_frame_return
    (_ & -> & -> & ->)%prepare_performance_data_return.
  split; [apply elem_of_inner_joins|].
  intros i row gp risk. rewrite !list_lookup_fmap.
  destruct (DataPreprocessor.inner_joins data !! i) as [[[g s] c]|] eqn:Hi;
    [|done].
  simpl. intros [= <-] [= <-] [= <-].
  apply list_elem_of_lookup_2, elem_of_inner_joins in Hi
    as (_ & _ & _ & Hs & Hc).
  by exists g, s, c.
Qed.

Lemma prepare_performance_data_rows_sound_witness :
  ∃ merged features target at_risk,
    DataPreprocessor.merged_frame Sample.campus = Return merged ∧
    DataPreprocessor.prepare_performance_data Sample.campus
      = Return (features, target, at_risk) ∧
    ((Sample.grade "s2" "c1" 2.0, Sample.bob, Sample.algebra) ∈ merged) ∧
    ∀ g c, (g, Sample.carol, c) ∉ merged.
Proof.
  eexists _, _, _, _. split; [reflexivity|]. split; [reflexivity|].
  destruct (prepare_performance_data_rows_sound Sample.campus _ _ _ _
              eq_refl eq_refl) as [Hjoin _].
  split.
  - apply Hjoin. split_and!; [|by right; left|by left|done|done].
    do 2 right. left.
  - intros g c [Hg [_ [_ [Hid _]]]]%Hjoin.
    cbn [grades Sample.campus] in Hg.
    repeat (apply elem_of_cons in Hg as [->|Hg]; [by vm_compute in Hid|]).
    by apply elem_of_nil in Hg.
Defined.

(** ** Candidates for a student *)

(** X3. For an existing student, and grade, preference and course tables
    that each have a row, [prepare_recommendation_data] returns as many
    rows as there are course rows that the student has not taken: the
    rows returned and the course rows taken add up to the course table.
    When every course has been taken the frame has no rows and also no
    columns, not even [course_id]; otherwise it has the six columns. *)
Theorem prepare_recommendation_data_shape (data : Data) (student_id : string) :
  student_id ∈ Student.id <$> students data →
  grades data ≠ [] → preferences data ≠ [] → courses data ≠ [] →
  ∃ df,
    DataPreprocessor.prepare_recommendation_data data student_id = Return df ∧
    length (rows df)
      + length (filter (λ c, Course.id c
                               ∈ Grade.course_id <$> history data student_id)
                  (courses data))
      = length (courses data) ∧
    ((∀ c, c ∈ courses data →
           Course.id c ∈ Grade.course_id <$> history data student_id) →
     rows df = [] ∧ columns df = []) ∧
    (∀ c, c ∈ courses data →
          Course.id c ∉ Grade.course_id <$> history data student_id →
          rows df ≠ [] ∧ columns df = RecommendationRow.keys).
Proof.
  intros Hin Hgrades Hpreferences Hcourses.
  destruct (first_occurrence Student.id _ _ Hin)
    as (pre & student & post & Hst & Hid & Hpre).
  eexists. split.
  { exact (prepare_recommendation_data_first data student_id _ _ _ Hst Hid
             Hpre Hgrades Hpreferences Hcourses). }
  set (taken := Grade.course_id <$> history data student_id).
  split_and!.
  - cbn [rows DataFrame_of_records]. rewrite length_fmap.
    pose proof (filter_app_complement (λ c, Course.id c ∈ taken) (courses data))
      as Hperm.
    apply Permutation_length in Hperm. rewrite length_app in Hperm.
    fold taken. lia.
  - intros Hall.
    assert (filter (λ c, Course.id c ∉ taken) (courses data) = []) as Hnil.
    { destruct (filter (λ c, Course.id c ∉ taken) (courses data))
        as [|c cs] eqn:Hf; [done|].
      assert (c ∈ filter (λ c, Course.id c ∉ taken) (courses data)) as Hc
        by (rewrite Hf; left).
      apply list_elem_of_filter in Hc as [Hn Hc]. exfalso. by apply Hn, Hall. }
    unfold DataFrame_of_records. cbn [rows columns]. by rewrite Hnil.
  - intros c Hc Hfree.
    assert (c ∈ filter (λ c, Course.id c ∉ taken) (courses data)) as Hcin
      by (by apply list_elem_of_filter).
    unfold DataFrame_of_records. cbn [rows columns].
    destruct (filter (λ c, Course.id c ∉ taken) (courses data)) as [|c' cs];
      [by apply elem_of_nil in Hcin|done].
Qed.

Lemma prepare_recommendation_data_shape_witness :
  ("s1" ∈ Student.id <$> students Sample.campus) ∧
  grades Sample.campus ≠ [] ∧ preferences Sample.campus ≠ [] ∧
  courses Sample.campus ≠ [] ∧
  ∃ df,
    DataPreprocessor.prepare_recommendation_data Sample.campus "s1"
      = Return df ∧
    length (rows df)
      + length (filter (λ c, Course.id c
                               ∈ Grade.course_id <$> history Sample.campus "s1")
                  (courses Sample.campus))
      = length (courses Sample.campus).
Proof.
  assert ("s1" ∈ Student.id <$> students Sample.campus) as Hin.
  { apply (bool_decide_unpack _). vm_compute. exact I. }
  split_and!; [exact Hin|done..|].
  destruct (prepare_recommendation_data_shape Sample.campus "s1" Hin)
    as (df & Hdf & Hlen & _); [done..|].
  by exists df.
Defined.

(** X5. The candidates of a student depend on the student table, the
    course table and that student's own grade rows, and on whether the
    grade table and the preference table have a row at all: apart from
    that, the preference and disability tables and the grades of other
    students can change without changing the outcome of the call. *)
Theorem prepare_recommendation_data_depends_on
    (data1 data2 : Data) (student_id : string) :
  students data1 = students data2 →
  courses data1 = courses data2 →
  history data1 student_id = history data2 student_id →
  (grades data1 = [] ↔ grades data2 = []) →
  (preferences data1 = [] ↔ preferences data2 = []) →
  DataPreprocessor.prepare_recommendation_data data1 student_id
    = DataPreprocessor.prepare_recommendation_data data2 student_id.
Proof.
  intros Hs Hc Hh Hg Hp. unfold DataPreprocessor.prepare_recommendation_data.
  rewrite Hs, Hc.
  destruct (getcolumn "id" (students data2)) as [students_df|e]; [|done].
  cbn [obind].
  destruct (iloc0 _) as [student|e]; [|done]. cbn [obind].
  unfold history in Hh.
  destruct (grades data1) as [|g1 grades1], (grades data2) as [|g2 grades2];
    [reflexivity|discriminate (proj1 Hg eq_refl)
    |discriminate (proj2 Hg eq_refl)|].
  cbn [getcolumn obind]. rewrite Hh.
  destruct (preferences data1) as [|p1 preferences1],
    (preferences data2) as [|p2 preferences2];
    [reflexivity|discriminate (proj1 Hp eq_refl)
    |discriminate (proj2 Hp eq_refl)|].
  reflexivity.
Qed.

Lemma prepare_recommendation_data_depends_on_witness :
  students Sample.campus = students Scenario.campus_next ∧
  courses Sample.campus = courses Scenario.campus_next ∧
  history Sample.campus "s1" = history Scenario.campus_next "s1" ∧
  (grades Sample.campus = [] ↔ grades Scenario.campus_next = []) ∧
  (preferences Sample.campus = [] ↔ preferences Scenario.campus_next = []) ∧
  grades Sample.campus ≠ grades Scenario.campus_next ∧
  preferences Sample.campus ≠ preferences Scenario.campus_next ∧
  disabilities Sample.campus ≠ disabilities Scenario.campus_next ∧
  DataPreprocessor.prepare_recommendation_data Sample.campus "s1"
    = DataPreprocessor.prepare_recommendation_data Scenario.campus_next "s1".
Proof.
  split_and!;
    [reflexivity|reflexivity|reflexivity|done|done
    |discriminate|discriminate|discriminate|].
  by apply (prepare_recommendation_data_depends_on Sample.campus
              Scenario.campus_next "s1").
Defined.

(** ** Similarity scores and the ranking *)

(** X6. The similarity score does not depend on which of the two students
    is the target; it is at most 2.6; and for GPAs between 0 and 4 it is
    at least 0.4. *)
Theorem similarity_score_symmetric_bounded (a b : Student.t) :
  DataPreprocessor.similarity_score a b = DataPreprocessor.similarity_score b a ∧
  (DataPreprocessor.similarity_score a b <= 2.6)%Q ∧
  ((0 <= Student.current_gpa a)%Q → (Student.current_gpa a <= 4)%Q →
   (0 <= Student.current_gpa b)%Q → (Student.current_gpa b <= 4)%Q →
   (0.4 <= DataPreprocessor.similarity_score a b)%Q).
Proof.
  unfold DataPreprocessor.similarity_score. cbv zeta.
  pose proof (Qabs_nonneg (Student.current_gpa a - Student.current_gpa b))
    as Habs.
  split_and!.
  - rewrite (Qabs_Qminus (Student.current_gpa a)).
    destruct (decide (Student.major a = Student.major b)) as [Hm|Hm];
      destruct (decide (Student.major b = Student.major a)) as [Hm'|Hm'];
      try congruence;
      destruct (decide (Student.has_disability a = Student.has_disability b))
        as [Hd|Hd];
      destruct (decide (Student.has_disability b = Student.has_disability a))
        as [Hd'|Hd'];
      congruence.
  - destruct (decide (Student.major a = Student.major b));
      destruct (decide (Student.has_disability a = Student.has_disability b));
      lra.
  - intros Ha0 Ha4 Hb0 Hb4.
    assert (Qabs (Student.current_gpa a - Student.current_gpa b) <= 4)%Q as Hle.
    { apply Qabs_Qle_condition. split; lra. }
    destruct (decide (Student.major a = Student.major b));
      destruct (decide (Student.has_disability a = Student.has_disability b));
      lra.
Qed.

Lemma similarity_score_symmetric_bounded_witness :
  (0 <= Student.current_gpa Sample.alice)%Q ∧
  (Student.current_gpa Sample.alice <= 4)%Q ∧
  (0 <= Student.current_gpa Sample.bob)%Q ∧
  (Student.current_gpa Sample.bob <= 4)%Q ∧
  (0.4 <= DataPreprocessor.similarity_score Sample.alice Sample.bob)%Q.
Proof.
  assert (0 <= Student.current_gpa Sample.alice)%Q as Ha0
    by (vm_compute; discriminate).
  assert (Student.current_gpa Sample.alice <= 4)%Q as Ha4
    by (vm_compute; discriminate).
  assert (0 <= Student.current_gpa Sample.bob)%Q as Hb0
    by (vm_compute; discriminate).
  assert (Student.current_gpa Sample.bob <= 4)%Q as Hb4
    by (vm_compute; discriminate).
  split_and!; [exact Ha0|exact Ha4|exact Hb0|exact Hb4|].
  exact (proj2 (proj2
           (similarity_score_symmetric_bounded Sample.alice Sample.bob))
           Ha0 Ha4 Hb0 Hb4).
Defined.

Section ranking.
Context {A : Type} (score : A → Q).

Lemma insert_descending_Permutation (x : A) (l : list A) :
  insert_descending score x l ≡ₚ x :: l.
Proof.
  induction l as [|y l IH]; [reflexivity|]. simpl.
  destruct (Qlt_le_dec (score x) (score y)); [|reflexivity].
  rewrite IH. apply Permutation_swap.
Qed.

Lemma sort_descending_Permutation (l : list A) :
  foldr (insert_descending score) [] l ≡ₚ l.
Proof.
  induction l as [|x l IH]; [reflexivity|]. simpl.
  by rewrite insert_descending_Permutation, IH.
Qed.

Lemma insert_descending_sorted (x : A) (l : list A) :
  StronglySorted (λ a b, (score b <= score a)%Q) l →
  StronglySorted (λ a b, (score b <= score a)%Q) (insert_descending score x l).
Proof.
  induction 1 as [|y l Hsorted IH Hall]; simpl.
  - by repeat constructor.
  - destruct (Qlt_le_dec (score x) (score y)) as [Hlt|Hle].
    + constructor; [exact IH|].
      rewrite insert_descending_Permutation. constructor; [|exact Hall].
      by apply Qlt_le_weak.
    + constructor; [by constructor|]. constructor; [exact Hle|].
      eapply Forall_impl; [exact Hall|]. intros z Hz. simpl in *.
      exact (Qle_trans _ _ _ Hz Hle).
Qed.

Lemma sort_descending_sorted (l : list A) :
  StronglySorted (λ a b, (score b <= score a)%Q)
    (foldr (insert_descending score) [] l).
Proof.
  induction l as [|x l IH]; simpl; [constructor|].
  by apply insert_descending_sorted.
Qed.

End ranking.

Lemma elem_of_similar_students (student_id : string) (data : Data)
    (target : Student.t) (row : SimilarRow.t) :
  row ∈ DataPreprocessor.similar_students student_id data target ↔
  ∃ s, s ∈ students data ∧ Student.id s ≠ student_id ∧
       history data (Student.id s) ≠ [] ∧
       row = SimilarRow.mk (Student.id s)
               (DataPreprocessor.similarity_score target s)
               (mean (Grade.grade_point <$> history data (Student.id s))).
Proof.
  unfold DataPreprocessor.similar_students. rewrite list_elem_of_bind.
  split.
  - intros (s & Hrow & Hs). fold (history data (Student.id s)) in Hrow.
    destruct (decide (Student.id s = student_id)) as [Hid|Hid];
      [by apply elem_of_nil in Hrow|].
    destruct (decide (length (history data (Student.id s)) = 0)) as [Hlen|Hlen];
      [by apply elem_of_nil in Hrow|].
    apply list_elem_of_singleton in Hrow as ->. exists s.
    split_and!; [done|done| |done]. intros Hnil. apply Hlen. by rewrite Hnil.
  - intros (s & Hs & Hid & Hhist & ->). exists s. split; [|done].
    fold (history data (Student.id s)).
    destruct (decide (Student.id s = student_id)) as [|_]; [done|].
    destruct (decide (length (history data (Student.id s)) = 0)) as [Hlen|_].
    + by apply length_zero_iff_nil in Hlen.
    + left.
Qed.

(** X7. Whenever [calculate_similarity_features] returns, the frame has
    the three columns, its rows are in descending order of score, and they
    are, in some order, the rows of the students of another id that have a
    grade record: each such student row appears, with the score against
    the first record of the target and the mean of that student's grade
    points, and no row carries the target's id. *)
Theorem calculate_similarity_features_ranking
    (student_id : string) (data : Data) (df : DataFrame SimilarRow.t) :
  DataPreprocessor.calculate_similarity_features student_id data = Return df →
  columns df = SimilarRow.keys ∧
  StronglySorted
    (λ a b, (SimilarRow.similarity_score b <= SimilarRow.similarity_score a)%Q)
    (rows df) ∧
  ∃ target,
    head (filter (λ s, Student.id s = student_id) (students data))
      = Some target ∧
    rows df ≡ₚ DataPreprocessor.similar_students student_id data target ∧
    (∀ row, row ∈ rows df ↔
       ∃ s, s ∈ students data ∧ Student.id s ≠ student_id ∧
            history data (Student.id s) ≠ [] ∧
            row = SimilarRow.mk (Student.id s)
                    (DataPreprocessor.similarity_score target s)
                    (mean (Grade.grade_point
                             <$> history data (Student.id s)))) ∧
    (∀ row, row ∈ rows df → SimilarRow.student_id row ≠ student_id).
Proof.
  unfold DataPreprocessor.calculate_similarity_features.
  assert (getcolumn "id" (students data)
          = match students data with
            | [] => Raise (KeyError "id")
            | _ :: _ => Return (students data)
            end) as -> by (by destruct (students data)).
  destruct (students data) as [|s0 students_df] eqn:Hstudents; [done|].
  rewrite <- Hstudents. cbn [obind].
  destruct (filter (λ s, Student.id s = student_id) (students data))
    as [|target others] eqn:Hsel; [done|].
  cbn [iloc0 obind].
  destruct (getcolumn "student_id" (grades data)) as [grades_df|e]; [|done].
  cbn [obind]. cbv zeta. unfold sort_values_descending.
  destruct (decide _) as [Hcol|]; [|done]. intros [= <-]. cbn [rows columns].
  assert (foldr (insert_descending SimilarRow.similarity_score) []
            (rows (DataFrame_of_records SimilarRow.keys
               (DataPreprocessor.similar_students student_id data target)))
          ≡ₚ DataPreprocessor.similar_students student_id data target) as Hperm.
  { apply sort_descending_Permutation. }
  split_and!.
  - unfold DataFrame_of_records in *. cbn [columns] in *.
    destruct (DataPreprocessor.similar_students student_id data target);
      [by apply elem_of_nil in Hcol|done].
  - apply sort_descending_sorted.
  - exists target. split_and!; [done|exact Hperm| |].
    + intros row. rewrite Hperm. apply elem_of_similar_students.
    + intros row. rewrite Hperm.
      intros (s & _ & Hid & _ & ->)%elem_of_similar_students. done.
Qed.

Lemma calculate_similarity_features_ranking_witness :
  ∃ df,
    DataPreprocessor.calculate_similarity_features "s1" Scenario.cohort
      = Return df ∧
    SimilarRow.student_id <$> rows df = ["s3"; "s4"; "s2"] ∧
    StronglySorted
      (λ a b, (SimilarRow.similarity_score b <= SimilarRow.similarity_score a)%Q)
      (rows df) ∧
    (∀ row, row ∈ rows df → SimilarRow.student_id row ≠ "s1").
Proof.
  destruct (DataPreprocessor.calculate_similarity_features "s1" Scenario.cohort)
    as [df|e] eqn:Hrun; [|vm_compute in Hrun; discriminate].
  exists df. split; [reflexivity|].
  destruct (calculate_similarity_features_ranking "s1" Scenario.cohort df Hrun)
    as (_ & Hsorted & target & _ & _ & _ & Hother).
  split_and!; [|exact Hsorted|exact Hother].
  vm_compute in Hrun. injection Hrun as <-. reflexivity.
Defined.

(** ** The training frame of the recommendation trainer *)

Lemma inner_joins_resolving_length (data : Data) :
  valid_ids data →
  length (DataPreprocessor.inner_joins data)
    = length (filter (resolves data) (grades data)).
Proof.
  intros Hvalid. rewrite <- (inner_joins_grades data Hvalid).
  by rewrite length_fmap.
Qed.

(** X8. When [_prepare_training_data] returns, its frame has as many rows
    as the longer of the join and the grade table.  Row [i] always carries
    the mean grade of the student of grade row [i]; it carries a grade, a
    student and a label exactly when [i] is a row of the join; and the
    label of a row is always the one of the row's own [actual_grade].
    With unique ids the frame therefore has exactly one row per grade
    row, resolving or not, and as many labelled rows as grades resolve. *)
Theorem prepare_training_data_structure (data : Data)
    (merged : list DataPreprocessor.Merged)
    (training_data : list TrainingRow.t) :
  DataPreprocessor.merged_frame data = Return merged →
  CourseRecommender._prepare_training_data data = Return training_data →
  length training_data = length merged `max` length (grades data) ∧
  (∀ i g, grades data !! i = Some g →
     ∃ row, training_data !! i = Some row ∧
       TrainingRow.avg_previous_grade row
         = Some (mean (Grade.grade_point
                         <$> history data (Grade.student_id g)))) ∧
  (∀ i row, training_data !! i = Some row →
     (is_Some (TrainingRow.actual_grade row) ↔ i < length merged) ∧
     (is_Some (TrainingRow.student_id row) ↔ i < length merged) ∧
     (is_Some (TrainingRow.avg_previous_grade row)
        ↔ i < length (grades data)) ∧
     TrainingRow.success row
       = CourseRecommender.success_of <$> TrainingRow.actual_grade row) ∧
  (valid_ids data →
     length training_data = length (grades data) ∧
     length (filter (λ row, is_Some (TrainingRow.success row)) training_data)
       = length (filter (resolves data) (grades data))).
Proof.
  intros (_ & _ & _ & ->)%merged_frame_return Hframe.
  pose proof (prepare_training_data_length data _ Hframe) as Hlength.
  apply prepare_training_data_return in Hframe as [_ ->].
  set (merged := DataPreprocessor.inner_joins data) in *.
  set (averages := CourseRecommender.student_avg_grades (grades data)) in *.
  assert (∀ i row,
    CourseRecommender.training_data merged averages !! i = Some row →
     (is_Some (TrainingRow.actual_grade row) ↔ i < length merged) ∧
     (is_Some (TrainingRow.student_id row) ↔ i < length merged) ∧
     (is_Some (TrainingRow.avg_previous_grade row)
        ↔ i < length (grades data)) ∧
     TrainingRow.success row
       = CourseRecommender.success_of <$> TrainingRow.actual_grade row)
    as Hrows.
  { intros i row. unfold CourseRecommender.training_data.
    rewrite list_lookup_fmap.
    destruct (seq 0 _ !! i) as [j|] eqn:Hj; [|done].
    apply lookup_seq in Hj as [-> _]. change (0 + i) with i.
    intros [= <-].
    cbn [TrainingRow.actual_grade TrainingRow.student_id
         TrainingRow.avg_previous_grade TrainingRow.success].
    rewrite !fmap_is_Some, !lookup_lt_is_Some.
    subst averages.
    unfold CourseRecommender.student_avg_grades. rewrite length_fmap.
    split_and!; [done|done|done|].
    by destruct (merged !! i). }
  split_and!.
  - exact Hlength.
  - intros i g Hi.
    assert (i < length (CourseRecommender.training_data merged averages))
      as Hlt.
    { rewrite Hlength. apply lookup_lt_Some in Hi. lia. }
    apply lookup_lt_is_Some in Hlt as [row Hrow]. exists row.
    split; [done|]. revert Hrow.
    unfold CourseRecommender.training_data.
    rewrite list_lookup_fmap.
    destruct (seq 0 _ !! i) as [j|] eqn:Hj; [|done].
    apply lookup_seq in Hj as [-> _]. change (0 + i) with i.
    intros [= <-]. cbn [TrainingRow.avg_previous_grade].
    subst averages. unfold CourseRecommender.student_avg_grades.
    by rewrite list_lookup_fmap, Hi.
  - exact Hrows.
  - intros Hvalid.
    pose proof (inner_joins_resolving_length data Hvalid) as Hm.
    fold merged in Hm.
    pose proof (length_filter (resolves data) (grades data)) as Hle.
    assert (length (CourseRecommender.training_data merged averages)
            = length (grades data)) as Hlen by lia.
    split; [exact Hlen|]. rewrite <- Hm.
    assert (∀ n (l : list TrainingRow.t),
      (∀ i row, l !! i = Some row →
                is_Some (TrainingRow.success row) ↔ i < n) →
      n ≤ length l →
      length (filter (λ row, is_Some (TrainingRow.success row)) l) = n)
      as Hcount.
    { intros n l. revert n.
      induction l as [|row l IH]; intros n Hl Hn.
      - simpl in Hn. by assert (n = 0) as -> by lia.
      - rewrite filter_cons. destruct n as [|n].
        + rewrite decide_False by (rewrite (Hl 0 row eq_refl); lia).
          apply IH; [|lia]. intros i r Hi. rewrite (Hl (S i) r Hi). lia.
        + rewrite decide_True by (rewrite (Hl 0 row eq_refl); lia).
          simpl. f_equal. apply IH; [|simpl in Hn; lia].
          intros i r Hi. rewrite (Hl (S i) r Hi). lia. }
    apply Hcount; [|lia].
    intros i row Hi. destruct (Hrows i row Hi) as (Hgrade & _ & _ & ->).
    by rewrite fmap_is_Some.
Qed.

Lemma prepare_training_data_structure_witness :
  valid_ids Sample.dangling ∧
  ∃ merged training_data,
    DataPreprocessor.merged_frame Sample.dangling = Return merged ∧
    CourseRecommender._prepare_training_data Sample.dangling
      = Return training_data ∧
    length training_data = length (grades Sample.dangling) ∧
    length (filter (λ row, is_Some (TrainingRow.success row)) training_data)
      = length (filter (resolves Sample.dangling) (grades Sample.dangling)) ∧
    (grades Sample.dangling !! 1 = Some (Sample.grade "s1" "c1" 1.0)) ∧
    ∃ row,
      training_data !! 1 = Some row ∧
      TrainingRow.avg_previous_grade row
        = Some (mean (Grade.grade_point <$> history Sample.dangling "s1")).
Proof.
  assert (valid_ids Sample.dangling) as Hvalid.
  { split; apply (bool_decide_unpack _); vm_compute; exact I. }
  split; [exact Hvalid|].
  eexists _, _. split; [reflexivity|]. split; [reflexivity|].
  destruct (prepare_training_data_structure Sample.dangling _ _
              eq_refl eq_refl) as (_ & Havg & _ & Hpad).
  destruct (Hpad Hvalid) as [Hlen Hlabelled].
  split_and!; [exact Hlen|exact Hlabelled|reflexivity|].
  exact (Havg 1 (Sample.grade "s1" "c1" 1.0) eq_refl).
Defined.

(** X9. With unique ids, and a student, a grade and a course table that
    each have a row, the recommendation trainer stops at its guard
    exactly when the grade table has fewer than ten rows: the run returns
    [None] in that case and in no other, however many of the grade rows
    resolve. *)
Theorem recommendation_guard_counts_grades
    (raises : CourseRecommender.call → option exn) (len_X_train : nat)
    (data : Data) :
  valid_ids data →
  students data ≠ [] → grades data ≠ [] → courses data ≠ [] →
  (CourseRecommender.train_models raises len_X_train data []).1 = Return None
  ↔ length (grades data) < 10.
Proof.
  intros Hvalid Hs Hg Hc.
  pose proof (prepare_training_data_populated data Hs Hg Hc) as Hframe.
  pose proof (prepare_training_data_length data _ Hframe) as Hlen.
  rewrite (inner_joins_resolving_length data Hvalid) in Hlen.
  pose proof (length_filter (resolves data) (grades data)) as Hle.
  destruct (decide (length (grades data) < 10)) as [Hlt|Hge].
  - rewrite (recommendation_guard raises len_X_train data _ [] Hframe)
      by lia.
    done.
  - rewrite (recommendation_run raises len_X_train data _ [] Hframe) by lia.
    cbn [fst]. split; [|lia].
    by destruct (attempt raises (CourseRecommender.script len_X_train)).2.
Qed.

Lemma recommendation_guard_counts_grades_witness :
  valid_ids Sample.mostly_dangling ∧
  students Sample.mostly_dangling ≠ [] ∧
  grades Sample.mostly_dangling ≠ [] ∧
  courses Sample.mostly_dangling ≠ [] ∧
  length (filter (resolves Sample.mostly_dangling)
            (grades Sample.mostly_dangling)) = 2 ∧
  ¬ length (grades Sample.mostly_dangling) < 10 ∧
  (CourseRecommender.train_models (λ _, None) 9 Sample.mostly_dangling []).1
    ≠ Return None.
Proof.
  assert (valid_ids Sample.mostly_dangling) as Hvalid.
  { split; apply (bool_decide_unpack _); vm_compute; exact I. }
  assert (¬ length (grades Sample.mostly_dangling) < 10) as Hge
    by (vm_compute; lia).
  split_and!; [exact Hvalid|done|done|done|vm_compute; reflexivity|exact Hge|].
  intros Hnone. apply Hge.
  by apply (proj1 (recommendation_guard_counts_grades (λ _, None) 9
                     Sample.mostly_dangling Hvalid ltac:(done) ltac:(done)
                     ltac:(done))).
Defined.

(** ** What a training run leaves behind *)

Lemma attempt_none_raises {call : Type} (raises : call → option exn)
    (cs : list call) :
  (attempt raises cs).2 = None → Forall (λ c, raises c = None) cs.
Proof.
  induction cs as [|c cs IH]; simpl; [by intros; apply Forall_nil|].
  destruct (raises c) eqn:Hc; [done|].
  destruct (attempt raises cs). simpl in *. intros He.
  apply Forall_cons. split; [exact Hc|by apply IH].
Qed.

Lemma performance_complete_run raises data r log :
  PerformancePredictor.train_models raises data [] = (Return (Some r), log) →
  ∃ features target at_risk,
    DataPreprocessor.prepare_performance_data data
      = Return (features, target, at_risk) ∧
    10 ≤ length features ∧
    r = PerformancePredictor.results (length features) ∧
    log = Call <$> PerformancePredictor.script ∧
    Forall (λ c, raises c = None) PerformancePredictor.script.
Proof.
  intros Hrun. pose proof (performance_complete_log _ _ _ _ Hrun) as Hlog.
  destruct (performance_cases raises data [])
    as [(e & _ & Heq)|[(? & ? & ? & _ & _ & Heq)
       |(features & target & at_risk & Hdata & Hge & Heq)]];
    rewrite Heq in Hrun; [done|done|].
  destruct (attempt raises PerformancePredictor.script).2 eqn:He; [done|].
  apply (f_equal fst) in Hrun. cbn [fst] in Hrun.
  exists features, target, at_risk.
  split_and!; [done|lia|congruence|exact Hlog|].
  by apply attempt_none_raises.
Qed.

Lemma recommendation_complete_run raises len_X_train data r log :
  CourseRecommender.train_models raises len_X_train data []
    = (Return (Some r), log) →
  ∃ training_data,
    CourseRecommender._prepare_training_data data = Return training_data ∧
    10 ≤ length training_data ∧
    r = CourseRecommender.results (length training_data) ∧
    log = Call <$> CourseRecommender.script len_X_train ∧
    Forall (λ c, raises c = None) (CourseRecommender.script len_X_train).
Proof.
  intros Hrun.
  pose proof (recommendation_complete_log _ _ _ _ _ Hrun) as Hlog.
  destruct (recommendation_cases raises len_X_train data [])
    as [(e & _ & Heq)|[(? & _ & _ & Heq)|(frame & Hdata & Hge & Heq)]];
    rewrite Heq in Hrun; [done|done|].
  destruct (attempt raises (CourseRecommender.script len_X_train)).2 eqn:He;
    [done|].
  apply (f_equal fst) in Hrun. cbn [fst] in Hrun.
  exists frame.
  split_and!; [done|lia|congruence|exact Hlog|].
  by apply attempt_none_raises.
Qed.

(** A run that has exported passed the guard. *)
Lemma performance_export_guard raises data o log :
  PerformancePredictor.train_models raises data [] = (o, log) →
  PerformancePredictor.exported log ≠ [] →
  ∃ features target at_risk,
    DataPreprocessor.prepare_performance_data data
      = Return (features, target, at_risk) ∧
    10 ≤ length features.
Proof.
  intros Hrun Hexported.
  destruct (performance_cases raises data [])
    as [(e & _ & Heq)|[(? & ? & ? & _ & _ & Heq)
       |(features & target & at_risk & Hdata & Hge & _)]];
    [rewrite Heq in Hrun; by injection Hrun as <- <-..|].
  by exists features, target, at_risk.
Qed.

(** X10. A run of the performance trainer that reaches the export passed
    the guard with at least ten rows; by then every family has been fit,
    every estimator and the scaler have been written with [joblib.dump],
    and exactly one parameter document has been exported.  The same holds
    of a run of the recommendation trainer that returns results, which
    reports the number of rows as [samples_used]. *)
Theorem train_models_complete_run :
  (∀ raises data o log,
     PerformancePredictor.train_models raises data [] = (o, log) →
     PerformancePredictor.exported log ≠ [] →
     (∃ features target at_risk,
        DataPreprocessor.prepare_performance_data data
          = Return (features, target, at_risk) ∧
        10 ≤ length features) ∧
     PerformancePredictor.fitted log = PerformancePredictor.fit_order ∧
     PerformancePredictor.saved log
       = ["logistic_model"; "random_forest_classifier";
          "gradient_boosting_classifier"; "random_forest_regressor";
          "scaler"] ∧
     PerformancePredictor.exported log
       = [PerformancePredictor.model_parameters
            PerformancePredictor.feature_names]) ∧
  (∀ raises len_X_train data r log,
     CourseRecommender.train_models raises len_X_train data []
       = (Return (Some r), log) →
     (∃ training_data,
        CourseRecommender._prepare_training_data data = Return training_data ∧
        10 ≤ length training_data ∧
        ("samples_used", CourseRecommender.Len (length training_data)) ∈ r) ∧
     CourseRecommender.fitted log = CourseRecommender.fit_order len_X_train ∧
     CourseRecommender.saved log
       = ["knn_model"; "decision_tree_model"; "random_forest_model";
          "adaboost_model"; "nearest_neighbors"; "scaler"] ∧
     CourseRecommender.exported log
       = [CourseRecommender.model_parameters len_X_train
            CourseRecommender.feature_names]).
Proof.
  split.
  - intros raises data o log Hrun Hexported.
    split; [by eapply performance_export_guard|].
    destruct (performance_export_reached raises data o log Hrun Hexported)
      as [->| ->]; by vm_compute.
  - intros raises len_X_train data r log
      (training_data & Hdata & Hge & -> & -> & _)%recommendation_complete_run.
    split_and!; [|reflexivity..].
    exists training_data. split_and!; [done..|].
    unfold CourseRecommender.results.
    do 12 apply list_elem_of_further. apply list_elem_of_here.
Qed.

Lemma train_models_complete_run_witness :
  (∃ log,
     PerformancePredictor.train_models Scenario.plot_fails Sample.term []
       = (Raise (LibraryError "savefig"), log) ∧
     PerformancePredictor.exported log ≠ [] ∧
     PerformancePredictor.saved log
       = ["logistic_model"; "random_forest_classifier";
          "gradient_boosting_classifier"; "random_forest_regressor";
          "scaler"]) ∧
  (∃ r log,
     CourseRecommender.train_models (λ _, None) 9 Sample.term []
       = (Return (Some r), log) ∧
     ("samples_used", CourseRecommender.Len 12) ∈ r ∧
     CourseRecommender.saved log
       = ["knn_model"; "decision_tree_model"; "random_forest_model";
          "adaboost_model"; "nearest_neighbors"; "scaler"]).
Proof.
  destruct train_models_complete_run as [Hperf Hrec]. split.
  - eexists. split; [vm_compute; reflexivity|].
    assert (PerformancePredictor.exported
              (Call <$> take 34 PerformancePredictor.script) ≠ [])
      as Hexported by (by vm_compute).
    split; [exact Hexported|].
    by destruct (Hperf Scenario.plot_fails Sample.term _ _ eq_refl Hexported)
      as (_ & _ & Hsaved & _).
  - eexists _, _. split; [vm_compute; reflexivity|].
    destruct (Hrec (λ _, None) 9 Sample.term _ _ eq_refl)
      as ((training_data & Hdata & _ & Hsamples) & _ & Hsaved & _).
    split; [|exact Hsaved].
    vm_compute in Hdata. injection Hdata as <-. exact Hsamples.
Defined.

(** One position of a trainer's script, for facts that hold of every
    initial part of it. *)
Ltac script_position :=
  vm_compute; split_and!; intros; first [done|congruence].

(** X11. In every run, complete or not, the files are written in one
    order: no estimator is dumped before every family has been fit, and no
    parameter document is exported before every estimator and the scaler
    have been dumped.  A run that stops early can therefore leave model
    files without a parameter document, never the other way round. *)
Theorem train_models_artifact_order :
  (∀ raises data o log,
     PerformancePredictor.train_models raises data [] = (o, log) →
     (PerformancePredictor.saved log ≠ [] →
        PerformancePredictor.fitted log = PerformancePredictor.fit_order) ∧
     (PerformancePredictor.exported log ≠ [] →
        PerformancePredictor.saved log
          = ["logistic_model"; "random_forest_classifier";
             "gradient_boosting_classifier"; "random_forest_regressor";
             "scaler"])) ∧
  (∀ raises len_X_train data o log,
     CourseRecommender.train_models raises len_X_train data [] = (o, log) →
     (CourseRecommender.saved log ≠ [] →
        CourseRecommender.fitted log = CourseRecommender.fit_order len_X_train) ∧
     (CourseRecommender.exported log ≠ [] →
        CourseRecommender.saved log
          = ["knn_model"; "decision_tree_model"; "random_forest_model";
             "adaboost_model"; "nearest_neighbors"; "scaler"])).
Proof.
  split.
  - intros raises data o log
      [->|(returned & Hprefix & ->)]%performance_any_log.
    { script_position. }
    rewrite (prefix_take_length _ _ Hprefix).
    pose proof (prefix_length _ _ Hprefix) as Hlen.
    revert Hlen. generalize (length returned). intros n Hlen.
    vm_compute in Hlen.
    do 36 (destruct n as [|n]; [script_position|]).
    exfalso. lia.
  - intros raises len_X_train data o log
      [->|(returned & Hprefix & ->)]%recommendation_any_log.
    { script_position. }
    rewrite (prefix_take_length _ _ Hprefix).
    pose proof (prefix_length _ _ Hprefix) as Hlen.
    revert Hlen. generalize (length returned). intros n Hlen.
    vm_compute in Hlen.
    do 41 (destruct n as [|n]; [script_position|]).
    exfalso. lia.
Qed.

Lemma train_models_artifact_order_witness :
  ∃ o log,
    PerformancePredictor.train_models Scenario.export_fails Sample.term []
      = (o, log) ∧
    o = Raise (LibraryError "json.dump") ∧
    PerformancePredictor.saved log ≠ [] ∧
    PerformancePredictor.exported log = [] ∧
    PerformancePredictor.fitted log = PerformancePredictor.fit_order.
Proof.
  eexists _, _. split; [apply surjective_pairing|].
  assert (PerformancePredictor.saved
            (PerformancePredictor.train_models Scenario.export_fails
               Sample.term []).2 ≠ []) as Hsaved
    by (vm_compute; discriminate).
  split_and!; [vm_compute; reflexivity|exact Hsaved|vm_compute; reflexivity|].
  exact (proj1 (proj1 train_models_artifact_order Scenario.export_fails
                  Sample.term _ _ (surjective_pairing _)) Hsaved).
Defined.

(** X12. When only the plotting at the end of [train_models] fails, the
    caller gets that exception and no results, although by then every
    family is fit, every estimator and the scaler are written and the
    parameter document is exported. *)
Theorem train_models_plot_failure :
  (∀ raises data features target at_risk e,
     DataPreprocessor.prepare_performance_data data
       = Return (features, target, at_risk) →
     10 ≤ length features →
     raises PerformancePredictor._generate_visualizations = Some e →
     (∀ c, c ≠ PerformancePredictor._generate_visualizations →
           raises c = None) →
     ∃ log,
       PerformancePredictor.train_models raises data [] = (Raise e, log) ∧
       PerformancePredictor.fitted log = PerformancePredictor.fit_order ∧
       PerformancePredictor.saved log
         = ["logistic_model"; "random_forest_classifier";
            "gradient_boosting_classifier"; "random_forest_regressor";
            "scaler"] ∧
       PerformancePredictor.exported log
         = [PerformancePredictor.model_parameters
              PerformancePredictor.feature_names]) ∧
  (∀ raises len_X_train data training_data e,
     CourseRecommender._prepare_training_data data = Return training_data →
     10 ≤ length training_data →
     raises CourseRecommender._generate_visualizations = Some e →
     (∀ c, c ≠ CourseRecommender._generate_visualizations →
           raises c = None) →
     ∃ log,
       CourseRecommender.train_models raises len_X_train data []
         = (Raise e, log) ∧
       CourseRecommender.fitted log = CourseRecommender.fit_order len_X_train ∧
       CourseRecommender.saved log
         = ["knn_model"; "decision_tree_model"; "random_forest_model";
            "adaboost_model"; "nearest_neighbors"; "scaler"] ∧
       CourseRecommender.exported log
         = [CourseRecommender.model_parameters len_X_train
              CourseRecommender.feature_names]).
Proof.
  split.
  - intros raises data features target at_risk e Hdata Hge Hplot Hothers.
    assert (attempt raises PerformancePredictor.script
            = (take 34 PerformancePredictor.script, Some e)) as Hat.
    { change PerformancePredictor.script
        with (take 34 PerformancePredictor.script
                ++ PerformancePredictor._generate_visualizations :: []) at 1.
      apply attempt_raises_first; [exact Hplot|].
      vm_compute.
      repeat (apply Forall_cons; split; [apply Hothers; discriminate|]).
      by apply Forall_nil. }
    eexists. rewrite (performance_run raises data _ _ _ [] Hdata Hge), Hat.
    cbn [fst snd].
    split_and!; [reflexivity|vm_compute; reflexivity..].
  - intros raises len_X_train data training_data e Hdata Hge Hplot Hothers.
    assert (attempt raises (CourseRecommender.script len_X_train)
            = (take 39 (CourseRecommender.script len_X_train), Some e)) as Hat.
    { change (CourseRecommender.script len_X_train)
        with (take 39 (CourseRecommender.script len_X_train)
                ++ CourseRecommender._generate_visualizations :: []) at 1.
      apply attempt_raises_first; [exact Hplot|].
      vm_compute.
      repeat (apply Forall_cons; split; [apply Hothers; discriminate|]).
      by apply Forall_nil. }
    eexists.
    rewrite (recommendation_run raises len_X_train data _ [] Hdata Hge), Hat.
    cbn [fst snd].
    split_and!; [reflexivity|vm_compute; reflexivity..].
Qed.

Lemma train_models_plot_failure_witness :
  (∃ features target at_risk,
     DataPreprocessor.prepare_performance_data Sample.term
       = Return (features, target, at_risk) ∧
     10 ≤ length features) ∧
  (∃ training_data,
     CourseRecommender._prepare_training_data Sample.term
       = Return training_data ∧
     10 ≤ length training_data) ∧
  (∃ log,
     PerformancePredictor.train_models Scenario.plot_fails Sample.term []
       = (Raise (LibraryError "savefig"), log) ∧
     PerformancePredictor.exported log
       = [PerformancePredictor.model_parameters
            PerformancePredictor.feature_names]) ∧
  (∃ log,
     CourseRecommender.train_models Scenario.recommendation_plot_fails 9
       Sample.term [] = (Raise (LibraryError "savefig"), log) ∧
     CourseRecommender.exported log
       = [CourseRecommender.model_parameters 9
            CourseRecommender.feature_names]).
Proof.
  split_and!.
  - eexists _, _, _. split; [reflexivity|]. vm_compute. lia.
  - eexists. split; [reflexivity|]. vm_compute. lia.
  - destruct (proj1 train_models_plot_failure Scenario.plot_fails Sample.term
                _ _ _ (LibraryError "savefig") eq_refl)
      as (log & Hrun & _ & _ & Hexp);
      [vm_compute; lia|reflexivity| |by exists log].
    intros c Hc. destruct c; done.
  - destruct (proj2 train_models_plot_failure
                Scenario.recommendation_plot_fails 9 Sample.term
                _ (LibraryError "savefig") eq_refl)
      as (log & Hrun & _ & _ & Hexp);
      [vm_compute; lia|reflexivity| |by exists log].
    intros c Hc. destruct c; done.
Defined.

(** X13. Every metric in the dictionary that a trainer returns is
    computed, for the family it is reported for, in every run that reaches
    the export, and so before the dictionary can be returned.  The
    converse fails: the cross-validated F1 is computed, for two families
    of each trainer, and is in neither dictionary, and the precision, the
    recall and the F1 that the performance trainer computes for its
    classifiers are not in its dictionary. *)
Theorem train_models_results_computed :
  (∀ raises data o log,
     PerformancePredictor.train_models raises data [] = (o, log) →
     PerformancePredictor.exported log ≠ [] →
     (∀ n k f m,
        (k, PerformancePredictor.Metric f m) ∈ PerformancePredictor.results n →
        m ∈ PerformancePredictor.evaluated log f ∧
        m ≠ precision ∧ m ≠ recall ∧ m ≠ f1 ∧ m ≠ cv_f1) ∧
     Forall (λ m, m ∈ PerformancePredictor.evaluated log
                        PerformancePredictor.LogisticRegression)
       [precision; recall; f1; cv_f1] ∧
     cv_f1 ∈ PerformancePredictor.evaluated log
               PerformancePredictor.RandomForestClassifier) ∧
  (∀ raises len_X_train data r log,
     CourseRecommender.train_models raises len_X_train data []
       = (Return (Some r), log) →
     (∀ k f m, (k, CourseRecommender.Metric f m) ∈ r →
               m ∈ CourseRecommender.evaluated log f ∧ m ≠ cv_f1) ∧
     cv_f1 ∈ CourseRecommender.evaluated log
               CourseRecommender.KNeighborsClassifier ∧
     cv_f1 ∈ CourseRecommender.evaluated log
               CourseRecommender.DecisionTreeClassifier).
Proof.
  split.
  - intros raises data o log Hrun Hexported.
    destruct (performance_export_reached raises data o log Hrun Hexported)
      as [->| ->].
    all: split_and!;
      [|repeat (apply Forall_cons; split;
                [apply (bool_decide_unpack _); vm_compute; exact I|]);
        by apply Forall_nil
       |apply (bool_decide_unpack _); vm_compute; exact I].
    all: intros n k f m Hin; unfold PerformancePredictor.results in Hin;
      repeat (apply elem_of_cons in Hin as [Hin|Hin];
              [injection Hin as -> -> ->
               || discriminate Hin|]);
      try (by apply elem_of_nil in Hin);
      (split; [apply (bool_decide_unpack _); vm_compute; exact I
              |split_and!; discriminate]).
  - intros raises len_X_train data r log
      (training_data & _ & _ & -> & -> & _)%recommendation_complete_run.
    split_and!;
      [|apply (bool_decide_unpack _); vm_compute; exact I..].
    intros k f m Hin; unfold CourseRecommender.results in Hin;
      repeat (apply elem_of_cons in Hin as [Hin|Hin];
              [injection Hin as -> -> ->
               || discriminate Hin|]);
      try (by apply elem_of_nil in Hin);
      (split; [apply (bool_decide_unpack _); vm_compute; exact I
              |discriminate]).
Qed.

Lemma train_models_results_computed_witness :
  (∃ log,
     PerformancePredictor.train_models Scenario.plot_fails Sample.term []
       = (Raise (LibraryError "savefig"), log) ∧
     PerformancePredictor.exported log ≠ [] ∧
     mae ∈ PerformancePredictor.evaluated log
             PerformancePredictor.RandomForestRegressor ∧
     cv_f1 ∈ PerformancePredictor.evaluated log
               PerformancePredictor.RandomForestClassifier) ∧
  (∃ r log,
     CourseRecommender.train_models (λ _, None) 9 Sample.term []
       = (Return (Some r), log) ∧
     ("knn_f1",
      CourseRecommender.Metric CourseRecommender.KNeighborsClassifier f1) ∈ r ∧
     f1 ∈ CourseRecommender.evaluated log
            CourseRecommender.KNeighborsClassifier ∧
     cv_f1 ∈ CourseRecommender.evaluated log
               CourseRecommender.KNeighborsClassifier).
Proof.
  destruct train_models_results_computed as [Hperf Hrec]. split.
  - eexists. split; [vm_compute; reflexivity|].
    assert (PerformancePredictor.exported
              (Call <$> take 34 PerformancePredictor.script) ≠ [])
      as Hexported by (by vm_compute).
    split; [exact Hexported|].
    destruct (Hperf Scenario.plot_fails Sample.term _ _ eq_refl Hexported)
      as (Hresults & _ & Hcv).
    split; [|exact Hcv].
    apply (Hresults 12 "rf_regressor_mae").
    do 7 apply list_elem_of_further. apply list_elem_of_here.
  - eexists _, _. split; [vm_compute; reflexivity|].
    destruct (Hrec (λ _, None) 9 Sample.term _ _ eq_refl)
      as (Hresults & Hcv & _).
    assert (("knn_f1",
             CourseRecommender.Metric CourseRecommender.KNeighborsClassifier f1)
              ∈ CourseRecommender.results 12) as Hin.
    { apply list_elem_of_further, list_elem_of_here. }
    split_and!; [exact Hin| |exact Hcv].
    by apply (Hresults "knn_f1").
Defined.

(** X14. In the parameter document of the performance trainer the entry
    [training_samples] of [metadata] is the number of feature names, which
    is five, in every run that exports: it does not vary with the number
    of samples, which is at least ten and is what [samples_used]
    reports. *)
Theorem exported_training_samples :
  ∀ raises data o log params,
    PerformancePredictor.train_models raises data [] = (o, log) →
    params ∈ PerformancePredictor.exported log →
    (∃ features target at_risk,
       DataPreprocessor.prepare_performance_data data
         = Return (features, target, at_risk) ∧
       10 ≤ length features) ∧
    ∃ metadata,
      item params "metadata" = JDict metadata ∧
      item metadata "training_samples"
        = JInt (Z.of_nat (length PerformancePredictor.feature_names)) ∧
      item metadata "training_samples" = JInt 5 ∧
      item metadata "feature_names"
        = JList (JStr <$> PerformancePredictor.feature_names).
Proof.
  intros raises data o log params Hrun Hin.
  split.
  { apply (performance_export_guard raises data o log Hrun).
    intros Hnil. rewrite Hnil in Hin. by apply elem_of_nil in Hin. }
  apply performance_any_log in Hrun as [->|(returned & Hprefix & ->)].
  { vm_compute in Hin. by apply elem_of_nil in Hin. }
  rewrite (prefix_take_length _ _ Hprefix) in Hin.
  pose proof (prefix_length _ _ Hprefix) as Hlen.
  revert Hin Hlen. generalize (length returned). intros n Hin Hlen.
  vm_compute in Hlen.
  do 36 (destruct n as [|n];
         [vm_compute in Hin;
          first [by apply elem_of_nil in Hin
                |apply list_elem_of_singleton in Hin; subst params;
                 eexists; split_and!; vm_compute; reflexivity]|]).
  exfalso. lia.
Qed.

Lemma exported_training_samples_witness :
  ∃ o log params metadata,
    PerformancePredictor.train_models Scenario.plot_fails Sample.term []
      = (o, log) ∧
    params ∈ PerformancePredictor.exported log ∧
    (∃ features target at_risk,
       DataPreprocessor.prepare_performance_data Sample.term
         = Return (features, target, at_risk) ∧
       length features = 12) ∧
    item params "metadata" = JDict metadata ∧
    item metadata "training_samples" = JInt 5.
Proof.
  pose (run := PerformancePredictor.train_models Scenario.plot_fails
                 Sample.term []).
  assert (PerformancePredictor.model_parameters
            PerformancePredictor.feature_names
            ∈ PerformancePredictor.exported run.2) as Hin.
  { vm_compute. left. }
  destruct (exported_training_samples Scenario.plot_fails Sample.term
              run.1 run.2 _ (surjective_pairing run) Hin)
    as (_ & metadata & Hmeta & _ & Hfive & _).
  exists run.1, run.2,
    (PerformancePredictor.model_parameters PerformancePredictor.feature_names),
    metadata.
  split_and!; [exact (surjective_pairing run)|exact Hin|
               |exact Hmeta|exact Hfive].
  eexists _, _, _. split; reflexivity.
Defined.

(** X29. When the student, the grade or the course table fetched from
    the store has no row, the assembly of either trainer raises
    [KeyError] for the key column that the empty table lacks, and
    [train_models] ends with that exception ahead of its guard: it
    returns nothing, not even [None], and no library call is made. *)
Theorem train_models_empty_table (data : Data) :
  students data = [] ∨ grades data = [] ∨ courses data = [] →
  ∃ key,
    key ∈ ["id"; "student_id"] ∧
    DataPreprocessor.prepare_performance_data data = Raise (KeyError key) ∧
    CourseRecommender._prepare_training_data data = Raise (KeyError key) ∧
    (∀ raises,
       (PerformancePredictor.train_models raises data []).1
         = Raise (KeyError key) ∧
       PerformancePredictor.calls
         (PerformancePredictor.train_models raises data []).2 = []) ∧
    (∀ raises len_X_train,
       (CourseRecommender.train_models raises len_X_train data []).1
         = Raise (KeyError key) ∧
       CourseRecommender.calls
         (CourseRecommender.train_models raises len_X_train data []).2 = []).
Proof.
  intros Hempty.
  assert (∃ key, key ∈ ["id"; "student_id"] ∧
                 DataPreprocessor.merged_frame data = Raise (KeyError key))
    as (key & Hkey & Hmerged).
  { unfold DataPreprocessor.merged_frame.
    destruct (students data);
      [exists "id"; split; [apply list_elem_of_here|done]|].
    destruct (grades data);
      [exists "student_id";
       split; [apply list_elem_of_further, list_elem_of_here|done]|].
    destruct (courses data);
      [exists "id"; split; [apply list_elem_of_here|done]|].
    by destruct Hempty as [|[|]]. }
  assert (DataPreprocessor.prepare_performance_data data
          = Raise (KeyError key)) as Hperformance.
  { unfold DataPreprocessor.prepare_performance_data. by rewrite Hmerged. }
  assert (CourseRecommender._prepare_training_data data
          = Raise (KeyError key)) as Hrecommendation.
  { unfold CourseRecommender._prepare_training_data. by rewrite Hmerged. }
  exists key. split_and!; [done..| |].
  - intros raises. by rewrite (performance_raise raises data _ [] Hperformance).
  - intros raises len_X_train.
    by rewrite (recommendation_raise raises len_X_train data _ []
                  Hrecommendation).
Qed.

Lemma train_models_empty_table_witness :
  grades Sample.no_grades = [] ∧
  (PerformancePredictor.train_models (λ _, None) Sample.no_grades []).1
    = Raise (KeyError "student_id") ∧
  (CourseRecommender.train_models (λ _, None) 9 Sample.no_grades []).1
    = Raise (KeyError "student_id").
Proof.
  split; [reflexivity|].
  destruct (train_models_empty_table Sample.no_grades)
    as (key & _ & Hdata & _ & Hperformance & Hrecommendation);
    [right; by left|].
  vm_compute in Hdata. injection Hdata as <-.
  split.
  - exact (proj1 (Hperformance (λ _, None))).
  - exact (proj1 (Hrecommendation (λ _, None) 9)).
Defined.

(** ** Category codes *)

Section codes_facts.
Context {V : Type} `{EqDecision V} (le : relation V) `{!RelDecision le}.
Context `{!PartialOrder le} `{!Total le}.

Lemma elem_of_omap_present (x : V) (values : list (option V)) :
  x ∈ omap (λ v, v) values ↔ Some x ∈ values.
Proof.
  rewrite list_elem_of_omap. split.
  - by intros (v & Hv & ->).
  - intros Hx. by exists (Some x).
Qed.

Lemma elem_of_categories (x : V) (values : list (option V)) :
  x ∈ Categorical.categories le values ↔ Some x ∈ values.
Proof.
  unfold Categorical.categories.
  by rewrite merge_sort_Permutation, elem_of_remove_dups, elem_of_omap_present.
Qed.

Lemma categories_NoDup (values : list (option V)) :
  NoDup (Categorical.categories le values).
Proof.
  unfold Categorical.categories. rewrite merge_sort_Permutation.
  apply NoDup_remove_dups.
Qed.

Lemma categories_sorted (values : list (option V)) :
  StronglySorted le (Categorical.categories le values).
Proof. apply StronglySorted_merge_sort; apply _. Qed.

Lemma categories_length (values : list (option V)) :
  length (Categorical.categories le values)
    = length (remove_dups (omap (λ v, v) values)).
Proof.
  unfold Categorical.categories. by rewrite merge_sort_Permutation.
Qed.

Lemma code_lookup (cats : list V) (x : V) (n : nat) :
  NoDup cats → cats !! n = Some x →
  Categorical.code cats (Some x) = Z.of_nat n.
Proof.
  intros Hnd Hn. unfold Categorical.code.
  assert (list_find (λ y, y = x) cats = Some (n, x)) as ->; [|done].
  apply list_find_Some. split_and!; [done|done|].
  intros j y Hj Hlt ->. pose proof (NoDup_lookup _ _ _ _ Hnd Hj Hn). lia.
Qed.

Lemma sorted_lookup_le (l : list V) (i j : nat) (x y : V) :
  StronglySorted le l → l !! i = Some x → l !! j = Some y → i ≤ j → le x y.
Proof.
  intros Hsorted Hi Hj Hij.
  destruct (decide (i = j)) as [->|Hne].
  { rewrite Hi in Hj. injection Hj as ->. reflexivity. }
  rewrite <- (take_drop_middle l i x Hi) in Hsorted, Hj.
  apply StronglySorted_app_1_r, StronglySorted_cons in Hsorted as [Hall _].
  rewrite lookup_app_r in Hj by (rewrite length_take; lia).
  rewrite length_take_le in Hj by (apply lookup_lt_Some in Hi; lia).
  destruct (j - i) as [|k] eqn:Hk; [lia|]. simpl in Hj.
  rewrite Forall_forall in Hall. by eapply Hall, list_elem_of_lookup_2.
Qed.

End codes_facts.

(** X15. The codes of a column, as [pd.Categorical(...).codes] gives them
    to [encode_categorical_features]: one code per entry; [-1] for a
    missing entry; for a present entry the position of its value among the
    sorted distinct values, so that looking the code up in the categories
    gives the value back; two present entries have equal codes exactly
    when they have equal values and ordered codes exactly when the values
    are ordered; and the codes are dense, every number below the number
    of distinct values being the code of some entry. *)
Theorem codes_spec {V : Type} `{EqDecision V} (le : relation V)
    `{!RelDecision le} (Hpo : PartialOrder le) (Htotal : Total le)
    (values : list (option V)) :
  let cats := Categorical.categories le values in
  let cs := Categorical.codes le values in
  length cs = length values ∧
  length cats = length (remove_dups (omap (λ v, v) values)) ∧
  (∀ i, values !! i = Some None → cs !! i = Some (-1)%Z) ∧
  (∀ i x, values !! i = Some (Some x) →
     ∃ n, cs !! i = Some (Z.of_nat n) ∧ cats !! n = Some x) ∧
  (∀ i j x y cx cy,
     values !! i = Some (Some x) → values !! j = Some (Some y) →
     cs !! i = Some cx → cs !! j = Some cy →
     (cx = cy ↔ x = y) ∧ ((cx ≤ cy)%Z ↔ le x y)) ∧
  (∀ n, n < length cats → ∃ i, cs !! i = Some (Z.of_nat n)).
Proof.
  cbv zeta.
  pose proof (categories_NoDup le values) as Hnd.
  pose proof (categories_sorted le values) as Hsorted.
  assert (∀ i x, values !! i = Some (Some x) →
     ∃ n, Categorical.codes le values !! i = Some (Z.of_nat n) ∧
          Categorical.categories le values !! n = Some x) as Hpresent.
  { intros i x Hi.
    assert (x ∈ Categorical.categories le values) as Hx.
    { apply (elem_of_categories le). by eapply list_elem_of_lookup_2. }
    apply list_elem_of_lookup_1 in Hx as [n Hn]. exists n. split; [|done].
    unfold Categorical.codes. rewrite list_lookup_fmap, Hi. simpl.
    f_equal. by apply code_lookup. }
  split_and!.
  - unfold Categorical.codes. by rewrite length_fmap.
  - apply (categories_length le).
  - intros i Hi. unfold Categorical.codes. by rewrite list_lookup_fmap, Hi.
  - exact Hpresent.
  - intros i j x y cx cy Hi Hj Hcx Hcy.
    destruct (Hpresent i x Hi) as (n & Hn & Hnx).
    destruct (Hpresent j y Hj) as (m & Hm & Hmy).
    rewrite Hn in Hcx. rewrite Hm in Hcy.
    injection Hcx as <-. injection Hcy as <-. split.
    + split.
      * intros Heq. apply Nat2Z.inj in Heq as ->. congruence.
      * intros ->. f_equal. by eapply NoDup_lookup.
    + split.
      * intros Hle. eapply (sorted_lookup_le le); [done..|lia].
      * intros Hle. destruct (decide (n ≤ m)) as [|Hgt]; [lia|].
        assert (le y x) as Hyx
          by (eapply (sorted_lookup_le le); [done..|lia]).
        assert (x = y) as -> by (by apply (anti_symm le)).
        assert (n = m) as -> by (by eapply NoDup_lookup). lia.
  - intros n Hn. apply lookup_lt_is_Some in Hn as [x Hx].
    assert (Some x ∈ values) as Hin.
    { apply (elem_of_categories le). by eapply list_elem_of_lookup_2. }
    apply list_elem_of_lookup_1 in Hin as [i Hi]. exists i.
    destruct (Hpresent i x Hi) as (m & Hm & Hmx).
    assert (m = n) as -> by (by eapply NoDup_lookup). done.
Qed.

Lemma codes_spec_witness :
  let values := [Some "Physics"; Some "Biology"; None; Some "Physics";
                 Some "Art"] in
  Categorical.categories String.le values = ["Art"; "Biology"; "Physics"] ∧
  Categorical.codes String.le values = [2; 1; -1; 2; 0]%Z ∧
  (∀ n, n < length (Categorical.categories String.le values) →
     ∃ i, Categorical.codes String.le values !! i = Some (Z.of_nat n)).
Proof.
  split; [by vm_compute|]. split; [by vm_compute|].
  apply (codes_spec String.le String.le_po String.le_total).
Defined.

(** ** Encoding the columns of a frame *)

Lemma assign_names (col : string) (f : Categorical.column → Categorical.column)
    (df : Categorical.Frame) :
  (Categorical.assign col f df).*1 = df.*1.
Proof.
  unfold Categorical.assign. induction df as [|[name c] df IH]; [done|].
  cbn [fmap list_fmap]. cbn [fmap list_fmap] in IH. rewrite IH.
  by destruct (decide ((name, c).1 = col)).
Qed.

Lemma encode_categorical_features_fold (df : Categorical.Frame)
    (columns : list string) :
  Categorical.encode_categorical_features df columns
    = foldl (λ df_encoded col,
               Categorical.assign col Categorical.encode_column df_encoded)
        df columns.
Proof.
  unfold Categorical.encode_categorical_features.
  revert df. induction columns as [|col columns IH]; intros df; [done|].
  cbn [foldl]. rewrite <- IH. f_equal.
  destruct (decide (col ∈ df.*1)) as [|Hout]; [done|].
  unfold Categorical.assign. symmetry.
  rewrite <- (list_fmap_id df) at 2. apply list_fmap_ext.
  intros i [name c] Hi. cbn [fst snd].
  destruct (decide (name = col)) as [->|]; [|done].
  exfalso. apply Hout. apply list_elem_of_fmap. exists (col, c).
  split; [done|]. by eapply list_elem_of_lookup_2.
Qed.

(** X16. [encode_categorical_features] with a list of distinct column
    names replaces every column of the frame whose name is listed by its
    category codes and leaves every other column as it is; the columns
    keep their names and their order, and a listed name that is no column
    of the frame is skipped. *)
Theorem encode_categorical_features_spec (df : Categorical.Frame)
    (columns : list string) :
  NoDup columns →
  Categorical.encode_categorical_features df columns
    = (λ nc, if decide (nc.1 ∈ columns)
             then (nc.1, Categorical.encode_column nc.2) else nc) <$> df ∧
  (Categorical.encode_categorical_features df columns).*1 = df.*1.
Proof.
  intros Hnd. rewrite encode_categorical_features_fold.
  assert (foldl (λ df_encoded col,
               Categorical.assign col Categorical.encode_column df_encoded)
            df columns
          = (λ nc : string * Categorical.column,
               if decide (nc.1 ∈ columns)
               then (nc.1, Categorical.encode_column nc.2) else nc) <$> df)
    as ->.
  { revert df. induction Hnd as [|col columns Hout Hnd IH]; intros df.
    - cbn [foldl]. rewrite <- (list_fmap_id df) at 1.
      apply list_fmap_ext. intros i nc _.
      destruct (decide (nc.1 ∈ [])) as [Hin|]; [|done].
      by apply elem_of_nil in Hin.
    - cbn [foldl]. rewrite IH. unfold Categorical.assign.
      rewrite <- list_fmap_compose. apply list_fmap_ext.
      intros i [name c] _. cbn [compose fst snd].
      destruct (decide (name = col)) as [->|Hne].
      + cbn [fst snd].
        destruct (decide (col ∈ columns)) as [|_]; [done|].
        destruct (decide (col ∈ col :: columns)) as [|Hn]; [done|].
        exfalso. apply Hn. left.
      + cbn [fst snd].
        destruct (decide (name ∈ columns)) as [Hin|Hnin];
          destruct (decide (name ∈ col :: columns)) as [Hin'|Hnin'];
          [done| |  |done].
        * exfalso. apply Hnin'. by right.
        * exfalso. apply elem_of_cons in Hin' as [->|]; [by apply Hne|].
          by apply Hnin. }
  split; [done|].
  rewrite <- list_fmap_compose. apply list_fmap_ext.
  intros i [name c] _. cbn [compose fst snd].
  by destruct (decide (name ∈ columns)).
Qed.

Lemma encode_categorical_features_spec_witness :
  NoDup ["major"; "credits"; "missing"] ∧
  Categorical.encode_categorical_features Categorical.roster
    ["major"; "credits"; "missing"]
    = [("major", Categorical.Integers
                   [Some 2; Some 1; Some (-1); Some 2; Some 0]%Z);
       ("level", Categorical.Strings
                   [Some "Junior"; Some "Senior"; Some "Junior";
                    Some "Junior"; Some "Senior"]);
       ("credits", Categorical.Integers
                     [Some 0; Some 2; Some 0; Some 1; Some 2]%Z)].
Proof.
  assert (NoDup ["major"; "credits"; "missing"]) as Hnd.
  { apply (bool_decide_unpack _). vm_compute. exact I. }
  split; [exact Hnd|].
  destruct (encode_categorical_features_spec Categorical.roster
              ["major"; "credits"; "missing"] Hnd) as [-> _].
  by vm_compute.
Defined.

(** ** Encoding a column a second time *)

Lemma seqZ_sorted (m : Z) (k : nat) :
  StronglySorted Z.le (seqZ m (Z.of_nat k)).
Proof.
  revert m. induction k as [|k IH]; intros m.
  - rewrite seqZ_nil by done. constructor.
  - rewrite seqZ_cons by lia.
    replace (Z.pred (Z.of_nat (S k))) with (Z.of_nat k) by lia.
    constructor; [apply IH|].
    apply Forall_seqZ. intros z Hz. lia.
Qed.

Section codes_again.
Context {V : Type} `{EqDecision V} (le : relation V) `{!RelDecision le}.
Context `{!PartialOrder le} `{!Total le}.

Lemma elem_of_codes (z : Z) (values : list (option V)) :
  z ∈ Categorical.codes le values ↔
  (z = (-1)%Z ∧ None ∈ values) ∨
  (∃ n, z = Z.of_nat n ∧ n < length (Categorical.categories le values)).
Proof.
  pose proof (categories_NoDup le values) as Hnd.
  unfold Categorical.codes. rewrite list_elem_of_fmap. split.
  - intros ([x|] & -> & Hv).
    + right. apply (elem_of_categories le) in Hv.
      apply list_elem_of_lookup_1 in Hv as [n Hn]. exists n.
      split; [by apply code_lookup|]. by eapply lookup_lt_Some.
    + by left.
  - intros [[-> Hnone]|(n & -> & Hn)].
    + by exists None.
    + apply lookup_lt_is_Some in Hn as [x Hx]. exists (Some x). split.
      * symmetry. by apply code_lookup.
      * apply (elem_of_categories le). by eapply list_elem_of_lookup_2.
Qed.

Lemma categories_of_codes (values : list (option V)) :
  Categorical.categories Z.le (Some <$> Categorical.codes le values)
    = if decide (None ∈ values)
      then seqZ (-1) (Z.of_nat (S (length (Categorical.categories le values))))
      else seqZ 0 (Z.of_nat (length (Categorical.categories le values))).
Proof.
  assert (∀ z, z ∈ Categorical.categories Z.le
                     (Some <$> Categorical.codes le values)
               ↔ z ∈ Categorical.codes le values) as Hcats.
  { intros z. rewrite (elem_of_categories Z.le), list_elem_of_fmap. split.
    - by intros (z' & [= ->] & Hz).
    - intros Hz. by exists z. }
  destruct (decide (None ∈ values)) as [Hnone|Hnone];
    (apply (StronglySorted_unique Z.le);
     [apply categories_sorted; apply _
     |apply seqZ_sorted
     |apply NoDup_Permutation;
      [apply categories_NoDup; apply _|apply NoDup_seqZ|]]);
    intros z; rewrite Hcats, elem_of_codes, elem_of_seqZ; split.
  - intros [[-> _]|(n & -> & Hn)]; lia.
  - intros Hz. destruct (decide (z = (-1)%Z)) as [->|Hne]; [by left|].
    right. exists (Z.to_nat z). lia.
  - intros [[_ Hin]|(n & -> & Hn)]; [done|lia].
  - intros Hz. right. exists (Z.to_nat z). lia.
Qed.

Lemma codes_of_codes (values : list (option V)) :
  Categorical.codes Z.le (Some <$> Categorical.codes le values)
    = if decide (None ∈ values)
      then Z.succ <$> Categorical.codes le values
      else Categorical.codes le values.
Proof.
  unfold Categorical.codes at 1. rewrite categories_of_codes.
  rewrite <- list_fmap_compose.
  destruct (decide (None ∈ values)) as [Hnone|Hnone].
  - apply list_fmap_ext. intros i z Hz. cbn [compose].
    apply list_elem_of_lookup_2, elem_of_codes in Hz.
    replace (Z.succ z) with (Z.of_nat (Z.to_nat (z + 1)))
      by (destruct Hz as [[-> _]|(n & -> & _)]; lia).
    apply code_lookup; [apply NoDup_seqZ|].
    apply lookup_seqZ. destruct Hz as [[-> _]|(n & -> & Hn)]; lia.
  - transitivity ((λ z : Z, z) <$> Categorical.codes le values);
      [|exact (list_fmap_id _)].
    apply list_fmap_ext. intros i z Hz. cbn [compose].
    apply list_elem_of_lookup_2, elem_of_codes in Hz.
    destruct Hz as [[_ Hin]|(n & -> & Hn)]; [done|].
    apply code_lookup; [apply NoDup_seqZ|].
    apply lookup_seqZ. lia.
Qed.

End codes_again.

(** X17. A column name listed twice is encoded twice, the second time on
    the codes of the first.  For a column without a missing entry
    the second encoding changes nothing; for a column with a missing
    entry the code [-1] becomes a category of its own, so that every code
    is one more than before and the missing entries end with code [0]. *)
Theorem encode_categorical_features_repeated (df : Categorical.Frame)
    (col : string) :
  Categorical.encode_categorical_features df [col; col]
    = Categorical.assign col
        (Categorical.encode_column ∘ Categorical.encode_column) df ∧
  (∀ xs,
     Categorical.encode_column (Categorical.encode_column
                                  (Categorical.Strings xs))
       = Categorical.Integers
           (Some <$> (if decide (None ∈ xs)
                      then Z.succ <$> Categorical.codes String.le xs
                      else Categorical.codes String.le xs))) ∧
  (∀ xs,
     Categorical.encode_column (Categorical.encode_column
                                  (Categorical.Integers xs))
       = Categorical.Integers
           (Some <$> (if decide (None ∈ xs)
                      then Z.succ <$> Categorical.codes Z.le xs
                      else Categorical.codes Z.le xs))).
Proof.
  split_and!.
  - rewrite encode_categorical_features_fold. cbn [foldl].
    unfold Categorical.assign. rewrite <- list_fmap_compose.
    apply list_fmap_ext. intros i [name c] _. cbn [compose fst snd].
    destruct (decide (name = col)) as [->|Hne]; cbn [fst snd].
    + by destruct (decide (col = col)).
    + by destruct (decide (name = col)).
  - intros xs. cbn [Categorical.encode_column].
    by rewrite (codes_of_codes String.le).
  - intros xs. cbn [Categorical.encode_column].
    by rewrite (codes_of_codes Z.le).
Qed.

(** ** Stored estimators *)

Lemma performance_dumps_script :
  performance_dumps (Call <$> PerformancePredictor.script)
    = [("logistic_model", "ml_models/saved_models/logistic_model.pkl");
       ("random_forest_classifier",
        "ml_models/saved_models/rf_classifier.pkl");
       ("gradient_boosting_classifier",
        "ml_models/saved_models/gb_classifier.pkl");
       ("random_forest_regressor",
        "ml_models/saved_models/rf_regressor.pkl");
       ("scaler", "ml_models/saved_models/scaler.pkl")].
Proof. by vm_compute. Qed.

Lemma recommendation_dumps_script (len_X_train : nat) :
  recommendation_dumps (Call <$> CourseRecommender.script len_X_train)
    = [("knn_model", "ml_models/saved_models/knn_model.pkl");
       ("decision_tree_model",
        "ml_models/saved_models/decision_tree_model.pkl");
       ("random_forest_model",
        "ml_models/saved_models/random_forest_model.pkl");
       ("adaboost_model", "ml_models/saved_models/adaboost_model.pkl");
       ("nearest_neighbors",
        "ml_models/saved_models/nearest_neighbors.pkl");
       ("scaler", "ml_models/saved_models/recommendation_scaler.pkl")].
Proof. reflexivity. Qed.

(** [_load_models] stops at the first file that cannot be read and keeps
    the attributes it has assigned until then. *)
Lemma performance_load_models_run raises s log :
  let files := performance_dumps (Call <$> PerformancePredictor.script) in
  let tried := attempt raises (Estimators.joblib_load <$> files.*2) in
  Estimators.PerformancePredictor._load_models raises s log
    = (match tried.2 with
       | None => inl ()
       | Some e => inr (Estimators.Library e)
       end,
       Estimators.loaded (take (length tried.1) files) s,
       log ++ (Call <$> tried.1)).
Proof.
  cbv zeta. rewrite performance_dumps_script.
  unfold Estimators.PerformancePredictor._load_models, Estimators.load,
    Estimators.and_then, Estimators.library, Estimators.setattr.
  cbn [fmap list_fmap snd attempt].
  repeat (match goal with
          | |- context [raises ?c] => destruct (raises c)
          end;
          [by rewrite <- ?app_assoc, ?app_nil_r|]).
  by rewrite <- ?app_assoc.
Qed.

Lemma recommendation_load_models_run raises len_X_train s log :
  let files :=
    recommendation_dumps (Call <$> CourseRecommender.script len_X_train) in
  let tried := attempt raises (Estimators.joblib_load <$> files.*2) in
  Estimators.CourseRecommender._load_models raises s log
    = (match tried.2 with
       | None => inl ()
       | Some e => inr (Estimators.Library e)
       end,
       Estimators.loaded (take (length tried.1) files) s,
       log ++ (Call <$> tried.1)).
Proof.
  cbv zeta. rewrite recommendation_dumps_script.
  unfold Estimators.CourseRecommender._load_models, Estimators.load,
    Estimators.and_then, Estimators.library, Estimators.setattr.
  cbn [fmap list_fmap snd attempt].
  repeat (match goal with
          | |- context [raises ?c] => destruct (raises c)
          end;
          [by rewrite <- ?app_assoc, ?app_nil_r|]).
  by rewrite <- ?app_assoc.
Qed.

Lemma attempt_all_return {call : Type} (raises : call → option exn)
    (cs : list call) :
  Forall (λ c, raises c = None) cs → attempt raises cs = (cs, None).
Proof.
  induction 1 as [|c cs Hc _ IH]; [done|].
  cbn [attempt]. by rewrite Hc, IH.
Qed.

Lemma loaded_lookup (fs : list (string * string)) (s : Estimators.self) :
  NoDup fs.*1 →
  (∀ a p, (a, p) ∈ fs →
     Estimators.loaded fs s !! a = Some (Estimators.Loaded p)) ∧
  (∀ a, a ∉ fs.*1 → Estimators.loaded fs s !! a = s !! a).
Proof.
  unfold Estimators.loaded. revert s.
  induction fs as [|[a0 p0] fs IH]; intros s Hnd.
  { split; [by intros a p ?%elem_of_nil|done]. }
  apply NoDup_cons in Hnd as [Hout Hnd]. cbn [fmap list_fmap fst] in Hout.
  destruct (IH (<[a0 := Estimators.Loaded p0]> s) Hnd) as [IHin IHout].
  cbn [foldl fst snd]. split.
  - intros a p [[= -> ->]|Hin]%elem_of_cons.
    + rewrite IHout by done. apply lookup_insert_eq.
    + by apply IHin.
  - intros a Ha. cbn [fmap list_fmap fst] in Ha.
    apply not_elem_of_cons in Ha as [Hne Ha].
    rewrite IHout by done. by apply lookup_insert_ne.
Qed.

(** X18. [_load_models] reads back what [_save_models] wrote: when every
    file can be read, each attribute that a training run dumps is
    assigned the object loaded from the file it was dumped to, the files
    are read in the order they were written, and no other attribute is
    assigned.  This holds for both trainers. *)
Theorem load_models_reads_saved_files :
  (∀ raises s log,
     let files := performance_dumps (Call <$> PerformancePredictor.script) in
     Forall (λ f, raises (Estimators.joblib_load f.2) = None) files →
     Estimators.PerformancePredictor._load_models raises s log
       = (inl (), Estimators.loaded files s,
          log ++ (Call <$> (Estimators.joblib_load <$> files.*2))) ∧
     (∀ a p, (a, p) ∈ files →
        Estimators.loaded files s !! a = Some (Estimators.Loaded p)) ∧
     (∀ a, a ∉ files.*1 → Estimators.loaded files s !! a = s !! a)) ∧
  (∀ raises len_X_train s log,
     let files :=
       recommendation_dumps (Call <$> CourseRecommender.script len_X_train) in
     Forall (λ f, raises (Estimators.joblib_load f.2) = None) files →
     Estimators.CourseRecommender._load_models raises s log
       = (inl (), Estimators.loaded files s,
          log ++ (Call <$> (Estimators.joblib_load <$> files.*2))) ∧
     (∀ a p, (a, p) ∈ files →
        Estimators.loaded files s !! a = Some (Estimators.Loaded p)) ∧
     (∀ a, a ∉ files.*1 → Estimators.loaded files s !! a = s !! a)).
Proof.
  split.
  - intros raises s log files Hall.
    assert (attempt raises (Estimators.joblib_load <$> files.*2)
            = (Estimators.joblib_load <$> files.*2, None)) as Htried.
    { apply attempt_all_return. rewrite <- list_fmap_compose.
      by apply Forall_fmap. }
    split.
    + rewrite performance_load_models_run. fold files. rewrite Htried.
      cbn [fst snd]. rewrite !length_fmap. by rewrite firstn_all.
    + apply loaded_lookup. subst files. rewrite performance_dumps_script.
      apply (bool_decide_unpack _). by vm_compute.
  - intros raises len_X_train s log files Hall.
    assert (attempt raises (Estimators.joblib_load <$> files.*2)
            = (Estimators.joblib_load <$> files.*2, None)) as Htried.
    { apply attempt_all_return. rewrite <- list_fmap_compose.
      by apply Forall_fmap. }
    split.
    + rewrite (recommendation_load_models_run raises len_X_train).
      fold files. rewrite Htried.
      cbn [fst snd]. rewrite !length_fmap. by rewrite firstn_all.
    + apply loaded_lookup. subst files.
      rewrite recommendation_dumps_script.
      apply (bool_decide_unpack _). by vm_compute.
Qed.

Lemma load_models_reads_saved_files_witness :
  Estimators.PerformancePredictor._load_models (λ _, None)
    Estimators.PerformancePredictor.__init__ []
  = (inl (),
     Estimators.loaded
       (performance_dumps (Call <$> PerformancePredictor.script))
       Estimators.PerformancePredictor.__init__,
     Call <$> (Estimators.joblib_load
                 <$> (performance_dumps
                        (Call <$> PerformancePredictor.script)).*2)) ∧
  Estimators.loaded
    (performance_dumps (Call <$> PerformancePredictor.script))
    Estimators.PerformancePredictor.__init__ !! "scaler"
  = Some (Estimators.Loaded "ml_models/saved_models/scaler.pkl").
Proof.
  destruct load_models_reads_saved_files as [Hperformance _].
  destruct (Hperformance (λ _, None)
              Estimators.PerformancePredictor.__init__ [])
    as (Hrun & Hin & _).
  { by apply Forall_forall. }
  split; [exact Hrun|].
  apply Hin. rewrite performance_dumps_script.
  do 4 apply list_elem_of_further. apply list_elem_of_here.
Defined.

(** ** Predicting with the stored estimators *)

Section reads_only.
Context (raises : Estimators.call → option exn).

Lemma reads_only_pure {A} (a : A) :
  Estimators.reads_only (Estimators.pure a).
Proof.
  intros s log. split; [done|]. exists []. split.
  - cbn. by rewrite app_nil_r.
  - intros path Hin. by apply elem_of_nil in Hin.
Qed.

Lemma reads_only_raise {A} (e : Estimators.raised) :
  Estimators.reads_only (@Estimators.raise A e).
Proof.
  intros s log. split; [done|]. exists []. split.
  - cbn. by rewrite app_nil_r.
  - intros path Hin. by apply elem_of_nil in Hin.
Qed.

Lemma reads_only_getattr (name : string) :
  Estimators.reads_only (Estimators.getattr name).
Proof.
  intros s log. unfold Estimators.getattr.
  destruct (s !! name); (split; [done|]); exists []; cbn;
    (split; [by rewrite app_nil_r|]);
    intros path Hin; by apply elem_of_nil in Hin.
Qed.

Lemma reads_only_library (c : Estimators.call) :
  (∀ path, c ≠ Estimators.joblib_load path) →
  Estimators.reads_only (Estimators.library raises c).
Proof.
  intros Hc s log. unfold Estimators.library.
  destruct (raises c); (split; [done|]).
  - exists []. cbn. split; [by rewrite app_nil_r|].
    intros path Hin. by apply elem_of_nil in Hin.
  - exists [c]. cbn. split; [done|].
    intros path Hin%list_elem_of_singleton. by eapply Hc.
Qed.

Lemma reads_only_and_then {A B} (m : Estimators.method A)
    (k : A → Estimators.method B) :
  Estimators.reads_only m → (∀ a, Estimators.reads_only (k a)) →
  Estimators.reads_only (Estimators.and_then m k).
Proof.
  intros Hm Hk s log. unfold Estimators.and_then.
  destruct (Hm s log) as (Hs & calls & Hlog & Hcalls).
  destruct (m s log) as [[[a|e] s'] log']; cbn [fst snd] in *; subst.
  - destruct (Hk a s (log ++ (Call <$> calls)))
      as (Hs' & calls' & Hlog' & Hcalls').
    split; [done|]. exists (calls ++ calls'). split.
    + by rewrite Hlog', fmap_app, app_assoc.
    + intros path [Hin|Hin]%elem_of_app; [by eapply Hcalls|by eapply Hcalls'].
  - split; [done|]. exists calls. by split.
Qed.

Lemma reads_only_on (name member : string)
    (c : Estimators.object → Estimators.call) :
  (∀ o path, c o ≠ Estimators.joblib_load path) →
  Estimators.reads_only (Estimators.on raises name member c).
Proof.
  intros Hc. unfold Estimators.on.
  apply reads_only_and_then; [apply reads_only_getattr|].
  intros [|class_name|class_name|path];
    [apply reads_only_raise|apply reads_only_raise|..];
    by apply reads_only_library.
Qed.

End reads_only.

Section steps.
Context (raises : Estimators.call → option exn).
Context {A B : Type} (k : A → Estimators.method B).
Context (s : Estimators.self) (log : list (effect Estimators.call)).

Lemma step_pure (a : A) :
  Estimators.and_then (Estimators.pure a) k s log = k a s log.
Proof. done. Qed.

End steps.

Section attribute_steps.
Context (raises : Estimators.call → option exn).
Context {B : Type}.
Context (s : Estimators.self) (log : list (effect Estimators.call)).

Lemma step_getattr (name : string) (o : Estimators.object)
    (k : Estimators.object → Estimators.method B) :
  s !! name = Some o →
  Estimators.and_then (Estimators.getattr name) k s log = k o s log.
Proof.
  intros Ho. unfold Estimators.and_then, Estimators.getattr. by rewrite Ho.
Qed.

Lemma step_library_return (c : Estimators.call)
    (k : Estimators.call → Estimators.method B) :
  raises c = None →
  Estimators.and_then (Estimators.library raises c) k s log
    = k c s (log ++ [Call c]).
Proof.
  intros Hc. unfold Estimators.and_then, Estimators.library. by rewrite Hc.
Qed.

Lemma step_library_raise (c : Estimators.call) (e : exn)
    (k : Estimators.call → Estimators.method B) :
  raises c = Some e →
  Estimators.and_then (Estimators.library raises c) k s log
    = (inr (Estimators.Library e), s, log).
Proof.
  intros Hc. unfold Estimators.and_then, Estimators.library. by rewrite Hc.
Qed.

Lemma step_on_held (name member : string)
    (c : Estimators.object → Estimators.call) (o : Estimators.object)
    (k : Estimators.call → Estimators.method B) :
  s !! name = Some o → Estimators.is_fitted o →
  Estimators.and_then (Estimators.on raises name member c) k s log
    = Estimators.and_then (Estimators.library raises (c o)) k s log.
Proof.
  intros Ho Hfitted.
  unfold Estimators.on, Estimators.and_then at 1 2, Estimators.getattr.
  rewrite Ho. by destruct o.
Qed.

Lemma step_on_unfitted (name member : string)
    (c : Estimators.object → Estimators.call) (o : Estimators.object)
    (k : Estimators.call → Estimators.method B) :
  s !! name = Some o → o ≠ Estimators.NoneType →
  ¬ Estimators.is_fitted o →
  Estimators.and_then (Estimators.on raises name member c) k s log
    = (inr Estimators.NotFittedError, s, log).
Proof.
  intros Ho Hheld Hunfitted.
  unfold Estimators.on, Estimators.and_then, Estimators.getattr.
  rewrite Ho. destruct o; [done|done|by destruct Hunfitted; exact I..].
Qed.

Lemma step_on_none (name member : string)
    (c : Estimators.object → Estimators.call)
    (k : Estimators.call → Estimators.method B) :
  s !! name = Some Estimators.NoneType →
  Estimators.and_then (Estimators.on raises name member c) k s log
    = (inr (Estimators.AttributeError member), s, log).
Proof.
  intros Ho.
  unfold Estimators.on, Estimators.and_then, Estimators.getattr.
  by rewrite Ho.
Qed.

Lemma step_on_absent (name member : string)
    (c : Estimators.object → Estimators.call)
    (k : Estimators.call → Estimators.method B) :
  s !! name = None →
  Estimators.and_then (Estimators.on raises name member c) k s log
    = (inr (Estimators.AttributeError name), s, log).
Proof.
  intros Ho.
  unfold Estimators.on, Estimators.and_then, Estimators.getattr.
  by rewrite Ho.
Qed.

End attribute_steps.

(** One step of a method on known attributes: the attribute read or the
    library call at its head is resolved, by cases on what it finds. *)
Ltac held_attribute H Hfitted :=
  rewrite (step_on_held _ _ _ _ _ _ _ _ H Hfitted).

Ltac fitted_attribute o H Hheld :=
  let Hfitted := fresh "Hfitted" in
  destruct (decide (Estimators.is_fitted o)) as [Hfitted|Hfitted];
    [|by rewrite (step_on_unfitted _ _ _ _ _ _ _ _ H Hheld Hfitted)];
  held_attribute H Hfitted.

Ltac attribute s name o H Hheld :=
  destruct (s !! name) as [o|] eqn:H;
    [|by rewrite (step_on_absent _ _ _ _ _ _ _ H)];
  destruct (decide (o = Estimators.NoneType)) as [->|Hheld];
    [by rewrite (step_on_none _ _ _ _ _ _ _ H)|];
  fitted_attribute o H Hheld.

Ltac library_call raises :=
  match goal with
  | |- context [Estimators.library raises ?c] =>
      let H := fresh "Hcall" in
      destruct (raises c) eqn:H;
        [by rewrite (step_library_raise _ _ _ _ _ _ H)
        |rewrite (step_library_return _ _ _ _ _ H)]
  end.

(** A call of [predict_performance] that finds a logistic model goes
    on without [_load_models]. *)
Lemma predict_performance_reads_only raises
    (s : Estimators.self) log (logistic_model : Estimators.object) :
  s !! "logistic_model" = Some logistic_model →
  logistic_model ≠ Estimators.NoneType →
  let run := Estimators.PerformancePredictor.predict_performance raises s log
  in
  run.1.2 = s ∧
  (∃ calls, run.2 = log ++ (Call <$> calls) ∧
            ∀ path, Estimators.joblib_load path ∉ calls).
Proof.
  intros Hlogistic Hheld run.
  assert (∃ m, Estimators.reads_only m ∧ run = m s log)
    as (m & Hreads & Hrun).
  { subst run. unfold Estimators.PerformancePredictor.predict_performance.
    unfold Estimators.and_then at 1. unfold Estimators.getattr at 1.
    rewrite Hlogistic. cbv beta iota.
    match goal with
    | |- context [Estimators.and_then ?m ?k s log] =>
        assert (m = Estimators.pure ()) as ->
          by (by destruct logistic_model);
        exists (Estimators.and_then (Estimators.pure ()) k)
    end.
    split; [|done].
    apply reads_only_and_then; [apply reads_only_pure|]. intros _.
    repeat (apply reads_only_and_then;
            [first [by apply reads_only_on|by apply reads_only_library]|];
            intros ?).
    apply reads_only_pure. }
  destruct (Hreads s log) as [Hsame Hcalls]. rewrite <- Hrun in Hsame, Hcalls.
  by split.
Qed.

(** What such a call returns, when it returns. *)
Lemma predict_performance_result raises
    (s : Estimators.self) log (logistic_model : Estimators.object) :
  s !! "logistic_model" = Some logistic_model →
  logistic_model ≠ Estimators.NoneType →
  let run := Estimators.PerformancePredictor.predict_performance raises s log
  in
  ∀ result, run.1.1 = inl result →
    ∃ scaler regressor classifier,
      s !! "scaler" = Some scaler ∧ scaler ≠ Estimators.NoneType ∧
      s !! "random_forest_regressor" = Some regressor ∧
      regressor ≠ Estimators.NoneType ∧
      s !! "random_forest_classifier" = Some classifier ∧
      classifier ≠ Estimators.NoneType ∧
      Call (Estimators.transform scaler) ∈ run.2 ∧
      result =
        [("predicted_grade",
          Estimators.item_0 (Estimators.predict regressor));
         ("at_risk",
          Estimators.item_0 (Estimators.predict logistic_model));
         ("risk_probability",
          Estimators.item_0
            (Estimators.column_1
               (Estimators.predict_proba logistic_model)));
         ("feature_importance",
          Estimators.feature_importances_ classifier)].
Proof.
  intros Hlogistic Hheld run. subst run.
  unfold Estimators.PerformancePredictor.predict_performance.
  rewrite (step_getattr _ _ _ _ _ Hlogistic).
  match goal with
  | |- context [Estimators.and_then ?m ?k s log] =>
      assert (m = Estimators.pure ()) as -> by (by destruct logistic_model)
  end.
  rewrite step_pure. intros result.
  attribute s "scaler" scaler Hscaler Hscaler'.
  library_call raises.
  fitted_attribute logistic_model Hlogistic Hheld. library_call raises.
  library_call raises.
  held_attribute Hlogistic Hfitted0. library_call raises.
  attribute s "random_forest_regressor" regressor Hregressor Hregressor'.
  library_call raises.
  attribute s "random_forest_classifier" classifier Hclassifier Hclassifier'.
  library_call raises.
  library_call raises. library_call raises. library_call raises.
  cbn [Estimators.pure fst snd]. intros [= <-].
  exists scaler, regressor, classifier.
  split_and!; [done..| |done].
  rewrite !elem_of_app, !list_elem_of_singleton. tauto.
Qed.

(** X19. [predict_performance] on a predictor whose [logistic_model] is
    not [None] reads no file and assigns no attribute, whatever happens
    during the call.  When it returns, the scaler, the regressor and the
    forest classifier held by the predictor were not [None] either, and
    the four entries of the result come from them and from the logistic
    model: the gradient boosting classifier takes no part. *)
Theorem predict_performance_uses_held_estimators raises
    (s : Estimators.self) log (logistic_model : Estimators.object) :
  s !! "logistic_model" = Some logistic_model →
  logistic_model ≠ Estimators.NoneType →
  let run := Estimators.PerformancePredictor.predict_performance raises s log
  in
  run.1.2 = s ∧
  (∃ calls, run.2 = log ++ (Call <$> calls) ∧
            ∀ path, Estimators.joblib_load path ∉ calls) ∧
  (∀ result, run.1.1 = inl result →
     ∃ scaler regressor classifier,
       s !! "scaler" = Some scaler ∧ scaler ≠ Estimators.NoneType ∧
       s !! "random_forest_regressor" = Some regressor ∧
       regressor ≠ Estimators.NoneType ∧
       s !! "random_forest_classifier" = Some classifier ∧
       classifier ≠ Estimators.NoneType ∧
       Call (Estimators.transform scaler) ∈ run.2 ∧
       result =
         [("predicted_grade",
           Estimators.item_0 (Estimators.predict regressor));
          ("at_risk",
           Estimators.item_0 (Estimators.predict logistic_model));
          ("risk_probability",
           Estimators.item_0
             (Estimators.column_1
                (Estimators.predict_proba logistic_model)));
          ("feature_importance",
           Estimators.feature_importances_ classifier)]).
Proof.
  intros Hlogistic Hheld run.
  destruct (predict_performance_reads_only raises s log logistic_model
              Hlogistic Hheld) as [Hsame Hcalls].
  split; [exact Hsame|]. split; [exact Hcalls|].
  exact (predict_performance_result raises s log logistic_model
           Hlogistic Hheld).
Qed.

Lemma predict_performance_uses_held_estimators_witness :
  let s := Estimators.loaded
             (performance_dumps (Call <$> PerformancePredictor.script))
             Estimators.PerformancePredictor.__init__ in
  (Estimators.PerformancePredictor.predict_performance (λ _, None) s []).1.2
    = s.
Proof.
  intros s.
  apply (predict_performance_uses_held_estimators (λ _, None) s []
           (Estimators.Loaded "ml_models/saved_models/logistic_model.pkl")).
  - by vm_compute.
  - discriminate.
Defined.

(** ** The first call of [predict_performance] *)

Lemma attempt_raised_early {call : Type} (raises : call → option exn)
    (cs : list call) (e : exn) :
  (attempt raises cs).2 = Some e →
  length (attempt raises cs).1 < length cs.
Proof.
  induction cs as [|c cs IH]; cbn [attempt]; [done|].
  destruct (raises c); cbn [fst snd length]; [lia|].
  destruct (attempt raises cs) as [returned e']. cbn [fst snd length] in *.
  intros He. specialize (IH He). lia.
Qed.

Lemma loaded_object_held (path : string) :
  Estimators.is_fitted (Estimators.Loaded path).
Proof. exact I. Qed.

Lemma loaded_object_not_None (path : string) :
  Estimators.Loaded path ≠ Estimators.NoneType.
Proof. done. Qed.

(** A call that finds no logistic model starts with [_load_models], and
    goes on only when every file could be read. *)
Lemma predict_performance_loads raises (s : Estimators.self) log :
  s !! "logistic_model" = Some Estimators.NoneType →
  let files := performance_dumps (Call <$> PerformancePredictor.script) in
  let tried := attempt raises (Estimators.joblib_load <$> files.*2) in
  (tried.2 = None →
   Estimators.PerformancePredictor.predict_performance raises s log
     = Estimators.PerformancePredictor.predict_performance raises
         (Estimators.loaded files s)
         (log ++ (Call <$> (Estimators.joblib_load <$> files.*2)))) ∧
  (∀ e, tried.2 = Some e →
   Estimators.PerformancePredictor.predict_performance raises s log
     = (inr (Estimators.Library e),
        Estimators.loaded (take (length tried.1) files) s,
        log ++ (Call <$> tried.1))).
Proof.
  intros Hnone files tried.
  pose proof (performance_load_models_run raises s log) as Hload.
  cbv zeta in Hload. fold files in Hload. fold tried in Hload.
  split.
  - intros Hall.
    pose proof (attempt_complete raises _ Hall) as Hreturned.
    fold tried in Hreturned.
    rewrite Hall, Hreturned in Hload.
    rewrite !length_fmap, firstn_all in Hload.
    assert (Estimators.loaded files s !! "logistic_model"
            = Some (Estimators.Loaded
                      "ml_models/saved_models/logistic_model.pkl"))
      as Hloaded.
    { apply loaded_lookup.
      - subst files. rewrite performance_dumps_script.
        apply (bool_decide_unpack _). by vm_compute.
      - subst files. rewrite performance_dumps_script.
        apply list_elem_of_here. }
    unfold Estimators.PerformancePredictor.predict_performance.
    rewrite (step_getattr _ _ _ _ _ Hnone).
    rewrite (step_getattr _ _ _ _ _ Hloaded).
    cbv beta iota. rewrite step_pure.
    unfold Estimators.and_then at 1. by rewrite Hload.
  - intros e He. rewrite He in Hload.
    unfold Estimators.PerformancePredictor.predict_performance.
    rewrite (step_getattr _ _ _ _ _ Hnone).
    cbv beta iota. unfold Estimators.and_then at 1. by rewrite Hload.
Qed.

(** X20. The first call of [predict_performance] on a predictor whose
    logistic model is [None] loads the five saved files and then goes on
    as a call on the loaded predictor: it leaves the five attributes
    loaded, reads each file once, and cannot end in an
    [AttributeError].  When a file cannot be read the call ends with that
    exception, keeping the attributes loaded before it. *)
Theorem predict_performance_first_call raises (s : Estimators.self) log :
  s !! "logistic_model" = Some Estimators.NoneType →
  let files := performance_dumps (Call <$> PerformancePredictor.script) in
  let tried := attempt raises (Estimators.joblib_load <$> files.*2) in
  let run := Estimators.PerformancePredictor.predict_performance raises s log
  in
  (tried.2 = None →
   run = Estimators.PerformancePredictor.predict_performance raises
           (Estimators.loaded files s)
           (log ++ (Call <$> (Estimators.joblib_load <$> files.*2))) ∧
   run.1.2 = Estimators.loaded files s ∧
   (∃ calls,
      run.2 = log ++ (Call <$> (Estimators.joblib_load <$> files.*2))
                  ++ (Call <$> calls) ∧
      ∀ path, Estimators.joblib_load path ∉ calls) ∧
   ∀ name, run.1.1 ≠ inr (Estimators.AttributeError name)) ∧
  (∀ e, tried.2 = Some e →
   run = (inr (Estimators.Library e),
          Estimators.loaded (take (length tried.1) files) s,
          log ++ (Call <$> tried.1))).
Proof.
  intros Hnone files tried run.
  destruct (predict_performance_loads raises s log Hnone)
    as [Hall Hfail].
  fold files in Hall, Hfail. fold tried in Hall, Hfail.
  split; [|exact Hfail].
  intros Hnone'. specialize (Hall Hnone'). fold run in Hall.
  assert (NoDup files.*1) as Hnd.
  { subst files. rewrite performance_dumps_script.
    apply (bool_decide_unpack _). by vm_compute. }
  destruct (loaded_lookup files s Hnd) as [Hin _].
  assert (∀ a p, (a, p) ∈ files →
            Estimators.loaded files s !! a = Some (Estimators.Loaded p)
            ∧ Estimators.Loaded p ≠ Estimators.NoneType) as Hheld.
  { intros a p Hap. split; [by apply Hin|done]. }
  assert (files
    = [("logistic_model", "ml_models/saved_models/logistic_model.pkl");
       ("random_forest_classifier",
        "ml_models/saved_models/rf_classifier.pkl");
       ("gradient_boosting_classifier",
        "ml_models/saved_models/gb_classifier.pkl");
       ("random_forest_regressor",
        "ml_models/saved_models/rf_regressor.pkl");
       ("scaler", "ml_models/saved_models/scaler.pkl")]) as Hfiles
    by apply performance_dumps_script.
  destruct (Hheld "logistic_model"
              "ml_models/saved_models/logistic_model.pkl")
    as [Hlogistic Hlogistic'].
  { rewrite Hfiles. apply list_elem_of_here. }
  destruct (Hheld "random_forest_classifier"
              "ml_models/saved_models/rf_classifier.pkl")
    as [Hclassifier Hclassifier'].
  { rewrite Hfiles. apply list_elem_of_further, list_elem_of_here. }
  destruct (Hheld "random_forest_regressor"
              "ml_models/saved_models/rf_regressor.pkl")
    as [Hregressor Hregressor'].
  { rewrite Hfiles. do 3 apply list_elem_of_further. apply list_elem_of_here. }
  destruct (Hheld "scaler" "ml_models/saved_models/scaler.pkl")
    as [Hscaler Hscaler'].
  { rewrite Hfiles. do 4 apply list_elem_of_further. apply list_elem_of_here. }
  clear Hheld Hin.
  destruct (predict_performance_reads_only raises (Estimators.loaded files s)
              (log ++ (Call <$> (Estimators.joblib_load <$> files.*2)))
              _ Hlogistic Hlogistic') as (Hsame & Hcalls).
  rewrite <- Hall in Hsame, Hcalls.
  split_and!; [done|exact Hsame| |].
  - destruct Hcalls as (calls & Hlog & Hcalls). exists calls.
    split; [|done]. by rewrite Hlog, <- app_assoc.
  - intros name. rewrite Hall. clear Hsame Hcalls Hall run.
    generalize (log ++ (Call <$> (Estimators.joblib_load <$> files.*2))).
    generalize dependent (Estimators.loaded files s).
    clear. intros s Hlogistic Hclassifier Hregressor Hscaler log.
    unfold Estimators.PerformancePredictor.predict_performance.
    rewrite (step_getattr _ _ _ _ _ Hlogistic).
    cbv beta iota. rewrite step_pure.
    held_attribute Hscaler (loaded_object_held
                              "ml_models/saved_models/scaler.pkl").
    library_call raises.
    held_attribute Hlogistic
      (loaded_object_held "ml_models/saved_models/logistic_model.pkl").
    library_call raises. library_call raises.
    held_attribute Hlogistic
      (loaded_object_held "ml_models/saved_models/logistic_model.pkl").
    library_call raises.
    held_attribute Hregressor
      (loaded_object_held "ml_models/saved_models/rf_regressor.pkl").
    library_call raises.
    held_attribute Hclassifier
      (loaded_object_held "ml_models/saved_models/rf_classifier.pkl").
    library_call raises.
    library_call raises. library_call raises. library_call raises.
    done.
Qed.

Lemma predict_performance_first_call_witness :
  (Estimators.PerformancePredictor.predict_performance (λ _, None)
     Estimators.PerformancePredictor.__init__ []).1.2
  = Estimators.loaded
      (performance_dumps (Call <$> PerformancePredictor.script))
      Estimators.PerformancePredictor.__init__.
Proof.
  apply (predict_performance_first_call (λ _, None)
           Estimators.PerformancePredictor.__init__ []).
  - by vm_compute.
  - by vm_compute.
Defined.

(** ** A call after a failed load *)

(** The attributes of a fresh predictor after the first [k] of the five
    files have been loaded, for [k] from one to four. *)
Lemma partly_loaded_attributes (k : nat) :
  1 ≤ k ≤ 4 →
  let s := Estimators.loaded
             (take k (performance_dumps (Call <$> PerformancePredictor.script)))
             Estimators.PerformancePredictor.__init__ in
  s !! "logistic_model"
    = Some (Estimators.Loaded "ml_models/saved_models/logistic_model.pkl") ∧
  s !! "scaler" = Some (Estimators.Constructed "StandardScaler") ∧
  (k < 4 → s !! "random_forest_regressor" = Some Estimators.NoneType).
Proof.
  intros Hk. rewrite performance_dumps_script.
  destruct k as [|[|[|[|[|k]]]]]; [lia| | | | |lia];
    (split_and!; [by vm_compute|by vm_compute|]);
    (intros Hlt; first [by vm_compute|lia]).
Qed.

(** X21. When a file cannot be read during the first call of
    [predict_performance] on a fresh predictor, the call ends with the
    exception of [joblib.load] and the predictor keeps the estimators
    loaded before it.  If the logistic model was among them, the scaler,
    which is loaded last, is still the one of the constructor, and no
    later call loads anything, whatever the files are by then: the call
    finds a logistic model, goes on to [transform] with the scaler that
    was never fitted, and ends with [NotFittedError], leaving the
    attributes and the log as they were. *)
Theorem predict_performance_after_failed_load raises (e : exn) log :
  let files := performance_dumps (Call <$> PerformancePredictor.script) in
  let tried := attempt raises (Estimators.joblib_load <$> files.*2) in
  let s1 := Estimators.loaded (take (length tried.1) files)
              Estimators.PerformancePredictor.__init__ in
  tried.2 = Some e →
  Estimators.PerformancePredictor.predict_performance raises
    Estimators.PerformancePredictor.__init__ log
    = (inr (Estimators.Library e), s1, log ++ (Call <$> tried.1)) ∧
  (tried.1 = [] → s1 = Estimators.PerformancePredictor.__init__) ∧
  (tried.1 ≠ [] →
   s1 !! "scaler" = Some (Estimators.Constructed "StandardScaler") ∧
   ∀ raises' log',
     Estimators.PerformancePredictor.predict_performance raises' s1 log'
       = (inr Estimators.NotFittedError, s1, log')).
Proof.
  intros files tried s1 He.
  assert (Estimators.PerformancePredictor.__init__ !! "logistic_model"
          = Some Estimators.NoneType) as Hnone by (by vm_compute).
  destruct (predict_performance_loads raises _ log Hnone) as [_ Hfail].
  fold files in Hfail. fold tried in Hfail.
  split; [by apply Hfail|]. split.
  { intros Hnil. subst s1. by rewrite Hnil. }
  intros Hreturned.
  pose proof (attempt_raised_early raises _ e He) as Hearly.
  fold tried in Hearly. rewrite !length_fmap in Hearly.
  assert (length files = 5) as Hfiles
    by (subst files; by rewrite performance_dumps_script).
  assert (1 ≤ length tried.1 ≤ 4) as Hk.
  { destruct tried.1; [done|]. cbn [length] in *. lia. }
  destruct (partly_loaded_attributes (length tried.1) Hk)
    as (Hlogistic & Hscaler & _).
  fold files in Hlogistic, Hscaler. fold s1 in Hlogistic, Hscaler.
  split; [exact Hscaler|]. intros raises' log'.
  unfold Estimators.PerformancePredictor.predict_performance.
  rewrite (step_getattr _ _ _ _ _ Hlogistic).
  cbv beta iota. rewrite step_pure.
  rewrite (step_on_unfitted _ _ _ _ _ _ _ _ Hscaler);
    [reflexivity|done|by intros []].
Qed.

Lemma predict_performance_after_failed_load_witness :
  let raises := λ c,
    match c with
    | Estimators.joblib_load path =>
        if decide (path = "ml_models/saved_models/gb_classifier.pkl")
        then Some (LibraryError "FileNotFoundError") else None
    | _ => None
    end in
  let s1 :=
    <["random_forest_classifier" :=
        Estimators.Loaded "ml_models/saved_models/rf_classifier.pkl"]>
      (<["logistic_model" :=
           Estimators.Loaded "ml_models/saved_models/logistic_model.pkl"]>
         Estimators.PerformancePredictor.__init__) in
  Estimators.PerformancePredictor.predict_performance raises
    Estimators.PerformancePredictor.__init__ []
    = (inr (Estimators.Library (LibraryError "FileNotFoundError")), s1,
       [Call (Estimators.joblib_load
                "ml_models/saved_models/logistic_model.pkl");
        Call (Estimators.joblib_load
                "ml_models/saved_models/rf_classifier.pkl")]) ∧
  Estimators.PerformancePredictor.predict_performance (λ _, None) s1 []
    = (inr Estimators.NotFittedError, s1, []).
Proof.
  intros raises s1.
  destruct (predict_performance_after_failed_load raises
              (LibraryError "FileNotFoundError") [])
    as (Hrun & _ & Hlater).
  { by vm_compute. }
  split; [exact Hrun|].
  destruct Hlater as [_ Hlater]; [by vm_compute|].
  exact (Hlater (λ _, None) []).
Defined.

(** ** The shape of a normalized frame *)

Section normalize_shape.
Import Normalize.

Lemma map_numeric_rectangular (n : nat) (f : list R → list R) (df : Frame) :
  (∀ xs, length (f xs) = length xs) →
  rectangular n df → rectangular n (map_numeric f df).
Proof.
  intros Hf Hrect. unfold rectangular, map_numeric in *.
  apply Forall_fmap. eapply Forall_impl; [exact Hrect|].
  intros [name [xs|bs|ss]] Hlen; simpl in *; [by rewrite Hf|done..].
Qed.

Lemma select_numeric_map (f : list R → list R) (df : Frame) :
  select_numeric (map_numeric f df) = f <$> select_numeric df.
Proof.
  unfold select_numeric, map_numeric.
  induction df as [|[name [xs|bs|ss]] df IH]; [reflexivity|..];
    cbn [fmap list_fmap omap list_omap snd fst] in *; by rewrite ?IH.
Qed.

Lemma map_numeric_names (f : list R → list R) (df : Frame) :
  (map_numeric f df).*1 = df.*1.
Proof.
  unfold map_numeric. rewrite <- list_fmap_compose.
  apply list_fmap_ext. by intros _ [name [xs|bs|ss]] _.
Qed.

End normalize_shape.

(** X22. [normalize_features] keeps the shape of the frame: the frame it
    returns has the column names, in order, and the number of rows of the
    argument, and as many numeric columns, each of the length it had. *)
Theorem normalize_features_shape (n : nat) (df df' : Normalize.Frame) :
  Normalize.rectangular n df → 0 < n →
  Normalize.normalize_features df = Return df' →
  df'.*1 = df.*1 ∧
  Normalize.rectangular n df' ∧
  length <$> Normalize.select_numeric df'
    = length <$> Normalize.select_numeric df.
Proof.
  intros Hrect Hn Hrun.
  destruct (Normalize.select_numeric df) as [|xs X] eqn:Hnumeric.
  { unfold Normalize.normalize_features in Hrun.
    by rewrite Hnumeric in Hrun. }
  assert (Normalize.select_numeric df ≠ []) as Hsome by (by rewrite Hnumeric).
  destruct (normalize_features_map n df Hrect Hn Hsome) as [_ Hmap].
  rewrite Hmap in Hrun. injection Hrun as <-.
  assert (∀ xs, length (Normalize.standardize xs) = length xs) as Hlen.
  { intros ys. unfold Normalize.standardize. by rewrite length_fmap. }
  split_and!;
    [apply map_numeric_names|by apply map_numeric_rectangular|].
  rewrite select_numeric_map, Hnumeric, <- list_fmap_compose.
  apply list_fmap_ext. intros _ ys _. apply Hlen.
Qed.

Lemma normalize_features_shape_witness :
  ∃ df',
    Normalize.normalize_features Normalize.low = Return df' ∧
    df'.*1 = ["x"; "tag"] ∧
    Normalize.rectangular 2 df' ∧
    length <$> Normalize.select_numeric df' = [2].
Proof.
  assert (Normalize.rectangular 2 Normalize.low) as Hlow.
  { repeat (apply Forall_cons; split; [reflexivity|]). by apply Forall_nil. }
  assert (Normalize.select_numeric Normalize.low ≠ []) as Hsome by done.
  destruct (normalize_features_map 2 Normalize.low Hlow (Nat.lt_0_succ 1)
              Hsome) as [_ Hrun].
  eexists. split; [exact Hrun|].
  exact (normalize_features_shape 2 Normalize.low _ Hlow
           (Nat.lt_0_succ 1) Hrun).
Defined.

(** ** The seeding scripts *)

Lemma choice_nonempty {A} (draw : nat) (seq : list A) :
  seq ≠ [] → ∃ x, choice draw seq = Return x ∧ x ∈ seq.
Proof.
  intros Hne. unfold choice.
  assert (draw `mod` length seq < length seq) as Hlt.
  { apply Nat.mod_upper_bound. by destruct seq. }
  apply lookup_lt_is_Some in Hlt as [x Hx]. exists x. rewrite Hx.
  split; [done|]. by eapply list_elem_of_lookup_2.
Qed.

Lemma choice_elem_of {A} (draw : nat) (seq : list A) (x : A) :
  choice draw seq = Return x → x ∈ seq.
Proof.
  unfold choice.
  destruct (seq !! (draw `mod` length seq)) as [y|] eqn:Hy; [|done].
  intros [= <-]. by eapply list_elem_of_lookup_2.
Qed.

Lemma grade_options_cases (gpa : Q) :
  ((3.5 <= gpa)%Q ∧ SeedTestData.grade_options gpa = ["A"; "A-"; "B+"]) ∨
  ((3.0 <= gpa < 3.5)%Q ∧
   SeedTestData.grade_options gpa = ["A-"; "B+"; "B"; "B-"]) ∨
  ((2.5 <= gpa < 3.0)%Q ∧
   SeedTestData.grade_options gpa = ["B"; "B-"; "C+"; "C"]) ∨
  ((gpa < 2.5)%Q ∧ SeedTestData.grade_options gpa = ["C+"; "C"; "C-"; "D"]).
Proof.
  unfold SeedTestData.grade_options.
  destruct (Qle_bool 3.5 gpa) eqn:H35.
  { apply Qle_bool_iff in H35. by left. }
  assert (gpa < 3.5)%Q as Hlt35.
  { apply Qnot_le_lt. intros Hle%Qle_bool_iff. congruence. }
  destruct (Qle_bool 3.0 gpa) eqn:H30.
  { apply Qle_bool_iff in H30. right. by left. }
  assert (gpa < 3.0)%Q as Hlt30.
  { apply Qnot_le_lt. intros Hle%Qle_bool_iff. congruence. }
  destruct (Qle_bool 2.5 gpa) eqn:H25.
  { apply Qle_bool_iff in H25. right. right. by left. }
  assert (gpa < 2.5)%Q as Hlt25.
  { apply Qnot_le_lt. intros Hle%Qle_bool_iff. congruence. }
  by do 3 right.
Qed.

(** The grade point of an option of a GPA band. *)
Lemma grade_options_points (gpa : Q) (letter : string) :
  letter ∈ SeedTestData.grade_options gpa →
  ∃ point,
    getitem SeedTestData.grade_map letter = Return point ∧
    (letter, point) ∈ SeedTestData.grade_map ∧
    (1 <= point <= 4)%Q ∧
    ((2.5 <= gpa)%Q → DataPreprocessor.at_risk_of point = 0%Z) ∧
    ((3.0 <= gpa)%Q → CourseRecommender.success_of point = 1%Z).
Proof.
  intros Hletter.
  destruct (grade_options_cases gpa)
    as [[Hgpa Hoptions]|[[Hgpa Hoptions]|[[Hgpa Hoptions]|[Hgpa Hoptions]]]];
    rewrite Hoptions in Hletter;
    repeat (apply elem_of_cons in Hletter as [->|Hletter]);
    try (by apply elem_of_nil in Hletter);
    (eexists; split; [reflexivity|]);
    (split_and!;
       [unfold SeedTestData.grade_map;
        repeat first [apply list_elem_of_here|apply list_elem_of_further]
       |by vm_compute|by vm_compute
       |intros Hle; first [reflexivity|exfalso; lra]
       |intros Hle; first [reflexivity|exfalso; lra]]).
Qed.

(** X23. For every student and every draw, [seed_test_data] has a grade
    row to insert: the letter is one of the options of the student's GPA
    band, its grade point is the entry of [grade_map] for that letter
    (the lookup cannot fail), and it lies between 1.0 and 4.0, no band
    offering an F.  A student with a GPA of 2.5 or more gets no grade
    below 2.0, so that such a row is never labelled at risk by
    [prepare_performance_data]; with a GPA of 3.0 or more every row
    counts as a success for [_prepare_training_data]. *)
Theorem seed_test_data_grade_row (student_id : string) (gpa : Q)
    (course_id : string) (draw : SeedTestData.Draw) :
  ∃ g letter,
    SeedTestData.grade_row student_id gpa course_id draw = Return g ∧
    letter ∈ SeedTestData.grade_options gpa ∧
    (letter, Grade.grade_point g) ∈ SeedTestData.grade_map ∧
    Grade.student_id g = student_id ∧ Grade.course_id g = course_id ∧
    Grade.attendance_rate g = SeedTestData.attendance draw ∧
    Grade.semester g ∈ ["Fall"; "Spring"] ∧
    Grade.year g ∈ [2022; 2023]%Z ∧
    (1 <= Grade.grade_point g <= 4)%Q ∧
    ((2.5 <= gpa)%Q →
       DataPreprocessor.at_risk_of (Grade.grade_point g) = 0%Z) ∧
    ((3.0 <= gpa)%Q →
       CourseRecommender.success_of (Grade.grade_point g) = 1%Z).
Proof.
  unfold SeedTestData.grade_row.
  destruct (choice_nonempty (SeedTestData.semester draw) ["Fall"; "Spring"])
    as (semester & -> & Hsemester); [done|].
  destruct (choice_nonempty (SeedTestData.year draw) [2022; 2023]%Z)
    as (year & -> & Hyear); [done|].
  assert (SeedTestData.grade_options gpa ≠ []) as Hne.
  { by destruct (grade_options_cases gpa)
      as [[_ ->]|[[_ ->]|[[_ ->]|[_ ->]]]]. }
  destruct (choice_nonempty (SeedTestData.grade draw) _ Hne)
    as (letter & -> & Hletter).
  cbn [obind].
  destruct (grade_options_points gpa letter Hletter)
    as (point & -> & Hpoint & Hbounds & Hrisk & Hsuccess).
  cbn [obind]. eexists _, letter. split; [reflexivity|].
  cbn [Grade.student_id Grade.course_id Grade.grade_point Grade.semester
       Grade.year Grade.attendance_rate].
  split_and!; [done|done|done|done|done|done|done
              |apply Hbounds|apply Hbounds|done|done].
Qed.

(** X24. The five profiles written in [seed_test_data] all have a GPA
    of 2.5 or more, so a student that the script creates is banded at 2.5
    or more; a student whose e-mail is already stored is banded by the
    GPA of the stored record instead.  On a grade table that holds only
    rows seeded for students banded at 2.5 or more, a call of
    [prepare_performance_data] that returns labels no row at risk: the
    [at_risk] series is all zeros, whatever was drawn. *)
Theorem seed_test_data_no_at_risk :
  Forall (λ p, (2.5 <= SeedTestData.Profile.current_gpa p)%Q)
    SeedTestData.test_students ∧
  ∀ (data : Data) features target at_risk,
    (∀ g, g ∈ grades data →
       ∃ student_id gpa course_id draw,
         (2.5 <= gpa)%Q ∧
         SeedTestData.grade_row student_id gpa course_id draw = Return g) →
    DataPreprocessor.prepare_performance_data data
      = Return (features, target, at_risk) →
    Forall (λ risk, risk = 0%Z) at_risk.
Proof.
  split.
  { unfold SeedTestData.test_students.
    repeat (apply Forall_cons; split; [by vm_compute|]). by apply Forall_nil. }
  intros data features target at_risk Hseeded
    (_ & _ & -> & ->)%prepare_performance_data_return.
  rewrite <- list_fmap_compose. apply Forall_fmap, Forall_forall.
  intros [[g s] c] Hin. cbn [compose fst].
  apply elem_of_inner_joins in Hin as (Hg & _).
  destruct (Hseeded g Hg) as (student_id & gpa & course_id & draw & Hgpa & Hrow).
  unfold SeedTestData.grade_row in Hrow.
  destruct (choice (SeedTestData.grade draw) (SeedTestData.grade_options gpa))
    as [letter|e] eqn:Hletter; [|done].
  apply choice_elem_of in Hletter. cbn [obind] in Hrow.
  destruct (grade_options_points _ letter Hletter)
    as (point & Hpoint & _ & _ & Hrisk & _).
  rewrite Hpoint in Hrow. cbn [obind] in Hrow.
  destruct (choice (SeedTestData.semester draw) ["Fall"; "Spring"])
    as [semester|e]; [|done].
  destruct (choice (SeedTestData.year draw) [2022; 2023]%Z)
    as [year|e]; [|done].
  cbn [obind] in Hrow. injection Hrow as <-. by apply Hrisk.
Qed.

Lemma seed_test_data_no_at_risk_witness :
  ∃ features target at_risk,
    DataPreprocessor.prepare_performance_data seeded
      = Return (features, target, at_risk) ∧
    at_risk = [0; 0]%Z ∧
    Forall (λ risk, risk = 0%Z) at_risk.
Proof.
  eexists _, _, _. split; [reflexivity|]. split; [by vm_compute|].
  refine (proj2 seed_test_data_no_at_risk seeded _ _ _ _ eq_refl).
  intros g [->|[->|Hg%elem_of_nil]%elem_of_cons]%elem_of_cons; [| |done].
  - exists "s1", 3.5%Q, "c1", (SeedTestData.mkDraw 1 80 0 0).
    split; [by vm_compute|reflexivity].
  - exists "s5", 2.5%Q, "c2", (SeedTestData.mkDraw 3 90 1 1).
    split; [by vm_compute|reflexivity].
Defined.

(** ** The dataset generator *)

Lemma min_from_spec {A} (key : A → Q) (best : A) (xs : list A) :
  DatasetGenerator.min_from key best xs ∈ best :: xs ∧
  ∀ y, y ∈ best :: xs →
       (key (DatasetGenerator.min_from key best xs) <= key y)%Q.
Proof.
  revert best. induction xs as [|x xs IH]; intros best.
  { cbn [DatasetGenerator.min_from]. split; [left|].
    intros y ->%list_elem_of_singleton. apply Qle_refl. }
  cbn [DatasetGenerator.min_from].
  destruct (Qlt_le_dec (key x) (key best)) as [Hlt|Hle].
  - destruct (IH x) as [Hin Hmin]. split.
    + by right.
    + intros y [->|Hy]%elem_of_cons; [|by apply Hmin].
      apply Qle_trans with (key x); [apply Hmin; left|by apply Qlt_le_weak].
  - destruct (IH best) as [Hin Hmin]. split.
    + apply elem_of_cons in Hin as [->|Hin]; [left|by do 2 right].
    + intros y [->|[->|Hy]%elem_of_cons]%elem_of_cons.
      * apply Hmin. left.
      * apply Qle_trans with (key best); [apply Hmin; left|done].
      * apply Hmin. by right.
Qed.

Lemma grade_of_key (k : Q) :
  k ∈ DatasetGenerator.grade_map.*1 →
  ∃ letter, DatasetGenerator.grade_of k = Return letter ∧
            (k, letter) ∈ DatasetGenerator.grade_map.
Proof.
  unfold DatasetGenerator.grade_map. cbn [fmap list_fmap fst].
  intros Hk.
  repeat (apply elem_of_cons in Hk as [->|Hk];
          [eexists; split; [by vm_compute|];
           repeat first [apply list_elem_of_here|apply list_elem_of_further]
          |]).
  by apply elem_of_nil in Hk.
Qed.

Lemma clamp_bounds (x : Q) :
  (0 <= Qmax 0 (Qmin 4.0 x) <= 4)%Q.
Proof.
  split; [apply Q.le_max_l|].
  apply Q.max_lub; [lra|]. pose proof (Q.le_min_l 4.0 x). lra.
Qed.

(** A key of the scale lies within one half of every grade point. *)
Lemma scale_covers (gp : Q) :
  (0 <= gp <= 4)%Q →
  ∃ k, k ∈ DatasetGenerator.grade_map.*1 ∧ (Qabs (k - gp) <= 1 # 2)%Q.
Proof.
  intros [Hlo Hhi]. unfold DatasetGenerator.grade_map.
  cbn [fmap list_fmap fst].
  destruct (Qlt_le_dec gp (1 # 2)) as [H0|H0].
  { exists 0.0%Q. split; [do 9 apply list_elem_of_further; left|].
    apply Qabs_Qle_condition. split; lra. }
  destruct (Qlt_le_dec gp (3 # 2)) as [H1|H1].
  { exists 1.0%Q. split; [do 8 apply list_elem_of_further; left|].
    apply Qabs_Qle_condition. split; lra. }
  destruct (Qlt_le_dec gp (5 # 2)) as [H2|H2].
  { exists 2.0%Q. split; [do 6 apply list_elem_of_further; left|].
    apply Qabs_Qle_condition. split; lra. }
  destruct (Qlt_le_dec gp (7 # 2)) as [H3|H3].
  { exists 3.0%Q. split; [do 3 apply list_elem_of_further; left|].
    apply Qabs_Qle_condition. split; lra. }
  exists 4.0%Q. split; [left|].
  apply Qabs_Qle_condition. split; lra.
Qed.

Section rounding_facts.
Context (round : Q → Q).
Context (Hmonotone : ∀ x y, (x <= y)%Q → (round x <= round y)%Q).
Context (Hwhole : ∀ z : Z, round (inject_Z z) == inject_Z z).

Lemma round_bounds (lo hi : Z) (x : Q) :
  (inject_Z lo <= x <= inject_Z hi)%Q →
  (inject_Z lo <= round x <= inject_Z hi)%Q.
Proof.
  intros [Hlo Hhi]. split.
  - rewrite <- (Hwhole lo). by apply Hmonotone.
  - rewrite <- (Hwhole hi). by apply Hmonotone.
Qed.

(** One round of [generate_grades] on a course table that is not
    empty. *)
Lemma generate_grade_row (student_id : string)
    (draw : DatasetGenerator.GradeDraw) :
  DatasetGenerator.courses draw ≠ [] →
  let grade_point :=
    Qmax 0 (Qmin 4.0 (3.0 + DatasetGenerator.gpa_influence draw)) in
  ∃ row closest,
    DatasetGenerator.generate_grade round student_id draw
      = Return (Some row) ∧
    DatasetGenerator.GradeRow.student_id row = student_id ∧
    DatasetGenerator.GradeRow.course_id row
      ∈ DatasetGenerator.courses draw ∧
    DatasetGenerator.GradeRow.semester row ∈ DatasetGenerator.semesters ∧
    DatasetGenerator.GradeRow.year row = DatasetGenerator.year draw ∧
    DatasetGenerator.GradeRow.grade_point row = round grade_point ∧
    (0 <= DatasetGenerator.GradeRow.grade_point row <= 4)%Q ∧
    (closest, DatasetGenerator.GradeRow.grade row)
      ∈ DatasetGenerator.grade_map ∧
    (∀ k, k ∈ DatasetGenerator.grade_map.*1 →
          (Qabs (closest - grade_point) <= Qabs (k - grade_point))%Q) ∧
    (Qabs (closest - grade_point) <= 1 # 2)%Q ∧
    ((75 <= DatasetGenerator.attendance draw <= 100)%Q →
     (75 <= DatasetGenerator.GradeRow.attendance_rate row <= 100)%Q).
Proof.
  intros Hcourses grade_point.
  unfold DatasetGenerator.generate_grade.
  destruct (choice_nonempty (DatasetGenerator.semester draw)
              DatasetGenerator.semesters) as (semester & -> & Hsemester);
    [done|].
  destruct (choice_nonempty (DatasetGenerator.course draw) _ Hcourses)
    as (course_id & Hcourse & Hcourse_in).
  cbn [obind].
  destruct (DatasetGenerator.courses draw) as [|c cs] eqn:Hcs; [done|].
  rewrite Hcourse. cbn [obind]. fold grade_point.
  destruct (min_from_spec (λ x, Qabs (x - grade_point)) 4.0%Q
              [3.7; 3.3; 3.0; 2.7; 2.3; 2.0; 1.7; 1.0; 0.0]%Q)
    as [Hclosest Hleast].
  change (DatasetGenerator.min_by (λ x, Qabs (x - grade_point))
            DatasetGenerator.grade_map.*1)
    with (Return (DatasetGenerator.min_from (λ x, Qabs (x - grade_point))
                    4.0%Q [3.7; 3.3; 3.0; 2.7; 2.3; 2.0; 1.7; 1.0; 0.0]%Q)).
  set (closest := DatasetGenerator.min_from _ _ _) in *.
  cbn [obind].
  destruct (grade_of_key closest Hclosest) as (letter & -> & Hletter).
  cbn [obind]. eexists _, closest. split; [reflexivity|].
  cbn [DatasetGenerator.GradeRow.student_id
       DatasetGenerator.GradeRow.course_id
       DatasetGenerator.GradeRow.semester DatasetGenerator.GradeRow.year
       DatasetGenerator.GradeRow.grade_point DatasetGenerator.GradeRow.grade
       DatasetGenerator.GradeRow.attendance_rate].
  pose proof (clamp_bounds (3.0 + DatasetGenerator.gpa_influence draw))
    as Hclamp. fold grade_point in Hclamp.
  split_and!; [done|done|done|done|done| | |done|exact Hleast| |].
  - apply (round_bounds 0 4), Hclamp.
  - apply (round_bounds 0 4), Hclamp.
  - destruct (scale_covers grade_point Hclamp) as (k & Hk & Hnear).
    eapply Qle_trans; [apply (Hleast k Hk)|exact Hnear].
  - intros Hattendance. apply (round_bounds 75 100), Hattendance.
Qed.

Lemma generate_grades_rows_from (student_id : string)
    (draws : list DatasetGenerator.GradeDraw) :
  ∃ rows,
    DatasetGenerator.generate_grades round student_id draws = Return rows ∧
    length rows
      = length (filter (λ d, DatasetGenerator.courses d ≠ []) draws) ∧
    Forall (λ row,
      ∃ draw closest,
        draw ∈ draws ∧
        DatasetGenerator.generate_grade round student_id draw
          = Return (Some row) ∧
        DatasetGenerator.GradeRow.student_id row = student_id ∧
        DatasetGenerator.GradeRow.course_id row
          ∈ DatasetGenerator.courses draw ∧
        (0 <= DatasetGenerator.GradeRow.grade_point row <= 4)%Q ∧
        (closest, DatasetGenerator.GradeRow.grade row)
          ∈ DatasetGenerator.grade_map ∧
        (∀ k, k ∈ DatasetGenerator.grade_map.*1 →
           (Qabs (closest
                  - Qmax 0 (Qmin 4.0
                              (3.0 + DatasetGenerator.gpa_influence draw)))
            <= Qabs (k
                     - Qmax 0 (Qmin 4.0
                                 (3.0 + DatasetGenerator.gpa_influence draw))))%Q) ∧
        (Qabs (closest
               - Qmax 0 (Qmin 4.0
                           (3.0 + DatasetGenerator.gpa_influence draw)))
           <= 1 # 2)%Q) rows.
Proof.
  induction draws as [|draw draws (rows & IHrun & IHlength & IHrows)].
  { exists []. split_and!; [done|done|by apply Forall_nil]. }
  cbn [DatasetGenerator.generate_grades].
  destruct (decide (DatasetGenerator.courses draw = [])) as [Hnone|Hsome].
  - assert (DatasetGenerator.generate_grade round student_id draw
            = Return None) as ->.
    { unfold DatasetGenerator.generate_grade.
      destruct (choice_nonempty (DatasetGenerator.semester draw)
                  DatasetGenerator.semesters) as (semester & -> & _);
        [done|].
      cbn [obind]. by rewrite Hnone. }
    cbn [obind]. rewrite IHrun. cbn [obind]. exists rows.
    split_and!; [done| |].
    + rewrite filter_cons_False by (by intros ?). exact IHlength.
    + eapply Forall_impl; [exact IHrows|].
      intros row (d & closest & Hd & Hrest). exists d, closest.
      split; [by right|exact Hrest].
  - destruct (generate_grade_row student_id draw Hsome)
      as (row & closest & Hrun & Hid & Hcourse & _ & _ & _ & Hbounds
          & Hletter & Hleast & Hnear & _).
    rewrite Hrun. cbn [obind]. rewrite IHrun. cbn [obind].
    exists (row :: rows). split_and!; [done| |].
    + rewrite filter_cons_True by done. cbn [length]. by rewrite IHlength.
    + apply Forall_cons. split.
      * exists draw, closest.
        split_and!; [left|exact Hrun|exact Hid|exact Hcourse|apply Hbounds
                    |apply Hbounds|exact Hletter|exact Hleast|exact Hnear].
      * eapply Forall_impl; [exact IHrows|].
        intros row' (d & closest' & Hd & Hrest). exists d, closest'.
        split; [by right|exact Hrest].
Qed.

End rounding_facts.

(** ** Rounding to hundredths *)

Lemma round2_nearest (x : Q) :
  ∃ n : Z, round2 x = (inject_Z n / 100)%Q ∧
           (inject_Z n - (1 # 2) <= x * 100 <= inject_Z n + (1 # 2))%Q.
Proof.
  unfold round2.
  pose proof (Qfloor_le (x * 100)) as Hbelow.
  pose proof (Qlt_floor (x * 100)) as Habove.
  rewrite inject_Z_plus in Habove. change (inject_Z 1) with 1%Q in Habove.
  set (below := Qfloor (x * 100)) in *. cbv zeta.
  destruct (Qlt_le_dec (x * 100 - inject_Z below) (1 # 2)) as [Hlow|Hhigh].
  { exists below. split; [done|]. split; lra. }
  destruct (Qlt_le_dec (1 # 2) (x * 100 - inject_Z below)) as [Hover|Htie].
  { exists (below + 1)%Z. split; [done|].
    rewrite inject_Z_plus. change (inject_Z 1) with 1%Q. split; lra. }
  destruct (Z.even below).
  - exists below. split; [done|]. split; lra.
  - exists (below + 1)%Z. split; [done|].
    rewrite inject_Z_plus. change (inject_Z 1) with 1%Q. split; lra.
Qed.

Lemma round2_comp (x y : Q) : x == y → round2 x = round2 y.
Proof.
  intros Hxy. unfold round2.
  assert (x * 100 == y * 100)%Q as Hscaled by (by rewrite Hxy).
  rewrite (Qfloor_comp _ _ Hscaled).
  set (below := Qfloor (y * 100)). cbv zeta.
  destruct (Qlt_le_dec (x * 100 - inject_Z below) (1 # 2)),
    (Qlt_le_dec (y * 100 - inject_Z below) (1 # 2));
    [done|exfalso; lra|exfalso; lra|].
  destruct (Qlt_le_dec (1 # 2) (x * 100 - inject_Z below)),
    (Qlt_le_dec (1 # 2) (y * 100 - inject_Z below));
    [done|exfalso; lra|exfalso; lra|done].
Qed.

Lemma round2_monotone (x y : Q) : (x <= y)%Q → (round2 x <= round2 y)%Q.
Proof.
  intros Hxy.
  destruct (round2_nearest x) as (nx & Hx & Hx_lo & Hx_hi).
  destruct (round2_nearest y) as (ny & Hy & Hy_lo & Hy_hi).
  destruct (decide (nx ≤ ny)%Z) as [Hle|Hgt].
  - rewrite Hx, Hy. rewrite Zle_Qle in Hle.
    unfold Qdiv. by apply Qmult_le_compat_r.
  - assert (ny + 1 ≤ nx)%Z as Hstep by lia.
    rewrite Zle_Qle in Hstep. rewrite inject_Z_plus in Hstep.
    change (inject_Z 1) with 1%Q in Hstep.
    assert (x == y) as Heq by lra.
    rewrite (round2_comp x y Heq). apply Qle_refl.
Qed.

Lemma round2_whole (z : Z) : round2 (inject_Z z) == inject_Z z.
Proof.
  destruct (round2_nearest (inject_Z z)) as (n & -> & Hlo & Hhi).
  assert (n = (z * 100)%Z) as ->.
  { unfold Qle, Qplus, Qminus, Qmult, Qopp, inject_Z in Hlo, Hhi.
    cbn in Hlo, Hhi. lia. }
  rewrite inject_Z_mult. change (inject_Z 100) with 100%Q. field.
Qed.

(** X25. [generate_grades] never fails, whatever is drawn.  It returns
    one row for every round whose course query gave at least one course
    and skips the other rounds, so at most [num_courses] rows and none
    at all on an empty course table.  Every row carries the given
    student, a course of the query of its round and a grade point
    between 0 and 4; its letter is the one of a grade of the scale that
    is nearest to the grade point before rounding: no grade of the scale
    is nearer, and it is within one half of it. *)
Theorem generate_grades_rows (round : Q → Q) (student_id : string)
    (draws : list DatasetGenerator.GradeDraw) :
  (∀ x y, (x <= y)%Q → (round x <= round y)%Q) →
  (∀ z : Z, round (inject_Z z) == inject_Z z) →
  ∃ rows,
    DatasetGenerator.generate_grades round student_id draws = Return rows ∧
    length rows
      = length (filter (λ d, DatasetGenerator.courses d ≠ []) draws) ∧
    length rows ≤ length draws ∧
    Forall (λ row,
      ∃ draw closest,
        draw ∈ draws ∧
        DatasetGenerator.generate_grade round student_id draw
          = Return (Some row) ∧
        DatasetGenerator.GradeRow.student_id row = student_id ∧
        DatasetGenerator.GradeRow.course_id row
          ∈ DatasetGenerator.courses draw ∧
        (0 <= DatasetGenerator.GradeRow.grade_point row <= 4)%Q ∧
        (closest, DatasetGenerator.GradeRow.grade row)
          ∈ DatasetGenerator.grade_map ∧
        (∀ k, k ∈ DatasetGenerator.grade_map.*1 →
           (Qabs (closest
                  - Qmax 0 (Qmin 4.0
                              (3.0 + DatasetGenerator.gpa_influence draw)))
            <= Qabs (k
                     - Qmax 0 (Qmin 4.0
                                 (3.0 + DatasetGenerator.gpa_influence draw))))%Q) ∧
        (Qabs (closest
               - Qmax 0 (Qmin 4.0
                           (3.0 + DatasetGenerator.gpa_influence draw)))
           <= 1 # 2)%Q) rows.
Proof.
  intros Hmonotone Hwhole.
  destruct (generate_grades_rows_from round Hmonotone Hwhole student_id draws)
    as (rows & Hrun & Hlength & Hrows).
  exists rows. split_and!; [done|done| |done].
  rewrite Hlength. apply length_filter.
Qed.

Lemma generate_grades_rows_witness :
  ∃ rows,
    DatasetGenerator.generate_grades round2 "s1"
      [DatasetGenerator.mkGradeDraw 2024 1 ["c1"; "c2"] 3 (85 # 100) 88.456;
       DatasetGenerator.mkGradeDraw 2024 1 [] 3 (85 # 100) 88.456;
       DatasetGenerator.mkGradeDraw 2023 2 ["c1"] 0 (-4) 75.005]
      = Return rows ∧
    length rows = 2.
Proof.
  destruct (generate_grades_rows round2 "s1"
      [DatasetGenerator.mkGradeDraw 2024 1 ["c1"; "c2"] 3 (85 # 100) 88.456;
       DatasetGenerator.mkGradeDraw 2024 1 [] 3 (85 # 100) 88.456;
       DatasetGenerator.mkGradeDraw 2023 2 ["c1"] 0 (-4) 75.005]
      round2_monotone round2_whole)
    as (rows & Hrun & Hlength & _).
  exists rows. split; [exact Hrun|]. rewrite Hlength. reflexivity.
Defined.

(** X26. The two scripts use one grade scale.  For every letter of the
    [grade_map] of [seed_test_data], the grade of the scale of
    [generate_grades] that is nearest to its grade point is that grade
    point itself, and the letter [generate_grades] gives it is the same
    letter; and the scale of [generate_grades] holds the same ten pairs
    of letter and grade point, no more. *)
Theorem grade_scales_agree (letter : string) (point : Q) :
  ((letter, point) ∈ SeedTestData.grade_map ↔
   (point, letter) ∈ DatasetGenerator.grade_map) ∧
  ((letter, point) ∈ SeedTestData.grade_map →
   DatasetGenerator.min_by (λ x, Qabs (x - point))
     DatasetGenerator.grade_map.*1 = Return point ∧
   DatasetGenerator.grade_of point = Return letter).
Proof.
  split; [split|].
  - unfold SeedTestData.grade_map. intros Hin.
    repeat (apply elem_of_cons in Hin as [[= -> ->]|Hin];
            [unfold DatasetGenerator.grade_map;
             repeat first [apply list_elem_of_here|apply list_elem_of_further]
            |]).
    by apply elem_of_nil in Hin.
  - unfold DatasetGenerator.grade_map. intros Hin.
    repeat (apply elem_of_cons in Hin as [[= -> ->]|Hin];
            [unfold SeedTestData.grade_map;
             repeat first [apply list_elem_of_here|apply list_elem_of_further]
            |]).
    by apply elem_of_nil in Hin.
  - unfold SeedTestData.grade_map. intros Hin.
    repeat (apply elem_of_cons in Hin as [[= -> ->]|Hin];
            [split; by vm_compute|]).
    by apply elem_of_nil in Hin.
Qed.

Lemma grade_scales_agree_witness :
  DatasetGenerator.grade_of 3.3 = Return "B+".
Proof.
  apply (grade_scales_agree "B+" 3.3).
  unfold SeedTestData.grade_map.
  do 2 apply list_elem_of_further. apply list_elem_of_here.
Defined.

(** X27. [generate_disabilities] returns [None] for a student without
    disability and draws nothing.  For a student with a disability it
    returns a record for that student whose type is one of the four
    types, and both accommodation fields are filled: every type that can
    be drawn is a key of the accommodation map. *)
Theorem generate_disabilities_record (student_id : string) (draw : nat) :
  DatasetGenerator.generate_disabilities student_id false draw
    = Return None ∧
  ∃ row,
    DatasetGenerator.generate_disabilities student_id true draw
      = Return (Some row) ∧
    DatasetGenerator.DisabilityRow.student_id row = student_id ∧
    DatasetGenerator.DisabilityRow.disability_type row
      ∈ ["Visual"; "Hearing"; "Mobility"; "Learning"] ∧
    (∃ accommodation,
       get DatasetGenerator.accommodation_map
         (DatasetGenerator.DisabilityRow.disability_type row)
         = Some accommodation ∧
       DatasetGenerator.DisabilityRow.preferred_interaction_mode row
         = get accommodation "preferred_interaction_mode" ∧
       DatasetGenerator.DisabilityRow.support_requirements row
         = get accommodation "support_requirements") ∧
    is_Some (DatasetGenerator.DisabilityRow.preferred_interaction_mode row) ∧
    is_Some (DatasetGenerator.DisabilityRow.support_requirements row).
Proof.
  split; [reflexivity|].
  unfold DatasetGenerator.generate_disabilities. cbn [negb].
  destruct (choice_nonempty draw ["Visual"; "Hearing"; "Mobility"; "Learning"])
    as (disability_type & -> & Hin); [done|].
  cbn [obind]. eexists. split; [reflexivity|].
  cbn [DatasetGenerator.DisabilityRow.student_id
       DatasetGenerator.DisabilityRow.disability_type
       DatasetGenerator.DisabilityRow.preferred_interaction_mode
       DatasetGenerator.DisabilityRow.support_requirements].
  split; [done|]. split; [exact Hin|].
  repeat (apply elem_of_cons in Hin as [->|Hin];
          [split_and!; [eexists; split_and!; by vm_compute
                       |by vm_compute; eexists|by vm_compute; eexists]|]).
  by apply elem_of_nil in Hin.
Qed.

(** ** Generated students *)

Lemma string_length_app (s1 s2 : string) :
  String.length (s1 +:+ s2) = String.length s1 + String.length s2.
Proof.
  induction s1 as [|a s1 IH]; [done|].
  change (S (String.length (s1 +:+ s2))
          = S (String.length s1 + String.length s2)).
  by rewrite IH.
Qed.

Lemma string_app_inv_tail (s1 s2 t : string) :
  s1 +:+ t = s2 +:+ t → s1 = s2.
Proof.
  revert s2. induction s1 as [|a s1 IH]; intros [|b s2] Heq; [done|..].
  - apply (f_equal String.length) in Heq.
    rewrite !string_length_app in Heq. cbn [String.length] in Heq. lia.
  - apply (f_equal String.length) in Heq.
    rewrite !string_length_app in Heq. cbn [String.length] in Heq. lia.
  - change (String a (s1 +:+ t) = String b (s2 +:+ t)) in Heq.
    injection Heq as -> Heq. f_equal. by apply IH.
Qed.

Lemma email_inj (i j : nat) :
  "student" +:+ pretty (i + 1) +:+ "@university.edu"
    = "student" +:+ pretty (j + 1) +:+ "@university.edu" →
  i = j.
Proof.
  intros Heq. apply (String.app_inj "student") in Heq.
  apply string_app_inv_tail in Heq.
  apply (inj pretty) in Heq. lia.
Qed.

Section student_rounding.
Context (round : Q → Q).
Context (Hmonotone : ∀ x y, (x <= y)%Q → (round x <= round y)%Q).
Context (Hwhole : ∀ z : Z, round (inject_Z z) == inject_Z z).

Lemma generate_student_row (i : nat) (draw : DatasetGenerator.StudentDraw) :
  ∃ row,
    DatasetGenerator.generate_student round i draw = Return row ∧
    DatasetGenerator.StudentRow.full_name row
      = "Student " +:+ pretty (i + 1) ∧
    DatasetGenerator.StudentRow.email row
      = "student" +:+ pretty (i + 1) +:+ "@university.edu" ∧
    (0 <= DatasetGenerator.StudentRow.current_gpa row <= 4)%Q ∧
    DatasetGenerator.StudentRow.academic_level row
      ∈ DatasetGenerator.academic_levels ∧
    DatasetGenerator.StudentRow.major row ∈ DatasetGenerator.departments.
Proof.
  unfold DatasetGenerator.generate_student.
  destruct (choice_nonempty (DatasetGenerator.level draw)
              DatasetGenerator.academic_levels) as (level & -> & Hlevel);
    [done|].
  destruct (choice_nonempty (DatasetGenerator.disabled draw) [true; false])
    as (has_disability & -> & _); [done|].
  destruct (choice_nonempty (DatasetGenerator.department draw)
              DatasetGenerator.departments) as (major & -> & Hmajor);
    [done|].
  cbn [obind]. eexists. split; [reflexivity|].
  cbn [DatasetGenerator.StudentRow.full_name
       DatasetGenerator.StudentRow.email
       DatasetGenerator.StudentRow.current_gpa
       DatasetGenerator.StudentRow.academic_level
       DatasetGenerator.StudentRow.major].
  split_and!; [done|done| | |done|done];
    apply (round_bounds round Hmonotone Hwhole 0 4), clamp_bounds.
Qed.

Lemma generate_students_from_rows (i : nat)
    (draws : list DatasetGenerator.StudentDraw) :
  ∃ rows,
    DatasetGenerator.generate_students_from round i draws = Return rows ∧
    length rows = length draws ∧
    DatasetGenerator.StudentRow.email <$> rows
      = (λ j, "student" +:+ pretty (j + 1) +:+ "@university.edu")
          <$> seq i (length draws) ∧
    DatasetGenerator.StudentRow.full_name <$> rows
      = (λ j, "Student " +:+ pretty (j + 1)) <$> seq i (length draws) ∧
    Forall (λ row,
      (0 <= DatasetGenerator.StudentRow.current_gpa row <= 4)%Q ∧
      DatasetGenerator.StudentRow.academic_level row
        ∈ DatasetGenerator.academic_levels ∧
      DatasetGenerator.StudentRow.major row ∈ DatasetGenerator.departments)
      rows.
Proof.
  revert i. induction draws as [|draw draws IH]; intros i.
  { exists []. split_and!; [done..|by apply Forall_nil]. }
  cbn [DatasetGenerator.generate_students_from].
  destruct (generate_student_row i draw)
    as (row & -> & Hname & Hemail & Hgpa & Hlevel & Hmajor).
  destruct (IH (S i)) as (rows & -> & Hlength & Hemails & Hnames & Hrows).
  cbn [obind]. exists (row :: rows).
  split_and!; [done|by cbn; rewrite Hlength|..].
  - cbn [length seq fmap list_fmap]. cbn [fmap] in Hemails.
    by rewrite Hemail, Hemails.
  - cbn [length seq fmap list_fmap]. cbn [fmap] in Hnames.
    by rewrite Hname, Hnames.
  - apply Forall_cons. by split.
Qed.

End student_rounding.

(** X28. [generate_students] never fails and returns one profile for
    every round.  The profile of round [i] is named [Student i+1] and has
    the address [student(i+1)@university.edu], so that no two profiles
    share an address; its GPA lies between 0 and 4, and its level and
    major are among the listed ones. *)
Theorem generate_students_rows (round : Q → Q)
    (draws : list DatasetGenerator.StudentDraw) :
  (∀ x y, (x <= y)%Q → (round x <= round y)%Q) →
  (∀ z : Z, round (inject_Z z) == inject_Z z) →
  ∃ rows,
    DatasetGenerator.generate_students round draws = Return rows ∧
    length rows = length draws ∧
    (∀ i row, rows !! i = Some row →
       DatasetGenerator.StudentRow.full_name row
         = "Student " +:+ pretty (i + 1) ∧
       DatasetGenerator.StudentRow.email row
         = "student" +:+ pretty (i + 1) +:+ "@university.edu" ∧
       (0 <= DatasetGenerator.StudentRow.current_gpa row <= 4)%Q ∧
       DatasetGenerator.StudentRow.academic_level row
         ∈ DatasetGenerator.academic_levels ∧
       DatasetGenerator.StudentRow.major row ∈ DatasetGenerator.departments) ∧
    NoDup (DatasetGenerator.StudentRow.email <$> rows).
Proof.
  intros Hmonotone Hwhole. unfold DatasetGenerator.generate_students.
  destruct (generate_students_from_rows round Hmonotone Hwhole 0 draws)
    as (rows & Hrun & Hlength & Hemails & Hnames & Hrows).
  exists rows. split_and!; [done|done| |].
  - intros i row Hi.
    assert (i < length draws) as Hlt.
    { rewrite <- Hlength. by eapply lookup_lt_Some. }
    rewrite Forall_lookup in Hrows.
    destruct (Hrows i row Hi) as (Hgpa & Hlevel & Hmajor).
    split_and!; [| |apply Hgpa|apply Hgpa|done|done].
    + apply (f_equal (λ l, l !! i)) in Hnames.
      rewrite !list_lookup_fmap, Hi, lookup_seq_lt in Hnames by done.
      cbn in Hnames. by injection Hnames.
    + apply (f_equal (λ l, l !! i)) in Hemails.
      rewrite !list_lookup_fmap, Hi, lookup_seq_lt in Hemails by done.
      cbn in Hemails. by injection Hemails.
  - rewrite Hemails. apply NoDup_fmap_2_strong; [|apply NoDup_seq].
    intros i j _ _. apply email_inj.
Qed.

Lemma generate_students_rows_witness :
  ∃ rows,
    DatasetGenerator.generate_students round2
      [DatasetGenerator.mkStudentDraw 0 0 (1 # 2) (3 # 10) 2;
       DatasetGenerator.mkStudentDraw 4 1 5 (3 # 10) 12]
      = Return rows ∧
    NoDup (DatasetGenerator.StudentRow.email <$> rows).
Proof.
  destruct (generate_students_rows round2
      [DatasetGenerator.mkStudentDraw 0 0 (1 # 2) (3 # 10) 2;
       DatasetGenerator.mkStudentDraw 4 1 5 (3 # 10) 12]
      round2_monotone round2_whole)
    as (rows & Hrun & _ & _ & Hemails).
  by exists rows.
Defined.
